(** * OKX / DeepSeek ETH perpetual trading bot: decision parsing and execution

    A shallow embedding of [OKX_AI_ETHv5.py] (and of the response parser of
    [OKX_AI_ETHv1.py]).  Python values that come from JSON are kept dynamic
    ([json]); numbers are binary64 floats, the kernel's primitive floats, so
    every comparison and division computes what CPython computes; exceptions
    are an explicit result type; the exchange, the AI endpoint, the log files
    and [time.sleep] are a world that is threaded through every call, with
    the trace of everything the program did to it. *)

From Stdlib Require Import List String Ascii Bool Arith Lia ZArith Floats.
Import ListNotations.
Set Warnings "-inexact-float,-register-all".
Local Open Scope string_scope.
Local Open Scope list_scope.

(** ** Exceptions and results *)

(** The exception classes the modelled code can meet.  [ValueError] and
    [ApiError] carry the text that [str(e)] gives; [ApiError] stands for the
    plain [Exception] and the [requests] errors that [_make_request] raises. *)
Inductive exn : Type :=
| TypeError
| KeyError
| IndexError
| AttributeError
| JSONDecodeError
| ValueError (msg : string)
| ApiError (msg : string).

Definition exn_str (e : exn) : string :=
  match e with
  | ValueError m | ApiError m => m
  | TypeError => "TypeError"
  | KeyError => "KeyError"
  | IndexError => "IndexError"
  | AttributeError => "AttributeError"
  | JSONDecodeError => "JSONDecodeError"
  end.

Inductive res (A : Type) : Type :=
| Ok (a : A)
| Raise (e : exn).
Arguments Ok {A} a.
Arguments Raise {A} e.

Definition rbind {A B : Type} (r : res A) (k : A -> res B) : res B :=
  match r with
  | Ok a => k a
  | Raise e => Raise e
  end.

Notation "'let?' x ':=' r 'in' k" := (rbind r (fun x => k))
  (at level 10, x name, r at level 100, k at level 200).

(** ** JSON values as Python sees them *)

(** What [json.loads] returns: [None], [bool], a number, [str], [list] or
    [dict].  A dict is an association list that holds each key once; lookup
    takes the first binding. *)
Inductive json : Type :=
| JNull
| JBool (b : bool)
| JNum (x : float)
| JStr (s : string)
| JArr (l : list json)
| JObj (m : list (string * json)).

Fixpoint assoc (k : string) (m : list (string * json)) : option json :=
  match m with
  | [] => None
  | (k', v) :: m' => if String.eqb k k' then Some v else assoc k m'
  end.

Definition has_key (k : string) (m : list (string * json)) : bool :=
  match assoc k m with
  | Some _ => true
  | None => false
  end.

(** [needle in hay] for two strings: substring test. *)
Fixpoint contains_sub (needle hay : string) : bool :=
  if String.prefix needle hay then true
  else match hay with
       | EmptyString => false
       | String _ h => contains_sub needle h
       end.

Definition is_str (k : string) (v : json) : bool :=
  match v with
  | JStr s => String.eqb s k
  | _ => false
  end.

(** [k in v] with [k] a string: key membership for a dict, element
    membership for a list, substring for a string, [TypeError] for the
    values that are not containers. *)
Definition py_contains (k : string) (v : json) : res bool :=
  match v with
  | JObj m => Ok (has_key k m)
  | JArr l => Ok (existsb (is_str k) l)
  | JStr s => Ok (contains_sub k s)
  | JNull | JBool _ | JNum _ => Raise TypeError
  end.

(** [v[k]] with [k] a string: only a dict can be indexed by a string. *)
Definition py_getitem (v : json) (k : string) : res json :=
  match v with
  | JObj m => match assoc k m with
              | Some x => Ok x
              | None => Raise KeyError
              end
  | _ => Raise TypeError
  end.

(** [all(field in v for field in fields)]: stops at the first field that is
    missing, raises when [v] is not a container. *)
Fixpoint py_all_in (fields : list string) (v : json) : res bool :=
  match fields with
  | [] => Ok true
  | f :: fs =>
      let? b := py_contains f v in
      if b then py_all_in fs v else Ok false
  end.

(** [v in names] for a list of string constants: [==] against each. *)
Definition py_in_strs (v : json) (names : list string) : bool :=
  existsb (fun n => is_str n v) names.

(** The number a value stands for under [<], [<=], [>], [>=] against a
    float, and under the [f] format code: a float is itself, [True] and
    [False] are 1 and 0, anything else is a [TypeError].  (JSON integers are
    read as the float of the same value.) *)
Definition py_num (v : json) : res float :=
  match v with
  | JNum x => Ok x
  | JBool true => Ok 1%float
  | JBool false => Ok 0%float
  | _ => Raise TypeError
  end.

(** Truth value of a string: non-empty. *)
Definition nonempty (s : string) : bool :=
  match s with
  | EmptyString => false
  | _ => true
  end.

(** [bool(v)] *)
Definition py_truthy (v : json) : bool :=
  match v with
  | JNull => false
  | JBool b => b
  | JNum x => negb (x =? 0)%float
  | JStr s => nonempty s
  | JArr l => negb (Nat.eqb (List.length l) 0)
  | JObj m => negb (Nat.eqb (List.length m) 0)
  end.

(** [v.get(k, default)]: a method of dicts only. *)
Definition py_get (v : json) (k : string) (default : json) : res json :=
  match v with
  | JObj m => Ok (match assoc k m with
                  | Some x => x
                  | None => default
                  end)
  | _ => Raise AttributeError
  end.

(** [len(v)] *)
Definition py_len (v : json) : res nat :=
  match v with
  | JArr l => Ok (List.length l)
  | JObj m => Ok (List.length m)
  | JStr s => Ok (String.length s)
  | _ => Raise TypeError
  end.

(** [v[i]] with [i] a natural number. *)
Definition py_index (v : json) (i : nat) : res json :=
  match v with
  | JArr l => match nth_error l i with
              | Some x => Ok x
              | None => Raise IndexError
              end
  | JStr s => match String.get i s with
              | Some c => Ok (JStr (String c EmptyString))
              | None => Raise IndexError
              end
  | JObj _ => Raise KeyError
  | _ => Raise TypeError
  end.

(** The one object that [json.loads] returns for [NaN]. *)
Definition is_nan (v : json) : bool :=
  match v with
  | JNum x => negb (x =? x)%float
  | _ => false
  end.

(** [a == b].  Numbers compare as floats, so that [NaN] equals nothing, and
    [True] and [False] compare as 1 and 0.  Two lists are equal when they
    have the same length and equal members in order, two dicts when they
    have the same keys with equal values.  Inside a list or a dict Python
    compares two members by identity before it compares them by value, and
    the [NaN] of [json.loads] is one object: there, [NaN] equals [NaN]. *)
Fixpoint py_eq (a b : json) : bool :=
  match a, b with
  | JNull, JNull => true
  | JBool x, JBool y => Bool.eqb x y
  | JBool x, JNum y => ((if x then 1 else 0) =? y)%float
  | JNum x, JBool y => (x =? (if y then 1 else 0))%float
  | JNum x, JNum y => (x =? y)%float
  | JStr x, JStr y => String.eqb x y
  | JArr l, JArr l' =>
      (fix members (l l' : list json) : bool :=
         match l, l' with
         | [], [] => true
         | x :: r, y :: r' => ((is_nan x && is_nan y) || py_eq x y) && members r r'
         | _, _ => false
         end) l l'
  | JObj m, JObj m' =>
      Nat.eqb (List.length m) (List.length m')
      && (fix bindings (m : list (string * json)) : bool :=
            match m with
            | [] => true
            | (k, v) :: r =>
                match assoc k m' with
                | Some v' => (is_nan v && is_nan v') || py_eq v v'
                | None => false
                end && bindings r
            end) m
  | _, _ => false
  end.

(** ** Strings *)

Definition dquote : ascii := ascii_of_nat 34.
Definition squote : ascii := ascii_of_nat 39.

Definition between (lo hi : nat) (c : ascii) : bool :=
  Nat.leb lo (nat_of_ascii c) && Nat.leb (nat_of_ascii c) hi.

(** White space as [str.strip] and the pattern class [\s] see it, on ASCII
    text: tab, line feed, vertical tab, form feed, carriage return, the four
    separators 28..31 and the space. *)
Definition is_space (c : ascii) : bool :=
  between 9 13 c || between 28 32 c.

(** The pattern class [\w] on ASCII text: letters, digits, underscore. *)
Definition is_word (c : ascii) : bool :=
  between 48 57 c || between 65 90 c || between 97 122 c || between 95 95 c.

Definition lower_ascii (c : ascii) : ascii :=
  if between 65 90 c then ascii_of_nat (nat_of_ascii c + 32) else c.

(** [s.lower()] *)
Fixpoint lower (s : string) : string :=
  match s with
  | EmptyString => EmptyString
  | String c r => String (lower_ascii c) (lower r)
  end.

Fixpoint lstrip (s : string) : string :=
  match s with
  | String c r => if is_space c then lstrip r else s
  | EmptyString => EmptyString
  end.

Fixpoint rstrip (s : string) : string :=
  match s with
  | EmptyString => EmptyString
  | String c r =>
      match rstrip r with
      | EmptyString => if is_space c then EmptyString else String c EmptyString
      | r' => String c r'
      end
  end.

(** [s.strip()] *)
Definition strip (s : string) : string := rstrip (lstrip s).

(** [s.replace(c, ' ')] for a one-character [c]. *)
Fixpoint replace_char (c : ascii) (s : string) : string :=
  match s with
  | EmptyString => EmptyString
  | String x r => String (if Ascii.eqb x c then " "%char else x) (replace_char c r)
  end.

(** [re.sub(r'\s+', ' ', s)]: every run of white space becomes one space. *)
Fixpoint collapse_ws_from (in_run : bool) (s : string) : string :=
  match s with
  | EmptyString => EmptyString
  | String x r =>
      if is_space x
      then if in_run then collapse_ws_from true r
           else String " "%char (collapse_ws_from true r)
      else String x (collapse_ws_from false r)
  end.

Definition collapse_ws (s : string) : string := collapse_ws_from false s.

(** [s.replace(old, new)]: every occurrence of [old], left to right, none
    overlapping ([old] is not empty where the program calls it). *)
Fixpoint drop (n : nat) (s : string) : string :=
  match n, s with
  | S n', String _ r => drop n' r
  | _, _ => s
  end.

Fixpoint replace_from (fuel : nat) (old new s : string) : string :=
  match fuel with
  | O => s
  | S fuel' =>
      match s with
      | EmptyString => EmptyString
      | String c r =>
          if String.prefix old s
          then String.append new (replace_from fuel' old new (drop (String.length old) s))
          else String c (replace_from fuel' old new r)
      end
  end.

Definition replace (old new s : string) : string :=
  replace_from (String.length s) old new s.

(** [s.find(c)] and [s.rfind(c)] for a one-character [c]: an index, or -1. *)
Fixpoint str_find (c : ascii) (s : string) : Z :=
  match s with
  | EmptyString => (-1)%Z
  | String x r =>
      if Ascii.eqb x c then 0%Z
      else let i := str_find c r in if (i <? 0)%Z then (-1)%Z else (i + 1)%Z
  end.

Fixpoint str_rfind (c : ascii) (s : string) : Z :=
  match s with
  | EmptyString => (-1)%Z
  | String x r =>
      let i := str_rfind c r in
      if (0 <=? i)%Z then (i + 1)%Z
      else if Ascii.eqb x c then 0%Z else (-1)%Z
  end.

(** [s[a:b]] for indexes that are not negative (the parser slices with
    such indexes only): empty when [b <= a]. *)
Definition py_slice (s : string) (a b : Z) : string :=
  String.substring (Z.to_nat a) (Z.to_nat b - Z.to_nat a) s.

(** ** Regular expressions *)

(** The patterns of the parser use a small fragment: a sequence of literal
    characters, of optional or starred character classes, and of one
    capturing group around a starred or plussed class.  All quantifiers are
    greedy. *)
Inductive atom : Type :=
| Chr (c : ascii)
| Opt (p : ascii -> bool)
| Star (p : ascii -> bool)
| CapStar (p : ascii -> bool)
| CapPlus (p : ascii -> bool).

Definition regex : Type := list atom.

Fixpoint lit (s : string) : regex :=
  match s with
  | EmptyString => []
  | String c r => Chr c :: lit r
  end.

Definition quoted (s : string) : regex := Chr dquote :: lit s ++ [Chr dquote].

Definition not_brace (c : ascii) : bool :=
  negb (Ascii.eqb c "{"%char || Ascii.eqb c "}"%char).
Definition is_quote (c : ascii) : bool :=
  Ascii.eqb c dquote || Ascii.eqb c squote.
Definition not_dquote (c : ascii) : bool := negb (Ascii.eqb c dquote).
Definition not_quote (c : ascii) : bool := negb (is_quote c).

(** An object holding no brace: [\{[^{}]*\}]. *)
Definition flat_object : regex := [Chr "{"%char; Star not_brace; Chr "}"%char].

(** [key\s*:\s*] for a quoted key. *)
Definition key_colon (k : string) : regex :=
  quoted k ++ [Star is_space; Chr ":"%char; Star is_space].

(** v5, line 585: an object whose two members are [trading_decision] and
    [position_management], in this order, each a brace-free object. *)
Definition template_pattern : regex :=
  [Chr "{"%char; Star is_space]
  ++ key_colon "trading_decision" ++ flat_object
  ++ [Chr ","%char; Star is_space]
  ++ key_colon "position_management" ++ flat_object
  ++ [Star is_space; Chr "}"%char].

(** v1, line 453: [\{[^{}]*\{[^{}]*\}[^{}]*\}]. *)
Definition nested_pattern : regex :=
  [Chr "{"%char; Star not_brace] ++ flat_object ++ [Star not_brace; Chr "}"%char].

(** [key] followed by an optional quote, a colon and an optional quote, with
    white space around the colon: the loose [key: value] shapes of lines
    643-644 and 659-660. *)
Definition loose_key (k : string) : regex :=
  lit k ++ [Opt is_quote; Star is_space; Chr ":"%char; Star is_space; Opt is_quote].

(** The UTF-8 text of the two Chinese keys of lines 644 and 660. *)
Definition key_caozuo : string := "操作".
Definition key_liyou : string := "理由".

Definition action_patterns : list regex :=
  [ key_colon "action" ++ [Chr dquote; CapPlus is_word; Chr dquote];
    loose_key "action" ++ [CapPlus is_word];
    loose_key key_caozuo ++ [CapPlus is_word] ].

Definition reason_patterns : list regex :=
  [ key_colon "reason" ++ [Chr dquote; CapStar not_dquote; Chr dquote];
    loose_key "reason" ++ [CapPlus not_quote];
    loose_key key_liyou ++ [CapPlus not_quote] ].

(** *** A backtracking matcher for the fragment

    [match_here ic r s g] matches [r] at the start of [s] the way a
    backtracking engine does: a quantifier first takes all it can and gives
    characters back one at a time when the rest fails.  It returns the text
    of the group (when one was met) and what is left of [s].  [ic] is
    [re.IGNORECASE]. *)
Definition chr_eq (ic : bool) (c x : ascii) : bool :=
  if ic then Ascii.eqb (lower_ascii c) (lower_ascii x) else Ascii.eqb c x.

Definition or_else {A : Type} (a b : option A) : option A :=
  match a with
  | Some _ => a
  | None => b
  end.

Fixpoint match_here (ic : bool) (r : regex) (s : list ascii) (g : option (list ascii))
  {struct r} : option (option (list ascii) * list ascii) :=
  match r with
  | [] => Some (g, s)
  | Chr c :: r' =>
      match s with
      | x :: s' => if chr_eq ic c x then match_here ic r' s' g else None
      | [] => None
      end
  | Opt p :: r' =>
      match s with
      | x :: s' =>
          if p x then or_else (match_here ic r' s' g) (match_here ic r' s g)
          else match_here ic r' s g
      | [] => match_here ic r' s g
      end
  | Star p :: r' =>
      (fix star (s : list ascii) : option (option (list ascii) * list ascii) :=
         match s with
         | x :: s' =>
             if p x then or_else (star s') (match_here ic r' s g)
             else match_here ic r' s g
         | [] => match_here ic r' [] g
         end) s
  | CapStar p :: r' =>
      (fix star (s acc : list ascii) : option (option (list ascii) * list ascii) :=
         match s with
         | x :: s' =>
             if p x then or_else (star s' (x :: acc)) (match_here ic r' s (Some (rev acc)))
             else match_here ic r' s (Some (rev acc))
         | [] => match_here ic r' [] (Some (rev acc))
         end) s []
  | CapPlus p :: r' =>
      match s with
      | x0 :: s0 =>
          if p x0 then
            (fix plus (s acc : list ascii) : option (option (list ascii) * list ascii) :=
               match s with
               | x :: s' =>
                   if p x then or_else (plus s' (x :: acc)) (match_here ic r' s (Some (rev acc)))
                   else match_here ic r' s (Some (rev acc))
               | [] => match_here ic r' [] (Some (rev acc))
               end) s0 [x0]
          else None
      | [] => None
      end
  end.

(** [re.search(r, s, re.IGNORECASE)]: the match at the leftmost position
    that has one; the result is [group(1)]. *)
Fixpoint search_from (r : regex) (s : list ascii) : option (list ascii) :=
  match match_here true r s None with
  | Some (g, _) => Some (match g with Some t => t | None => [] end)
  | None =>
      match s with
      | [] => None
      | _ :: s' => search_from r s'
      end
  end.

(** [re.findall(r, s)] for a pattern without a group: the matched texts,
    left to right, none overlapping. *)
Fixpoint findall_from (fuel : nat) (r : regex) (s : list ascii) : list (list ascii) :=
  match fuel with
  | O => []
  | S fuel' =>
      match match_here false r s None with
      | Some (_, rest) =>
          let taken := firstn (List.length s - List.length rest) s in
          match taken, s with
          | [], _ :: s' => [] :: findall_from fuel' r s'
          | [], [] => [[]]
          | _, _ => taken :: findall_from fuel' r rest
          end
      | None =>
          match s with
          | [] => []
          | _ :: s' => findall_from fuel' r s'
          end
      end
  end.

(** ** A reader for JSON text

    [read_value] reads the JSON the examples of this file use: objects,
    arrays, strings without escapes, the literals (with [NaN], [Infinity]
    and [-Infinity], which [json.loads] accepts), and numbers of at most 15
    digits without an exponent, for which one correctly rounded division
    gives the float that Python reads.  Text outside this fragment is
    [Unsupported], which is not the same as [Malformed]. *)
Inductive reading (A : Type) : Type :=
| Got (a : A) (rest : list ascii)
| Malformed
| Unsupported.
Arguments Got {A} a rest.
Arguments Malformed {A}.
Arguments Unsupported {A}.

Definition is_json_ws (c : ascii) : bool :=
  Ascii.eqb c " "%char || between 9 10 c || between 13 13 c.

Fixpoint skip_ws (s : list ascii) : list ascii :=
  match s with
  | c :: s' => if is_json_ws c then skip_ws s' else s
  | [] => []
  end.

Fixpoint take_prefix (p s : list ascii) : option (list ascii) :=
  match p, s with
  | [], _ => Some s
  | c :: p', x :: s' => if Ascii.eqb c x then take_prefix p' s' else None
  | _ :: _, [] => None
  end.

Fixpoint read_digits (s : list ascii) (acc : Z) (n : nat) : Z * nat * list ascii :=
  match s with
  | c :: s' =>
      if between 48 57 c
      then read_digits s' (acc * 10 + Z.of_nat (nat_of_ascii c - 48)) (S n)
      else (acc, n, s)
  | [] => (acc, n, s)
  end.

Fixpoint pow10 (k : nat) : float :=
  match k with
  | O => 1%float
  | S k' => (10 * pow10 k')%float
  end.

Definition float_of_Z (m : Z) : float := PrimFloat.of_uint63 (Uint63.of_Z m).

(** An unsigned number: digits, then an optional point and digits. *)
Definition read_unsigned (s : list ascii) : reading float :=
  match read_digits s 0 0 with
  | (_, O, _) => Malformed
  | (i, ni, s1) =>
      let leading_zero :=
        match s with
        | c :: _ => Ascii.eqb c "0"%char && Nat.ltb 1 ni
        | [] => false
        end in
      if leading_zero then Malformed else
      match s1 with
      | c :: s2 =>
          if Ascii.eqb c "."%char then
            match read_digits s2 i 0 with
            | (_, O, _) => Malformed
            | (m, nf, s3) =>
                match s3 with
                | e :: _ => if Ascii.eqb (lower_ascii e) "e"%char then Unsupported
                            else if Nat.leb (ni + nf) 15 then Got (float_of_Z m / pow10 nf)%float s3
                            else Unsupported
                | [] => if Nat.leb (ni + nf) 15 then Got (float_of_Z m / pow10 nf)%float s3
                        else Unsupported
                end
            end
          else if Ascii.eqb (lower_ascii c) "e"%char then Unsupported
          else if Nat.leb ni 15 then Got (float_of_Z i) s1 else Unsupported
      | [] => if Nat.leb ni 15 then Got (float_of_Z i) s1 else Unsupported
      end
  end.

Definition read_number (s : list ascii) : reading float :=
  match s with
  | c :: s' =>
      if Ascii.eqb c "-"%char then
        match take_prefix (list_ascii_of_string "Infinity") s' with
        | Some r => Got neg_infinity r
        | None =>
            match read_unsigned s' with
            | Got x r => Got (- x)%float r
            | Malformed => Malformed
            | Unsupported => Unsupported
            end
        end
      else read_unsigned s
  | [] => Malformed
  end.

(** The inside of a string, up to its closing quote. *)
Fixpoint read_string (s : list ascii) (acc : list ascii) : reading string :=
  match s with
  | [] => Malformed
  | c :: s' =>
      if Ascii.eqb c dquote then Got (string_of_list_ascii (rev acc)) s'
      else if Ascii.eqb c "\"%char then Unsupported
      else if Nat.ltb (nat_of_ascii c) 32 then Malformed
      else read_string s' (c :: acc)
  end.

(** [d[k] = v] on an association list: the last value of a repeated key wins. *)
Fixpoint dict_set (k : string) (v : json) (m : list (string * json)) : list (string * json) :=
  match m with
  | [] => [(k, v)]
  | (k', v') :: m' => if String.eqb k k' then (k, v) :: m' else (k', v') :: dict_set k v m'
  end.

Definition read_literal (s : list ascii) : reading json :=
  let lits := [("true", JBool true); ("false", JBool false); ("null", JNull);
               ("NaN", JNum nan); ("Infinity", JNum infinity)] in
  let fix go (l : list (string * json)) : reading json :=
    match l with
    | [] => match read_number s with
            | Got x r => Got (JNum x) r
            | Malformed => Malformed
            | Unsupported => Unsupported
            end
    | (t, v) :: l' =>
        match take_prefix (list_ascii_of_string t) s with
        | Some r => Got v r
        | None => go l'
        end
    end in
  go lits.

Fixpoint read_value (fuel : nat) (s : list ascii) {struct fuel} : reading json :=
  match fuel with
  | O => Unsupported
  | S f =>
      match skip_ws s with
      | [] => Malformed
      | c :: s1 =>
          if Ascii.eqb c "{"%char then
            match skip_ws s1 with
            | x :: s2 => if Ascii.eqb x "}"%char then Got (JObj []) s2
                         else read_members f s1 []
            | [] => Malformed
            end
          else if Ascii.eqb c "["%char then
            match skip_ws s1 with
            | x :: s2 => if Ascii.eqb x "]"%char then Got (JArr []) s2
                         else read_elements f s1 []
            | [] => Malformed
            end
          else if Ascii.eqb c dquote then
            match read_string s1 [] with
            | Got t r => Got (JStr t) r
            | Malformed => Malformed
            | Unsupported => Unsupported
            end
          else read_literal (c :: s1)
      end
  end

with read_members (fuel : nat) (s : list ascii) (acc : list (string * json))
  {struct fuel} : reading json :=
  match fuel with
  | O => Unsupported
  | S f =>
      match skip_ws s with
      | q :: s1 =>
          if negb (Ascii.eqb q dquote) then Malformed else
          match read_string s1 [] with
          | Got k s2 =>
              match skip_ws s2 with
              | colon :: s3 =>
                  if negb (Ascii.eqb colon ":"%char) then Malformed else
                  match read_value f s3 with
                  | Got v s4 =>
                      match skip_ws s4 with
                      | x :: s5 =>
                          if Ascii.eqb x ","%char then read_members f s5 (dict_set k v acc)
                          else if Ascii.eqb x "}"%char then Got (JObj (dict_set k v acc)) s5
                          else Malformed
                      | [] => Malformed
                      end
                  | Malformed => Malformed
                  | Unsupported => Unsupported
                  end
              | [] => Malformed
              end
          | Malformed => Malformed
          | Unsupported => Unsupported
          end
      | [] => Malformed
      end
  end

with read_elements (fuel : nat) (s : list ascii) (acc : list json)
  {struct fuel} : reading json :=
  match fuel with
  | O => Unsupported
  | S f =>
      match read_value f s with
      | Got v s1 =>
          match skip_ws s1 with
          | x :: s2 =>
              if Ascii.eqb x ","%char then read_elements f s2 (acc ++ [v])
              else if Ascii.eqb x "]"%char then Got (JArr (acc ++ [v])) s2
              else Malformed
          | [] => Malformed
          end
      | Malformed => Malformed
      | Unsupported => Unsupported
      end
  end.

(** The whole text as one JSON value, white space around it allowed. *)
Definition json_read (s : string) : reading json :=
  let cs := list_ascii_of_string s in
  match read_value (2 * List.length cs + 2) cs with
  | Got v rest => match skip_ws rest with
                  | [] => Got v []
                  | _ :: _ => Malformed
                  end
  | Malformed => Malformed
  | Unsupported => Unsupported
  end.

(** ** The library the program calls *)

(** What the program takes from Python's library.  The theorems below hold
    for every [PyLib]: they never ask what these functions return.
    - [json_loads]: [json.loads], raising on text that is not JSON;
    - [re_findall r s]: [re.findall] of a pattern without a group;
    - [re_search r s]: [re.search] with [re.IGNORECASE], giving [group(1)];
    - [py_float]: the built-in [float(x)];
    - [py_timestamp]: the time stamp text of a candle (v5 line 171), which
      raises on a value that is not a number of milliseconds;
    - [format_f n x]: [x] under the format code [.nf];
    - [py_str]: the built-in [str(x)]. *)
Record PyLib : Type := {
  json_loads : string -> res json;
  re_findall : regex -> string -> res (list string);
  re_search : regex -> string -> res (option string);
  py_float : json -> res float;
  py_timestamp : json -> res string;
  format_f : nat -> float -> string;
  py_str : json -> string
}.

(** The executable library used to run the program on ASCII text: the
    matcher and the reader above.  Text that the reader does not support
    raises here; [format_f] and [py_str], which only produce the text of
    requests and log lines, name the format and leave the digits out. *)
Definition ascii_lib : PyLib := {|
  json_loads := fun s =>
    match json_read s with
    | Got v _ => Ok v
    | Malformed | Unsupported => Raise JSONDecodeError
    end;
  re_findall := fun r s =>
    let cs := list_ascii_of_string s in
    Ok (map string_of_list_ascii (findall_from (S (List.length cs)) r cs));
  re_search := fun r s =>
    Ok (option_map string_of_list_ascii (search_from r (list_ascii_of_string s)));
  py_float := fun v =>
    match v with
    | JStr s =>
        match read_number (list_ascii_of_string (strip s)) with
        | Got x [] => Ok x
        | _ => Raise (ValueError "could not convert string to float")
        end
    | JNum x => Ok x
    | JBool b => Ok (if b then 1 else 0)%float
    | _ => Raise TypeError
    end;
  py_timestamp := fun _ => Ok "<time>";
  format_f := fun n _ => "<float>";
  py_str := fun v => match v with JStr s => s | _ => "<value>" end
|}.

(** ** Configuration (v5, lines 34-39) *)

Definition LEVERAGE : string := "100".
Definition SYMBOL : string := "ETH-USDT-SWAP".
Definition MIN_ORDER_SIZE : float := 0.001%float.
Definition MAX_ORDER_SIZE : float := 0.010%float.
Definition AI_FREQUENCY : nat := 300.
Definition CHECK_PENDING_ORDERS_INTERVAL : nat := 30.

(** ** Module 2: the AI response parser (class DeepSeekAI) *)

(** The parser is a function of the response: the log lines it writes
    (597, 600, 604, 608, 675, 679) are not recorded. *)

(** The decision dict that the program writes as a literal in four places. *)
Definition make_decision (action confidence reason : string) (size sl tp : float) : json :=
  JObj [ ("trading_decision",
          JObj [ ("action", JStr action);
                 ("confidence_level", JStr confidence);
                 ("reason", JStr reason) ]);
         ("position_management",
          JObj [ ("position_size", JNum size);
                 ("stop_loss_price", JNum sl);
                 ("take_profit_price", JNum tp) ]) ].

(** The decision returned by the [except] branch of [_parse_ai_response]
    (lines 610-621). *)
Definition PARSE_FAILURE_REASON : string := "AI响应解析失败，采用保守策略".
Definition parse_failure_decision : json :=
  make_decision "hold" "low" PARSE_FAILURE_REASON 0 0 0.

(** Line 673. *)
Definition DEFAULT_REASON : string := "基于市场分析做出的决策".

Definition valid_confidences : list string := ["high"; "medium"; "low"].
Definition td_fields : list string := ["action"; "confidence_level"; "reason"].
Definition pm_fields : list string :=
  ["position_size"; "stop_loss_price"; "take_profit_price"].

(** The body of [_validate_decision_format] (v5 lines 682-711, v1 lines
    500-533), which differ in the list of actions only. *)
Definition validate_checks (valid_actions : list string) (decision : json) : res bool :=
  let? has_td := py_contains "trading_decision" decision in
  if negb has_td then Ok false else
  let? has_pm := py_contains "position_management" decision in
  if negb has_pm then Ok false else
  let? td := py_getitem decision "trading_decision" in
  let? pm := py_getitem decision "position_management" in
  let? td_ok := py_all_in td_fields td in
  if negb td_ok then Ok false else
  let? pm_ok := py_all_in pm_fields pm in
  if negb pm_ok then Ok false else
  let? action := py_getitem td "action" in
  if negb (py_in_strs action valid_actions) then Ok false else
  let? confidence := py_getitem td "confidence_level" in
  if negb (py_in_strs confidence valid_confidences) then Ok false else
  Ok true.

(** The [try ... except: return False] around the checks. *)
Definition validate_with (valid_actions : list string) (decision : json) : bool :=
  match validate_checks valid_actions decision with
  | Ok b => b
  | Raise _ => false
  end.

Definition valid_actions : list string := ["hold"; "open_long"; "open_short"].

Definition _validate_decision_format (decision : json) : bool :=
  validate_with valid_actions decision.

Section Parser.

Variable L : PyLib.

(** Lines 577-582: the whole response as JSON, kept when it validates; any
    exception is swallowed. *)
Definition parse_whole (validate : json -> bool) (response : string) : option json :=
  match json_loads L response with
  | Ok decision => if validate decision then Some decision else None
  | Raise _ => None
  end.

(** Lines 588-601: the loop over the template-shaped candidates. *)
Fixpoint first_valid_match (matches : list string) : option json :=
  match matches with
  | [] => None
  | m :: rest =>
      let json_str := replace_char (ascii_of_nat 9) (replace_char (ascii_of_nat 10) m) in
      let json_str := strip (collapse_ws json_str) in
      match json_loads L json_str with
      | Ok decision =>
          if _validate_decision_format decision then Some decision
          else first_valid_match rest
      | Raise _ => first_valid_match rest
      end
  end.

(** Lines 647-654: the first pattern whose match, in lower case, is a valid
    action. *)
Fixpoint find_action (patterns : list regex) (response : string) : res (option string) :=
  match patterns with
  | [] => Ok None
  | p :: ps =>
      let? m := re_search L p response in
      match m with
      | Some g =>
          let action := lower g in
          if existsb (String.eqb action) valid_actions then Ok (Some action)
          else find_action ps response
      | None => find_action ps response
      end
  end.

(** Lines 663-669: the first pattern whose match, stripped, is not empty. *)
Fixpoint find_reason (patterns : list regex) (response : string) : res (option string) :=
  match patterns with
  | [] => Ok None
  | p :: ps =>
      let? m := re_search L p response in
      match m with
      | Some g =>
          let reason := strip g in
          if nonempty reason then Ok (Some reason) else find_reason ps response
      | None => find_reason ps response
      end
  end.

(** Lines 623-680.  The [except] branch logs and raises again. *)
Definition _build_standard_decision_from_response (response : string) : res json :=
  let? found_action := find_action action_patterns response in
  let action := match found_action with Some a => a | None => "hold" end in
  let? found_reason := find_reason reason_patterns response in
  let reason := match found_reason with Some r => r | None => DEFAULT_REASON end in
  Ok (make_decision action "medium" reason 0 0 0).

(** Lines 573-621. *)
Definition _parse_ai_response (response : string) : res json :=
  let body : res json :=
    match parse_whole _validate_decision_format response with
    | Some decision => Ok decision
    | None =>
        let? matches := re_findall L template_pattern response in
        match first_valid_match matches with
        | Some decision => Ok decision
        | None => _build_standard_decision_from_response response
        end
    end in
  match body with
  | Ok decision => Ok decision
  | Raise _ => Ok parse_failure_decision
  end.

End Parser.

(** *** The parser of OKX_AI_ETHv1.py (lines 441-533) *)

Module V1.

Definition valid_actions : list string :=
  ["hold"; "open_long"; "open_short"; "close_long"; "close_short"].

Definition _validate_decision_format (decision : json) : bool :=
  validate_with valid_actions decision.

Section Parser.

Variable L : PyLib.

(** Lines 456-464: each nested-object match parsed as it stands. *)
Fixpoint first_valid_match (matches : list string) : option json :=
  match matches with
  | [] => None
  | m :: rest =>
      match parse_whole L _validate_decision_format m with
      | Some decision => Some decision
      | None => first_valid_match rest
      end
  end.

(** Lines 467-478: the text from the first opening brace to the last
    closing brace. *)
Definition boundary_match (response : string) : option json :=
  let start_idx := str_find "{"%char response in
  let end_idx := (str_rfind "}"%char response + 1)%Z in
  if negb (start_idx =? -1)%Z && negb (end_idx =? -1)%Z
  then parse_whole L _validate_decision_format (py_slice response start_idx end_idx)
  else None.

Definition _parse_ai_response (response : string) : res json :=
  let body : res json :=
    match parse_whole L _validate_decision_format response with
    | Some decision => Ok decision
    | None =>
        let? matches := re_findall L nested_pattern response in
        match first_valid_match matches with
        | Some decision => Ok decision
        | None =>
            match boundary_match response with
            | Some decision => Ok decision
            | None => Raise (ApiError "无法解析AI响应")
            end
        end
    end in
  match body with
  | Ok decision => Ok decision
  | Raise _ => Ok parse_failure_decision
  end.

End Parser.

End V1.

(** ** The world outside the program *)

(** A request as [_make_request] receives it: method, endpoint, and the
    parameters, each already turned into text. *)
Record request : Type := {
  meth : string;
  endpoint : string;
  params : list (string * string)
}.

(** What the program does to the world, in order.  A log line is named by
    the line of [OKX_AI_ETHv5.py] that writes it; the lines that
    [_make_request] writes about itself are not recorded. *)
Inductive event : Type :=
| Request (r : request)
| AiCall
| Sleep (seconds : nat)
| Echo (line : nat)
| Err (line : nat).

(** One candle of [get_kline_data] (its time stamp left out), the account
    summary of [get_account_balance], the position of [get_position_info]. *)
Record kline : Type := {
  k_open : float; k_high : float; k_low : float; k_close : float; k_volume : float
}.

Record balance : Type := { available_OKX : float; total_equity : float }.

Record position : Type := {
  position_side : string;
  position_size : float;
  entry_price : float
}.

(** The snapshot [_build_prompt] serialises for the AI. *)
Record ai_input : Type := {
  in_price : float;
  in_klines : list kline;
  in_account : balance;
  in_position : position;
  in_last_profit : float
}.

(** The state of a run: the outside world [env], the trace so far, and the
    two attributes the objects keep ([current_tp_sl_orders], the recorded
    pair of identifiers, and [last_profit]). *)
Record world (Env : Type) : Type := {
  env : Env;
  trace : list event;
  current_tp_sl_orders : option (json * json);
  last_profit : float
}.
Arguments env {Env} w.
Arguments trace {Env} w.
Arguments current_tp_sl_orders {Env} w.
Arguments last_profit {Env} w.

Definition start {Env : Type} (e : Env) : world Env :=
  {| env := e; trace := []; current_tp_sl_orders := None; last_profit := 0%float |}.

Definition requests_of (t : list event) : list request :=
  flat_map (fun e => match e with Request r => [r] | _ => [] end) t.


Definition ORDER_ENDPOINT : string := "/api/v5/trade/order".
Definition ALGO_ENDPOINT : string := "/api/v5/trade/order-algo".

Definition to (ep : string) (r : request) : bool := String.eqb (endpoint r) ep.

(** A computation of the program: it may raise, and it changes the world. *)
Definition M (Env A : Type) : Type := world Env -> res A * world Env.

Definition ret {Env A : Type} (a : A) : M Env A := fun w => (Ok a, w).

Definition raise {Env A : Type} (e : exn) : M Env A := fun w => (Raise e, w).

Definition lift {Env A : Type} (r : res A) : M Env A := fun w => (r, w).

Definition bind {Env A B : Type} (m : M Env A) (k : A -> M Env B) : M Env B :=
  fun w =>
    match m w with
    | (Ok a, w') => k a w'
    | (Raise e, w') => (Raise e, w')
    end.

(** [try: m except Exception as e: h e] *)
Definition try_except {Env A : Type} (m : M Env A) (h : exn -> M Env A) : M Env A :=
  fun w =>
    match m w with
    | (Ok a, w') => (Ok a, w')
    | (Raise e, w') => h e w'
    end.

Definition emit {Env : Type} (e : event) : M Env unit :=
  fun w =>
    (Ok tt, {| env := env w; trace := trace w ++ [e];
               current_tp_sl_orders := current_tp_sl_orders w;
               last_profit := last_profit w |}).

Notation "x <- m ;; k" := (bind m (fun x => k))
  (at level 61, m at next level, right associativity).
Notation "m ;; k" := (bind m (fun _ => k))
  (at level 61, right associativity).

Definition write_echo {Env : Type} (line : nat) : M Env unit := emit (Echo line).
Definition write_error {Env : Type} (line : nat) : M Env unit := emit (Err line).
Definition sleep {Env : Type} (seconds : nat) : M Env unit := emit (Sleep seconds).

(** The decision that [get_trading_decision] falls back to (lines 538-549). *)
Definition ai_failure_decision (e : exn) : json :=
  make_decision "hold" "low" (String.append "AI处理失败: " (exn_str e)) 0 0 0.

(** The simulated candles of lines 185-220. *)
Definition fallback_klines : list kline :=
  [ {| k_open := 3500; k_high := 3520; k_low := 3490; k_close := 3505; k_volume := 1500 |};
    {| k_open := 3505; k_high := 3525; k_low := 3495; k_close := 3510; k_volume := 1200 |};
    {| k_open := 3510; k_high := 3530; k_low := 3500; k_close := 3508; k_volume := 1800 |};
    {| k_open := 3508; k_high := 3535; k_low := 3505; k_close := 3512; k_volume := 2000 |} ]%float.

Definition fallback_balance : balance :=
  {| available_OKX := 4.51; total_equity := 4.52 |}%float.

Definition flat_position : position :=
  {| position_side := "flat"; position_size := 0; entry_price := 0 |}%float.

(** ** Example responses and an example exchange *)

(** [s] between double quotes. *)
Definition qt (s : string) : string :=
  String dquote (String.append s (String dquote EmptyString)).

(** The text of a [trading_decision] object. *)
Definition td_text (action confidence reason : string) : string :=
  String.concat ""
    [ "{"; qt "action"; ":"; qt action; ",";
      qt "confidence_level"; ":"; qt confidence; ",";
      qt "reason"; ":"; qt reason; "}" ].

(** The text of a whole decision, from the text of its two members. *)
Definition decision_text (td pm : string) : string :=
  String.concat ""
    [ "{"; qt "trading_decision"; ":"; td; ",";
      qt "position_management"; ":"; pm; "}" ].

(** A response that is JSON, with a string where the object
    [position_management] should be; the string names the three fields. *)
Definition loose_response : string :=
  decision_text (td_text "hold" "low" "x")
    (qt "position_size stop_loss_price take_profit_price").

(** A response with a word before the object and a third member in it:
    [Sure: {..., "note":"ok"}]. *)
Definition wrapped_response : string :=
  String.concat ""
    [ "Sure: {"; qt "trading_decision"; ":";
      td_text "open_long" "high" "breakout"; ",";
      qt "position_management"; ":{";
      qt "position_size"; ":0.005,";
      qt "stop_loss_price"; ":3400,";
      qt "take_profit_price"; ":3600},";
      qt "note"; ":"; qt "ok"; "}" ].

(** A response that is the template object, its take-profit price [NaN]. *)
Definition nan_target_response : string :=
  decision_text (td_text "open_long" "high" "breakout")
    (String.concat ""
       [ "{"; qt "position_size"; ":0.005,";
         qt "stop_loss_price"; ":3400,";
         qt "take_profit_price"; ":NaN}" ]).

(** The same with the size [NaN] and ordinary prices. *)
Definition nan_size_response : string :=
  decision_text (td_text "open_long" "high" "breakout")
    (String.concat ""
       [ "{"; qt "position_size"; ":NaN,";
         qt "stop_loss_price"; ":3400,";
         qt "take_profit_price"; ":3600}" ]).

(** The template object with the action [close_long], which only
    OKX_AI_ETHv1.py accepts. *)
Definition closing_response : string :=
  decision_text (td_text "close_long" "high" "exit")
    (String.concat ""
       [ "{"; qt "position_size"; ":0.005,";
         qt "stop_loss_price"; ":3400,";
         qt "take_profit_price"; ":3600}" ]).

(** Prose only. *)
Definition prose_response : string := "I would rather wait for a clearer signal.".

(** The response of the specification's first example: [Sure, here: ]
    followed by the template object, its size 0.5. *)
Definition oversized_response : string :=
  String.append "Sure, here: "
    (decision_text (td_text "open_long" "high" "breakout")
       (String.concat ""
          [ "{"; qt "position_size"; ":0.5,";
            qt "stop_loss_price"; ":3400,";
            qt "take_profit_price"; ":3600}" ])).

Fixpoint tally (n : nat) : string :=
  match n with
  | O => EmptyString
  | S k => String "I"%char (tally k)
  end.

Fixpoint algo_listing (n : nat) : list json :=
  match n with
  | O => []
  | S k => algo_listing k ++ [JObj [("algoId", JStr (tally n)); ("instId", JStr SYMBOL)]]
  end.

(** An exchange for the examples.  Its state says whether a market order
    was filled and how many conditional orders it has accepted; it names
    them [I], [II], ...  It fills every market order, then reports a long
    position of 0.05 entered at 3500; it accepts conditional orders when
    [accepting], lists the ones it accepted when [listing], has no pending
    order, and fails on any other request. *)
Record demo_state : Type := { filled : bool; accepted : nat }.

Definition idle : demo_state := {| filled := false; accepted := 0 |}.
Definition holding : demo_state := {| filled := true; accepted := 0 |}.

Definition demo_exchange (accepting listing : bool) (r : request) (s : demo_state)
  : res (list json) * demo_state :=
  if to "/api/v5/trade/order" r then
    (Ok [JObj [("ordId", JStr "1")]], {| filled := true; accepted := accepted s |})
  else if to "/api/v5/account/positions" r then
    (Ok (if filled s then [JObj [("pos", JStr "0.05"); ("avgPx", JStr "3500")]] else []), s)
  else if to "/api/v5/trade/order-algo" r then
    if accepting
    then (Ok [JObj [("algoId", JStr (tally (S (accepted s))))]],
          {| filled := filled s; accepted := S (accepted s) |})
    else (Raise (ApiError "API错误: order rejected"), s)
  else if to "/api/v5/trade/orders-algo-pending" r then
    (Ok (if listing then algo_listing (accepted s) else []), s)
  else if to "/api/v5/trade/orders-pending" r then (Ok [], s)
  else (Raise (ApiError "网络请求失败"), s).

(** An exchange that takes one conditional order, names it [I], and refuses
    the ones that follow; for the other requests it is [demo_exchange]. *)
Definition one_order_exchange (r : request) (s : demo_state)
  : res (list json) * demo_state :=
  if to "/api/v5/trade/order-algo" r then
    if Nat.eqb (accepted s) 0
    then (Ok [JObj [("algoId", JStr "I")]], {| filled := filled s; accepted := 1 |})
    else (Raise (ApiError "API错误: order rejected"), s)
  else demo_exchange false true r s.

(** An exchange that cannot be reached. *)
Definition dead_exchange (r : request) (s : unit) : res (list json) * unit :=
  (Raise (ApiError "网络请求失败"), s).

(** An AI endpoint that always answers [text]. *)
Definition demo_ai (text : string) (_ : ai_input) (s : demo_state)
  : res string * demo_state :=
  (Ok text, s).

Section Bot.

(** The library, the outside world, how the exchange answers a request and
    how the AI endpoint answers a prompt: anything at all. *)
Variable L : PyLib.
Variable Env : Type.
Variable exchange : request -> Env -> res (list json) * Env.
Variable deepseek : ai_input -> Env -> res string * Env.

(** ** Module 1: OKXDataCollector *)

(** Lines 103-154: the [data] of the answer, which the exchange sends as a
    list, or an exception. *)
Definition _make_request (method path : string) (ps : list (string * string))
  : M Env (list json) :=
  fun w =>
    let r := {| meth := method; endpoint := path; params := ps |} in
    let (answer, e') := exchange r (env w) in
    (answer, {| env := e'; trace := trace w ++ [Request r];
                current_tp_sl_orders := current_tp_sl_orders w;
                last_profit := last_profit w |}).

(** Lines 170-177: one candle. *)
Definition read_candle (candle : json) : res kline :=
  let? t := py_index candle 0 in
  let? _ := py_timestamp L t in
  let? o := py_index candle 1 in let? o := py_float L o in
  let? h := py_index candle 2 in let? h := py_float L h in
  let? l := py_index candle 3 in let? l := py_float L l in
  let? c := py_index candle 4 in let? c := py_float L c in
  let? v := py_index candle 5 in let? v := py_float L v in
  Ok {| k_open := o; k_high := h; k_low := l; k_close := c; k_volume := v |}.

Fixpoint read_candles (data : list json) : res (list kline) :=
  match data with
  | [] => Ok []
  | candle :: rest =>
      let? k := read_candle candle in
      let? ks := read_candles rest in
      Ok (k :: ks)
  end.

(** Lines 156-220. *)
Definition get_kline_data : M Env (list kline) :=
  try_except
    (data <- _make_request "GET" "/api/v5/market/candles"
               [("instId", SYMBOL); ("bar", "5m"); ("limit", "4")] ;;
     klines <- lift (read_candles data) ;;
     write_echo 179 ;;
     ret klines)
    (fun _ => write_error 183 ;; ret fallback_klines).

(** Lines 239-250. *)
Definition read_balance (data : list json) : res balance :=
  match data with
  | [] => Raise (ApiError "账户数据为空")
  | account_data :: _ =>
      let? te := py_get account_data "totalEq" JNull in
      let? total :=
        if py_truthy te
        then let? raw := py_getitem account_data "totalEq" in py_float L raw
        else Ok 0%float in
      let? d := py_get account_data "details" JNull in
      let? details :=
        if py_truthy d then
          let? d1 := py_getitem account_data "details" in
          let? n := py_len d1 in
          if Nat.ltb 0 n
          then let? d2 := py_getitem account_data "details" in py_index d2 0
          else Ok (JObj [])
        else Ok (JObj []) in
      let? av := py_get details "availEq" (JNum 0) in
      let? available := py_float L av in
      Ok {| available_OKX := available; total_equity := total |}
  end.

(** Lines 233-257. *)
Definition get_account_balance : M Env balance :=
  try_except
    (data <- _make_request "GET" "/api/v5/account/balance" [] ;;
     lift (read_balance data))
    (fun _ => write_error 253 ;; ret fallback_balance).

(** Lines 266-286: the first position of the answer; its signed size [pos]
    gives the side, and the size reported is its absolute value. *)
Definition read_position (data : list json) : res position :=
  match data with
  | [] => Ok flat_position
  | pos :: _ =>
      let? raw := py_get pos "pos" (JStr "0") in
      let? pos_size := py_float L raw in
      if (0 <? pos_size)%float then
        let? avg := py_get pos "avgPx" (JStr "0") in
        let? px := py_float L avg in
        Ok {| position_side := "long"; position_size := pos_size; entry_price := px |}
      else if (pos_size <? 0)%float then
        let? avg := py_get pos "avgPx" (JStr "0") in
        let? px := py_float L avg in
        Ok {| position_side := "short"; position_size := abs pos_size; entry_price := px |}
      else Ok flat_position
  end.

(** Lines 259-295. *)
Definition get_position_info : M Env position :=
  try_except
    (data <- _make_request "GET" "/api/v5/account/positions" [("instId", SYMBOL)] ;;
     lift (read_position data))
    (fun _ => write_error 289 ;; ret flat_position).

(** Lines 297-315, called without an [algo_id]. *)
Definition get_algo_orders : M Env (list json) :=
  try_except
    (_make_request "GET" "/api/v5/trade/orders-algo-pending"
       [("instType", "SWAP"); ("ordType", "conditional"); ("instId", SYMBOL)])
    (fun _ => write_error 314 ;; ret []).

(** Lines 317-326. *)
Definition get_pending_orders : M Env (list json) :=
  try_except
    (_make_request "GET" "/api/v5/trade/orders-pending" [("instId", SYMBOL)])
    (fun _ => write_error 325 ;; ret []).

Definition is_nil {A : Type} (l : list A) : bool :=
  match l with
  | [] => true
  | _ :: _ => false
  end.

(** Lines 328-354. *)
Definition has_pending_orders_or_tpsl : M Env bool :=
  try_except
    (pending_orders <- get_pending_orders ;;
     if negb (is_nil pending_orders) then write_echo 334 ;; ret true else
     algo_orders <- get_algo_orders ;;
     if negb (is_nil algo_orders) then write_echo 340 ;; ret true else
     position_info <- get_position_info ;;
     if (0 <? position_size position_info)%float then write_echo 346 ;; ret true else
     write_echo 349 ;; ret false)
    (fun _ => write_error 353 ;; ret false).

(** ** Module 4: OKXTradingExecutor *)

Definition CONTRACT_VALUE : float := 0.1%float.
Definition MIN_CONTRACT_SIZE : float := 0.01%float.

(** Lines 1057-1074: the number of contracts, as text with two decimals. *)
Definition _convert_eth_to_contracts (eth_size : float) : res string :=
  let contracts := (eth_size / CONTRACT_VALUE)%float in
  if (contracts <? MIN_CONTRACT_SIZE)%float
  then Raise (ValueError (String.append "转换后的张数("
                (String.append (format_f L 4 contracts) ")小于最小要求(0.01)")))
  else Ok (format_f L 2 contracts).

(** Lines 1007-1012: what the [except] branch of [_place_order] logs about
    the text of the exception. *)
Definition diagnose_order_failure (e : exn) : M Env unit :=
  if contains_sub "insufficient" (lower (exn_str e)) then write_error 1008
  else if contains_sub "posSide" (lower (exn_str e)) then write_error 1010
  else if contains_sub "51000" (exn_str e) then write_error 1012
  else ret tt.

(** Lines 1004-1013: the [except] branch of [_place_order]. *)
Definition order_failed (e : exn) : M Env bool :=
  write_error 1005 ;; diagnose_order_failure e ;; ret false.

(** Lines 971-1013. *)
Definition _place_order (action : string) (eth_size : float) : M Env bool :=
  try_except
    (sides <- (if String.eqb action "open_long" then ret ("buy", "long")
               else if String.eqb action "open_short" then ret ("sell", "short")
               else raise (ValueError (String.append "无效的开仓动作: " action))) ;;
     contract_size <- lift (_convert_eth_to_contracts eth_size) ;;
     write_echo 999 ;;
     _make_request "POST" ORDER_ENDPOINT
       [ ("instId", SYMBOL); ("tdMode", "cross"); ("side", fst sides);
         ("ordType", "market"); ("sz", contract_size); ("lever", LEVERAGE);
         ("posSide", snd sides) ] ;;
     write_echo 1001 ;;
     ret true)
    order_failed.

(** Lines 808-823: [for attempt in range(max_retries)], counted by the
    attempts that remain. *)
Fixpoint entry_price_attempts (wait_seconds remaining : nat) : M Env (option float) :=
  match remaining with
  | O => ret None
  | S rest =>
      found <- try_except
                 (position_info <- get_position_info ;;
                  if ((0 <? position_size position_info)
                      && (0 <? entry_price position_info))%float
                  then ret (Some (entry_price position_info))
                  else write_echo 816 ;; ret None)
                 (fun _ => write_error 818 ;; ret None) ;;
      match found with
      | Some price => ret (Some price)
      | None =>
          (if Nat.ltb 0 rest then sleep wait_seconds else ret tt) ;;
          entry_price_attempts wait_seconds rest
      end
  end.

Definition _get_entry_price_with_retry : M Env (option float) :=
  entry_price_attempts 2 5.

(** The parameters of one conditional order (lines 899-945): [kind] is
    [tp] or [sl]. *)
Definition algo_params (pos_side sz kind : string) (trigger : float) : list (string * string) :=
  [ ("instId", SYMBOL); ("tdMode", "cross");
    ("side", if String.eqb pos_side "long" then "sell" else "buy");
    ("ordType", "conditional"); ("sz", sz);
    (String.append kind "TriggerPx", py_str L (JNum trigger));
    (String.append kind "OrdPx", "-1");
    ("posSide", pos_side) ].

(** [result[0]['algoId']] *)
Definition first_algo_id (result : list json) : res json :=
  match result with
  | [] => Raise IndexError
  | order :: _ => py_getitem order "algoId"
  end.

(** Lines 893-969: the take-profit order, then the stop-loss order; the
    result is the pair of identifiers the exchange gave. *)
Definition _place_tp_sl_order (pos_side : string) (eth_size tp_price sl_price : float)
  : M Env (json * json) :=
  try_except
    (sz <- (if String.eqb pos_side "long" || String.eqb pos_side "short"
            then lift (_convert_eth_to_contracts eth_size)
            else raise (ValueError (String.append "无效的持仓方向: " pos_side))) ;;
     write_echo 949 ;;
     write_echo 950 ;;
     tp_result <- _make_request "POST" ALGO_ENDPOINT (algo_params pos_side sz "tp" tp_price) ;;
     tp_algo_id <- lift (first_algo_id tp_result) ;;
     write_echo 955 ;;
     sl_result <- _make_request "POST" ALGO_ENDPOINT (algo_params pos_side sz "sl" sl_price) ;;
     sl_algo_id <- lift (first_algo_id sl_result) ;;
     write_echo 960 ;;
     ret (tp_algo_id, sl_algo_id))
    (fun e => write_error 968 ;; raise e).

(** [any(order['algoId'] == id for order in orders)] *)
Fixpoint any_has_id (id : json) (orders : list json) : res bool :=
  match orders with
  | [] => Ok false
  | order :: rest =>
      let? oid := py_getitem order "algoId" in
      if py_eq oid id then Ok true else any_has_id id rest
  end.

(** Lines 866-879. *)
Definition _verify_tp_sl_orders_exist (algo_ids : json * json) : M Env bool :=
  try_except
    (algo_orders <- get_algo_orders ;;
     tp_exists <- lift (any_has_id (fst algo_ids) algo_orders) ;;
     sl_exists <- lift (any_has_id (snd algo_ids) algo_orders) ;;
     write_echo 874 ;;
     ret (tp_exists && sl_exists))
    (fun _ => write_error 878 ;; ret false).

(** Line 840: [self.current_tp_sl_orders = algo_ids]. *)
Definition record_orders (algo_ids : json * json) : M Env unit :=
  fun w =>
    (Ok tt, {| env := env w; trace := trace w;
               current_tp_sl_orders := Some algo_ids;
               last_profit := last_profit w |}).

(** Lines 832-856: the [try] of one attempt; [true] is the [return True]
    of line 849.  (The [else] of line 852 is dead: the dict of two
    identifiers is never empty.) *)
Definition tp_sl_attempt (pos_side : string) (eth_size tp_price sl_price : float)
  : M Env bool :=
  try_except
    (write_echo 833 ;;
     write_echo 834 ;;
     algo_ids <- _place_tp_sl_order pos_side eth_size tp_price sl_price ;;
     record_orders algo_ids ;;
     write_echo 841 ;;
     sleep 5 ;;
     verified <- _verify_tp_sl_orders_exist algo_ids ;;
     if verified then write_echo 848 ;; ret true
     else write_echo 851 ;; ret false)
    (fun _ => write_error 856 ;; ret false).

(** Lines 831-864: the loop, counted by the attempts that remain. *)
Fixpoint tp_sl_attempts (pos_side : string) (eth_size tp_price sl_price : float)
  (remaining : nat) : M Env bool :=
  match remaining with
  | O => write_error 863 ;; ret false
  | S rest =>
      verified <- tp_sl_attempt pos_side eth_size tp_price sl_price ;;
      if verified then ret true
      else
        (if Nat.ltb 0 rest then write_echo 860 ;; sleep 5 else ret tt) ;;
        tp_sl_attempts pos_side eth_size tp_price sl_price rest
  end.

(** Lines 825-864. *)
Definition _place_tp_sl_orders_with_retry (pos_side : string)
  (eth_size tp_price sl_price : float) (max_retries : nat) : M Env bool :=
  if String.eqb pos_side "flat" || (eth_size <=? 0)%float
  then write_echo 828 ;; ret true
  else tp_sl_attempts pos_side eth_size tp_price sl_price max_retries.

(** Lines 732-735. *)
Definition clamp_size (position_size : float) : float :=
  if (position_size <? MIN_ORDER_SIZE)%float then 0%float
  else if (MAX_ORDER_SIZE <? position_size)%float then MAX_ORDER_SIZE
  else position_size.

(** Lines 776-784: the condition under which [execute_trade] gives up the
    bracket ([a >= b] is [b <= a]). *)
Definition prices_rejected (action : string) (tp_price sl_price entry_price : float) : bool :=
  if String.eqb action "open_long"
  then ((tp_price <=? entry_price) || (entry_price <=? sl_price))%float
  else ((entry_price <=? tp_price) || (sl_price <=? entry_price))%float.

(** Lines 760-773: the two prices of the bracket. *)
Definition bracket_prices (action : string) (pm : json) (entry_price : float)
  (is_test : bool) : M Env (float * float) :=
  if is_test then
    write_echo 768 ;;
    ret (if String.eqb action "open_long"
         then (entry_price + 10, entry_price - 10)
         else (entry_price - 10, entry_price + 10))%float
  else
    tp_raw <- lift (py_getitem pm "take_profit_price") ;;
    sl_raw <- lift (py_getitem pm "stop_loss_price") ;;
    tp_price <- lift (py_num tp_raw) ;;
    sl_price <- lift (py_num sl_raw) ;;
    write_echo 773 ;;
    ret (tp_price, sl_price).

(** Lines 775-795: the price check, then the bracket; the result is what
    [execute_trade] returns ([success] is [True] here). *)
Definition checked_bracket (action : string) (position_size tp_price sl_price entry_price : float)
  : M Env bool :=
  if prices_rejected action tp_price sl_price entry_price
  then write_error (if String.eqb action "open_long" then 778 else 782) ;; ret false
  else
    tp_sl_success <- _place_tp_sl_orders_with_retry (replace "open_" "" action)
                       position_size tp_price sl_price 5 ;;
    (if tp_sl_success then write_echo 792 else write_error 794) ;;
    ret true.

(** Lines 746-795: what follows a market order that went through. *)
Definition after_open (action : string) (pm : json) (position_size current_price : float)
  (is_test : bool) : M Env bool :=
  write_echo 747 ;;
  sleep 5 ;;
  found <- _get_entry_price_with_retry ;;
  entry_price <- match found with
                 | Some price => ret price
                 | None => write_error 754 ;; ret current_price
                 end ;;
  write_echo 757 ;;
  prices <- bracket_prices action pm entry_price is_test ;;
  checked_bracket action position_size (fst prices) (snd prices) entry_price.

(** Lines 726-806. *)
Definition execute_trade (decision : json) (current_price : float) (is_test : bool)
  : M Env bool :=
  try_except
    (td <- lift (py_getitem decision "trading_decision") ;;
     action <- lift (py_getitem td "action") ;;
     pm <- lift (py_getitem decision "position_management") ;;
     raw_size <- lift (py_getitem pm "position_size") ;;
     size <- lift (py_num raw_size) ;;
     let position_size := clamp_size size in
     write_echo 737 ;;
     match action with
     | JStr a =>
         if String.eqb a "hold" then write_echo 740 ;; ret true
         else if String.eqb a "open_long" || String.eqb a "open_short" then
           if (0 <? position_size)%float then
             success <- _place_order a position_size ;;
             if success then after_open a pm position_size current_price is_test
             else ret false
           else write_echo 797 ;; ret true
         else write_error 801 ;; ret false
     | _ => write_error 801 ;; ret false
     end)
    (fun _ => write_error 805 ;; ret false).

(** ** Module 2, continued: asking the AI *)

(** Lines 429-510: the prompt goes out, the text of the answer comes back. *)
Definition ask_ai (current_price : float) (klines : list kline)
  (account_status : balance) (position_info : position) : M Env string :=
  fun w =>
    let input := {| in_price := current_price; in_klines := klines;
                    in_account := account_status; in_position := position_info;
                    in_last_profit := last_profit w |} in
    let (answer, e') := deepseek input (env w) in
    (answer, {| env := e'; trace := trace w ++ [AiCall];
                current_tp_sl_orders := current_tp_sl_orders w;
                last_profit := last_profit w |}).

(** Lines 419-549. *)
Definition get_trading_decision (current_price : float) (klines : list kline)
  (account_status : balance) (position_info : position) : M Env json :=
  try_except
    (write_echo 423 ;; write_echo 424 ;; write_echo 425 ;; write_echo 426 ;;
     ai_response <- ask_ai current_price klines account_status position_info ;;
     write_echo 511 ;;
     write_echo 514 ;;
     decision <- lift (_parse_ai_response L ai_response) ;;
     write_echo 519 ;;
     td <- lift (py_getitem decision "trading_decision") ;;
     action <- lift (py_getitem td "action") ;;
     write_echo 520 ;;
     lift (py_getitem td "confidence_level") ;;
     write_echo 521 ;;
     lift (py_getitem td "reason") ;;
     write_echo 522 ;;
     pm <- lift (py_getitem decision "position_management") ;;
     size <- lift (py_getitem pm "position_size") ;;
     lift (py_num size) ;;
     write_echo 523 ;;
     tp <- lift (py_getitem pm "take_profit_price") ;;
     lift (py_num tp) ;;
     write_echo 524 ;;
     sl <- lift (py_getitem pm "stop_loss_price") ;;
     lift (py_num sl) ;;
     write_echo 525 ;;
     (if py_in_strs action ["open_long"; "open_short"]
      then write_echo 529 else write_echo 531) ;;
     ret decision)
    (fun e => write_error 536 ;; ret (ai_failure_decision e)).

(** ** The main program (class ETHTradingBot) *)

(** Lines 1311-1360. *)
Definition run_dynamic_cycle : M Env nat :=
  try_except
    (write_echo 1314 ;;
     has_pending <- has_pending_orders_or_tpsl ;;
     if has_pending then
       write_echo 1320 ;;
       ret CHECK_PENDING_ORDERS_INTERVAL
     else
       write_echo 1323 ;;
       klines <- get_kline_data ;;
       let current_price := match klines with
                            | k :: _ => k_close k
                            | [] => 0%float
                            end in
       write_echo 1334 ;;
       account_status <- get_account_balance ;;
       position_info <- get_position_info ;;
       ai_decision <- get_trading_decision current_price klines account_status position_info ;;
       (if py_truthy ai_decision then
          success <- execute_trade ai_decision current_price false ;;
          if success then write_echo 1351 else write_echo 1353
        else ret tt) ;;
       write_echo 1355 ;;
       ret AI_FREQUENCY)
    (fun _ => write_error 1359 ;; ret AI_FREQUENCY).

(** Lines 1362-1380: the first [iterations] rounds of the [while True] loop.
    [KeyboardInterrupt], which ends the loop, comes from outside and is not
    modelled. *)
Fixpoint main_loop (iterations : nat) : M Env unit :=
  match iterations with
  | O => ret tt
  | S rest =>
      try_except
        (next_interval <- run_dynamic_cycle ;;
         write_echo 1371 ;;
         sleep next_interval)
        (fun _ => write_error 1378 ;; write_echo 1379 ;; sleep 30) ;;
      main_loop rest
  end.

Definition run_continuously (iterations : nat) : M Env unit :=
  write_echo 1364 ;;
  main_loop iterations.

(** ** Module 1, continued: the ticker and the cancellations *)

(** Line 228: [float(data[0]['last'])]. *)
Definition read_last_price (data : list json) : res float :=
  match data with
  | [] => Raise IndexError
  | ticker :: _ => let? last := py_getitem ticker "last" in py_float L last
  end.

(** Lines 222-231. *)
Definition get_current_price : M Env float :=
  try_except
    (data <- _make_request "GET" "/api/v5/market/ticker" [("instId", SYMBOL)] ;;
     lift (read_last_price data))
    (fun _ => write_error 230 ;; ret 3500%float).

Definition CANCEL_ENDPOINT : string := "/api/v5/trade/cancel-algos".

(** Lines 356-373.  The parameters are a list of one dict (line 360); the
    request holds the members of that dict, the identifier as text. *)
Definition cancel_algo_order (algo_id : json) (inst_id : string) : M Env bool :=
  try_except
    (_make_request "POST" CANCEL_ENDPOINT
       [("algoId", py_str L algo_id); ("instId", inst_id)] ;;
     write_echo 368 ;;
     ret true)
    (fun _ => write_error 372 ;; ret false).

(** Line 385: [[order for order in algo_orders if order['instId'] == inst_id]]. *)
Fixpoint orders_of (inst_id : string) (algo_orders : list json) : res (list json) :=
  match algo_orders with
  | [] => Ok []
  | order :: rest =>
      let? inst := py_getitem order "instId" in
      let? others := orders_of inst_id rest in
      Ok (if py_eq inst (JStr inst_id) then order :: others else others)
  end.

(** Lines 395-401: the loop over the orders to cancel, with the count of
    the cancellations that went through.  The handler of line 400 reads
    [order['algoId']] again to write its message.  The pause of half a
    second after each order (line 399) is shorter than the second in which
    the trace counts pauses, and is not recorded. *)
Fixpoint cancel_each (inst_id : string) (target_orders : list json) (success_count : nat)
  : M Env nat :=
  match target_orders with
  | [] => ret success_count
  | order :: rest =>
      count <- try_except
                 (algo_id <- lift (py_getitem order "algoId") ;;
                  cancelled <- cancel_algo_order algo_id inst_id ;;
                  ret (if cancelled then S success_count else success_count))
                 (fun _ =>
                    lift (py_getitem order "algoId") ;;
                    write_error 401 ;;
                    ret success_count) ;;
      cancel_each inst_id rest count
  end.

(** Lines 375-408. *)
Definition cancel_all_algo_orders (inst_id : string) : M Env bool :=
  try_except
    (algo_orders <- get_algo_orders ;;
     if is_nil algo_orders then write_echo 381 ;; ret true else
     target_orders <- lift (orders_of inst_id algo_orders) ;;
     if is_nil target_orders then write_echo 388 ;; ret true else
     write_echo 391 ;;
     success_count <- cancel_each inst_id target_orders 0 ;;
     write_echo 403 ;;
     ret (Nat.eqb success_count (List.length target_orders)))
    (fun _ => write_error 407 ;; ret false).

(** ** Module 2, continued *)

(** Lines 713-715. *)
Definition update_profit (profit : float) : M Env unit :=
  fun w =>
    (Ok tt, {| env := env w; trace := trace w;
               current_tp_sl_orders := current_tp_sl_orders w;
               last_profit := profit |}).

(** ** Module 4, continued: what the trading test uses *)

(** Line 888: [self.current_tp_sl_orders = {}]. *)
Definition forget_orders : M Env unit :=
  fun w =>
    (Ok tt, {| env := env w; trace := trace w;
               current_tp_sl_orders := None;
               last_profit := last_profit w |}).

(** Reading [self.current_tp_sl_orders]. *)
Definition recorded_orders : M Env (option (json * json)) :=
  fun w => (Ok (current_tp_sl_orders w), w).

(** Lines 881-891: the recorded identifiers are cancelled in the order in
    which the dict holds them, take-profit first; what the cancellations
    answer is not looked at. *)
Definition _cancel_current_tp_sl_orders : M Env unit :=
  try_except
    (recorded <- recorded_orders ;;
     match recorded with
     | Some (tp_algo_id, sl_algo_id) =>
         write_echo 885 ;;
         cancel_algo_order tp_algo_id SYMBOL ;;
         cancel_algo_order sl_algo_id SYMBOL ;;
         forget_orders ;;
         write_echo 889
     | None => ret tt
     end)
    (fun _ => write_error 891).

(** Lines 1015-1055. *)
Definition _close_position (action : string) : M Env bool :=
  try_except
    (position_info <- get_position_info ;;
     if (position_size position_info =? 0)%float then write_echo 1021 ;; ret true else
     sides <- (if String.eqb action "close_long" then ret ("sell", "long")
               else if String.eqb action "close_short" then ret ("buy", "short")
               else raise (ValueError (String.append "无效的平仓动作: " action))) ;;
     contract_size <- lift (_convert_eth_to_contracts (position_size position_info)) ;;
     write_echo 1048 ;;
     _make_request "POST" ORDER_ENDPOINT
       [ ("instId", SYMBOL); ("tdMode", "cross"); ("side", fst sides);
         ("ordType", "market"); ("sz", contract_size); ("posSide", snd sides) ] ;;
     write_echo 1050 ;;
     ret true)
    (fun _ => write_error 1054 ;; ret false).

(** Lines 1094-1101 and 1143-1150: the entry price of the position just
    opened, or the current price when none could be read; [line] is the
    line of the first of the two log lines. *)
Definition test_entry_price (line : nat) : M Env float :=
  found <- _get_entry_price_with_retry ;;
  match found with
  | None =>
      current_price <- get_current_price ;;
      write_echo line ;;
      ret current_price
  | Some entry_price =>
      write_echo (line + 2) ;;
      ret entry_price
  end.

(** Lines 1076-1183. *)
Definition test_trading_module : M Env bool :=
  try_except
    (write_echo 1079 ;;
     write_echo 1082 ;;
     success <- _place_order "open_long" MIN_ORDER_SIZE ;;
     if negb success then write_error 1085 ;; ret false else
     write_echo 1087 ;;
     sleep 3 ;;
     write_echo 1091 ;;
     entry_price <- test_entry_price 1099 ;;
     write_echo 1107 ;;
     tp_sl_success <- _place_tp_sl_orders_with_retry "long" MIN_ORDER_SIZE
                        (entry_price + 10)%float (entry_price - 10)%float 5 ;;
     if negb tp_sl_success then write_error 1111 ;; ret false else
     write_echo 1113 ;;
     sleep 3 ;;
     write_echo 1117 ;;
     _cancel_current_tp_sl_orders ;;
     write_echo 1119 ;;
     write_echo 1122 ;;
     success <- _close_position "close_long" ;;
     if negb success then write_error 1125 ;; ret false else
     write_echo 1127 ;;
     sleep 3 ;;
     write_echo 1131 ;;
     success <- _place_order "open_short" MIN_ORDER_SIZE ;;
     if negb success then write_error 1134 ;; ret false else
     write_echo 1136 ;;
     sleep 3 ;;
     write_echo 1140 ;;
     entry_price <- test_entry_price 1148 ;;
     write_echo 1156 ;;
     tp_sl_success <- _place_tp_sl_orders_with_retry "short" MIN_ORDER_SIZE
                        (entry_price - 10)%float (entry_price + 10)%float 5 ;;
     if negb tp_sl_success then write_error 1160 ;; ret false else
     write_echo 1162 ;;
     sleep 3 ;;
     write_echo 1166 ;;
     _cancel_current_tp_sl_orders ;;
     write_echo 1168 ;;
     write_echo 1171 ;;
     success <- _close_position "close_short" ;;
     if negb success then write_error 1174 ;; ret false else
     write_echo 1176 ;;
     write_echo 1178 ;;
     ret true)
    (fun _ => write_error 1182 ;; ret false).

(** ** The test run (class TradingBotTester) *)

(** Line 33. *)
Definition jymkcs : bool := true.

(** Lines 1229-1255.  (The test of line 1246 is never true: the position is
    a dict.) *)
Definition test_data_collection : M Env bool :=
  try_except
    (klines <- get_kline_data ;;
     if is_nil klines then write_error 1235 ;; ret false else
     balance <- get_account_balance ;;
     if ((available_OKX balance =? 0) && (total_equity balance =? 0))%float
     then write_error 1241 ;; ret false else
     get_position_info ;;
     write_echo 1250 ;;
     ret true)
    (fun _ => write_error 1254 ;; ret false).

(** Lines 1257-1293.  The two [json.dumps] serialise dicts of strings and
    numbers, which cannot fail; they are part of the log lines 1279 and
    1286. *)
Definition test_ai_module : M Env bool :=
  try_except
    (klines <- get_kline_data ;;
     let current_price := match klines with
                          | k :: _ => k_close k
                          | [] => 0%float
                          end in
     account_status <- get_account_balance ;;
     position_info <- get_position_info ;;
     write_echo 1273 ;;
     write_echo 1279 ;;
     get_trading_decision current_price klines account_status position_info ;;
     write_echo 1285 ;;
     write_echo 1286 ;;
     write_echo 1288 ;;
     ret true)
    (fun _ => write_error 1292 ;; ret false).

(** Lines 1194-1227. *)
Definition run_full_test : M Env bool :=
  try_except
    (write_echo 1197 ;;
     write_echo 1200 ;;
     success <- test_data_collection ;;
     if negb success then write_error 1203 ;; ret false else
     write_echo 1205 ;;
     write_echo 1208 ;;
     success <- test_ai_module ;;
     if negb success then write_error 1211 ;; ret false else
     if jymkcs then
       write_echo 1216 ;;
       success <- test_trading_module ;;
       if negb success then write_error 1219 ;; ret false
       else write_echo 1222 ;; ret true
     else write_echo 1222 ;; ret true)
    (fun _ => write_error 1226 ;; ret false).

(** Lines 1307-1309. *)
Definition run_tests : M Env bool := run_full_test.

(** Lines 1382-1396, after the bot is built: the test run, then the loop
    when the tests pass. *)
Definition main (iterations : nat) : M Env unit :=
  write_echo 1385 ;;
  write_echo 1386 ;;
  write_echo 1387 ;;
  write_echo 1388 ;;
  write_echo 1389 ;;
  passed <- run_tests ;;
  if passed then write_echo 1393 ;; run_continuously iterations
  else write_error 1396.

(** ** Notions used to state the properties *)

(** [appends P m]: whatever the world, [m] only adds events to the trace,
    and every event it adds satisfies [P]. *)
Definition appends {A : Type} (P : event -> bool) (m : M Env A) : Prop :=
  forall w, exists new,
    trace (snd (m w)) = trace w ++ new /\ forallb P new = true.

(** [returns_only c m]: when [m] returns, it returns [c]. *)
Definition returns_only {A : Type} (c : A) (m : M Env A) : Prop :=
  forall w r w', m w = (Ok r, w') -> r = c.

(** Events that stay inside the process: log lines and pauses. *)
Definition quiet (e : event) : bool :=
  match e with
  | Request _ | AiCall => false
  | Sleep _ | Echo _ | Err _ => true
  end.

(** Every event but the log line that opens an attempt of
    [_place_tp_sl_orders_with_retry] (line 833). *)
Definition not_attempt_mark (e : event) : bool :=
  match e with
  | Echo n => negb (Nat.eqb n 833)
  | _ => true
  end.





(** The schema of a decision as the specification words it: an object with
    the members [trading_decision] and [position_management], both objects,
    each holding its three fields, with the action and the confidence level
    in their enumerations. *)
Definition schema_valid (decision : json) : bool :=
  match decision with
  | JObj m =>
      match assoc "trading_decision" m, assoc "position_management" m with
      | Some (JObj td), Some (JObj pm) =>
          forallb (fun f => has_key f td) td_fields
          && forallb (fun f => has_key f pm) pm_fields
          && match assoc "action" td with
             | Some a => py_in_strs a valid_actions
             | None => false
             end
          && match assoc "confidence_level" td with
             | Some c => py_in_strs c valid_confidences
             | None => false
             end
      | _, _ => false
      end
  | _ => false
  end.

(** The third tier as the specification words it: the text between the
    first opening brace and the last closing brace, parsed and validated. *)
Definition spec_brace_tier (response : string) : option json :=
  let start_idx := str_find "{"%char response in
  let end_idx := (str_rfind "}"%char response + 1)%Z in
  if negb (start_idx =? -1)%Z && negb (end_idx =? -1)%Z
  then parse_whole L _validate_decision_format (py_slice response start_idx end_idx)
  else None.

(** Kinds of events: a call of the AI endpoint; a [POST] request, to the
    endpoint [ep] or to any; an event that changes nothing outside the
    process (a log line, a pause, a [GET] request); the error line [line];
    the log line [line]. *)
Definition is_ai_call (e : event) : bool :=
  match e with
  | AiCall => true
  | _ => false
  end.

Definition posts_to (ep : string) (e : event) : bool :=
  match e with
  | Request r => String.eqb (meth r) "POST" && to ep r
  | _ => false
  end.

Definition is_post (e : event) : bool :=
  match e with
  | Request r => String.eqb (meth r) "POST"
  | _ => false
  end.

Definition reads_only (e : event) : bool :=
  match e with
  | Request r => String.eqb (meth r) "GET"
  | AiCall => false
  | Sleep _ | Echo _ | Err _ => true
  end.

Definition is_error (line : nat) (e : event) : bool :=
  match e with
  | Err n => Nat.eqb n line
  | _ => false
  end.

Definition is_echo (line : nat) (e : event) : bool :=
  match e with
  | Echo n => Nat.eqb n line
  | _ => false
  end.

(** The log lines that the statements below single out: the error lines
    of the handlers of [execute_trade] (805), [run_dynamic_cycle] (1359)
    and [run_continuously] (1378), the error lines of prices that are
    rejected (778, 782) and of a bracket that could not be set (794), and
    the lines that open a cycle (1314) and close a round of the main loop
    (1371). *)
Definition reserved (e : event) : bool :=
  match e with
  | Err n => Nat.eqb n 778 || Nat.eqb n 782 || Nat.eqb n 794 || Nat.eqb n 805
             || Nat.eqb n 1359 || Nat.eqb n 1378
  | Echo n => Nat.eqb n 1314 || Nat.eqb n 1371
  | _ => false
  end.

Definition count_events (Q : event -> bool) (t : list event) : nat :=
  List.length (filter Q t).

(** The request of [get_position_info] (lines 262-264). *)
Definition positions_request : request :=
  {| meth := "GET"; endpoint := "/api/v5/account/positions";
     params := [("instId", SYMBOL)] |}.

(** The request that submits a conditional order (lines 901-945, 953 and
    958) and the request that cancels one (lines 359-367). *)
Definition algo_request (pos_side sz kind : string) (trigger : float) : request :=
  {| meth := "POST"; endpoint := ALGO_ENDPOINT;
     params := algo_params pos_side sz kind trigger |}.

Definition cancel_request (algo_id : json) (inst_id : string) : request :=
  {| meth := "POST"; endpoint := CANCEL_ENDPOINT;
     params := [("algoId", py_str L algo_id); ("instId", inst_id)] |}.

(** The request of [get_algo_orders] (lines 300-311). *)
Definition listing_request : request :=
  {| meth := "GET"; endpoint := "/api/v5/trade/orders-algo-pending";
     params := [("instType", "SWAP"); ("ordType", "conditional"); ("instId", SYMBOL)] |}.

(** The seconds a trace spends in [time.sleep]. *)
Definition seconds_slept (t : list event) : nat :=
  list_sum (map (fun e => match e with Sleep s => s | _ => 0 end) t).

(** [ensures P Q m]: whatever the world, [m] returns (it does not raise),
    every event it adds to the trace satisfies [P], and what it returns
    satisfies [Q]. *)
Definition ensures {A : Type} (P : event -> bool) (Q : A -> Prop) (m : M Env A) : Prop :=
  forall w, exists a w' new,
    m w = (Ok a, w')
    /\ trace w' = trace w ++ new
    /\ forallb P new = true
    /\ Q a.

(** [at_most n Q m]: [m] adds at most [n] events that satisfy [Q]. *)
Definition at_most {A : Type} (n : nat) (Q : event -> bool) (m : M Env A) : Prop :=
  forall w, exists new,
    trace (snd (m w)) = trace w ++ new /\ count_events Q new <= n.

(** A decision that [execute_trade] can read: valid under the schema, its
    three members of [position_management] numbers. *)
Definition numeric_member (pm : json) (field : string) : bool :=
  match py_getitem pm field with
  | Ok v => match py_num v with
            | Ok _ => true
            | Raise _ => false
            end
  | Raise _ => false
  end.

Definition well_formed (decision : json) : bool :=
  schema_valid decision
  && match py_getitem decision "position_management" with
     | Ok pm => forallb (numeric_member pm) pm_fields
     | Raise _ => false
     end.

(** The member [position_management] is a string or a list. *)
Definition loose_member (decision : json) : bool :=
  match py_getitem decision "position_management" with
  | Ok (JStr _) | Ok (JArr _) => true
  | _ => false
  end.

(** The request of [get_kline_data] (lines 159-166). *)
Definition candles_request : request :=
  {| meth := "GET"; endpoint := "/api/v5/market/candles";
     params := [("instId", SYMBOL); ("bar", "5m"); ("limit", "4")] |}.

(** The request of [_place_order] (lines 989-1000) for an open action and
    the text [sz] of the number of contracts. *)
Definition order_request (action sz : string) : request :=
  {| meth := "POST"; endpoint := ORDER_ENDPOINT;
     params := [ ("instId", SYMBOL); ("tdMode", "cross");
                 ("side", if String.eqb action "open_long" then "buy" else "sell");
                 ("ordType", "market"); ("sz", sz); ("lever", LEVERAGE);
                 ("posSide", if String.eqb action "open_long" then "long" else "short") ] |}.

(** The request of [_close_position] (lines 1039-1049) for a closing
    action. *)
Definition close_request (action sz : string) : request :=
  {| meth := "POST"; endpoint := ORDER_ENDPOINT;
     params := [ ("instId", SYMBOL); ("tdMode", "cross");
                 ("side", if String.eqb action "close_long" then "sell" else "buy");
                 ("ordType", "market"); ("sz", sz);
                 ("posSide", if String.eqb action "close_long" then "long" else "short") ] |}.

(** The request of [get_account_balance] (lines 236-237). *)
Definition balance_request : request :=
  {| meth := "GET"; endpoint := "/api/v5/account/balance"; params := [] |}.

(** The world in which [main] starts the test run: after the five lines
    of lines 1385-1389. *)
Definition after_banner (w : world Env) : world Env :=
  snd ((write_echo 1385 ;; write_echo 1386 ;; write_echo 1387 ;;
        write_echo 1388 ;; write_echo 1389) w).

(** An exchange that is out of reach: every request raises. *)
Definition unreachable : Prop :=
  forall r s, exists e s', exchange r s = (Raise e, s').

(** [flagged P m]: every event that [m] adds to the trace is in [P], unless
    [m] returns [True]. *)
Definition flagged (P : event -> bool) (m : M Env bool) : Prop :=
  forall w, exists new,
    trace (snd (m w)) = trace w ++ new
    /\ (forallb P new = true \/ fst (m w) = Ok true).


(** [keeps_profit m]: [m] leaves the attribute [last_profit] as it is. *)
Definition keeps_profit {A : Type} (m : M Env A) : Prop :=
  forall w, last_profit (snd (m w)) = last_profit w.

(** * Properties *)

(** ** What a computation adds to the trace *)

Lemma appends_ret {A : Type} (P : event -> bool) (a : A) : appends P (ret a).
Proof. intro w. exists []. cbn. now rewrite app_nil_r. Qed.

Lemma appends_raise {A : Type} (P : event -> bool) (e : exn) :
  appends P (raise e : M Env A).
Proof. intro w. exists []. cbn. now rewrite app_nil_r. Qed.

Lemma appends_lift {A : Type} (P : event -> bool) (r : res A) : appends P (lift r).
Proof. intro w. exists []. cbn. now rewrite app_nil_r. Qed.

Lemma appends_emit (P : event -> bool) (e : event) :
  P e = true -> appends P (emit e).
Proof. intros H w. exists [e]. cbn. now rewrite H. Qed.

Lemma appends_bind {A B : Type} (P : event -> bool) (m : M Env A) (k : A -> M Env B) :
  appends P m -> (forall a, appends P (k a)) -> appends P (bind m k).
Proof.
  intros Hm Hk w. unfold bind.
  destruct (Hm w) as [n1 [E1 F1]].
  destruct (m w) as [[a | e] w1]; cbn in E1.
  - destruct (Hk a w1) as [n2 [E2 F2]].
    exists (n1 ++ n2). rewrite E2, E1, app_assoc, forallb_app, F1, F2. now split.
  - exists n1. now split.
Qed.

Lemma appends_try {A : Type} (P : event -> bool) (m : M Env A) (h : exn -> M Env A) :
  appends P m -> (forall e, appends P (h e)) -> appends P (try_except m h).
Proof.
  intros Hm Hh w. unfold try_except.
  destruct (Hm w) as [n1 [E1 F1]].
  destruct (m w) as [[a | e] w1]; cbn in E1.
  - exists n1. now split.
  - destruct (Hh e w1) as [n2 [E2 F2]].
    exists (n1 ++ n2). rewrite E2, E1, app_assoc, forallb_app, F1, F2. now split.
Qed.

Lemma appends_request (P : event -> bool) (method path : string) (ps : list (string * string)) :
  (forall r, P (Request r) = true) -> appends P (_make_request method path ps).
Proof.
  intros H w. unfold _make_request.
  destruct (exchange _ (env w)) as [answer e'].
  eexists [_]. cbn. now rewrite H.
Qed.

Lemma appends_record (P : event -> bool) (ids : json * json) :
  appends P (record_orders ids).
Proof. intro w. exists []. cbn. now rewrite app_nil_r. Qed.

Lemma quiet_no_request (new : list event) :
  forallb quiet new = true -> requests_of new = [].
Proof.
  induction new as [| e new IH]; cbn; [easy |].
  destruct e; cbn; intros H; try discriminate; auto.
Qed.



Lemma requests_of_app (a b : list event) :
  requests_of (a ++ b) = requests_of a ++ requests_of b.
Proof. unfold requests_of. now rewrite flat_map_app. Qed.

(** ** The five getters never raise *)

Ltac run := unfold try_except, bind, ret, raise, lift, write_echo, write_error, sleep, emit;
            cbn [fst snd trace env current_tp_sl_orders last_profit].

Lemma getter_total {A : Type} (m : M Env A) (h : exn -> M Env A) (w : world Env) :
  (forall e w1, exists a w2, h e w1 = (Ok a, w2)) ->
  exists a w', try_except m h w = (Ok a, w').
Proof.
  intros Hh. unfold try_except.
  destruct (m w) as [[a | e] w1]; [now exists a, w1 | apply Hh].
Qed.

Lemma get_pending_orders_total (w : world Env) :
  exists orders w', get_pending_orders w = (Ok orders, w').
Proof. apply getter_total. intros e w1. run. eauto. Qed.

Lemma get_algo_orders_total (w : world Env) :
  exists orders w', get_algo_orders w = (Ok orders, w').
Proof. apply getter_total. intros e w1. run. eauto. Qed.

Lemma get_position_info_total (w : world Env) :
  exists pos w', get_position_info w = (Ok pos, w').
Proof. apply getter_total. intros e w1. run. eauto. Qed.

Lemma get_kline_data_total (w : world Env) :
  exists klines w', get_kline_data w = (Ok klines, w').
Proof. apply getter_total. intros e w1. run. eauto. Qed.

Lemma get_account_balance_total (w : world Env) :
  exists b w', get_account_balance w = (Ok b, w').
Proof. apply getter_total. intros e w1. run. eauto. Qed.

(** ** The bracket routine on a flat side or an empty size *)

(** C10.  Called with [pos_side = "flat"], or with a size that is [<= 0],
    [_place_tp_sl_orders_with_retry] returns [True] at once: all it does is
    write the log line 828.  It sends no request, so it places no
    conditional order and looks none up. *)
Theorem flat_or_empty_returns_true_unverified
  (pos_side : string) (eth_size tp_price sl_price : float) (max_retries : nat)
  (w : world Env) :
  pos_side = "flat" \/ (eth_size <=? 0)%float = true ->
  exists w',
    _place_tp_sl_orders_with_retry pos_side eth_size tp_price sl_price max_retries w
      = (Ok true, w')
    /\ trace w' = trace w ++ [Echo 828]
    /\ requests_of (trace w') = requests_of (trace w)
    /\ env w' = env w
    /\ current_tp_sl_orders w' = current_tp_sl_orders w.
Proof.
  intros H. unfold _place_tp_sl_orders_with_retry.
  assert (G : String.eqb pos_side "flat" || (eth_size <=? 0)%float = true).
  { destruct H as [-> | ->]; [reflexivity | apply orb_true_r]. }
  rewrite G. run. eexists. split; [reflexivity |]. cbn.
  rewrite requests_of_app. cbn. rewrite app_nil_r. auto.
Qed.

(** ** The market order *)

Lemma diagnose_quiet (e : exn) : appends quiet (diagnose_order_failure e).
Proof.
  unfold diagnose_order_failure.
  repeat match goal with
         | |- context [if ?c then _ else _] => destruct c
         end;
    first [apply appends_emit; reflexivity | apply appends_ret].
Qed.

Lemma order_failed_spec (e : exn) (w1 : world Env) :
  exists w2 extra,
    order_failed e w1 = (Ok false, w2)
    /\ trace w2 = trace w1 ++ extra /\ requests_of extra = []
    /\ env w2 = env w1.
Proof.
  unfold order_failed. unfold bind at 1. unfold write_error at 1. unfold emit.
  unfold bind.
  destruct (diagnose_quiet e
              {| env := env w1; trace := trace w1 ++ [Err 1005];
                 current_tp_sl_orders := current_tp_sl_orders w1;
                 last_profit := last_profit w1 |}) as [n [E Q]].
  assert (T : exists w3, diagnose_order_failure e
              {| env := env w1; trace := trace w1 ++ [Err 1005];
                 current_tp_sl_orders := current_tp_sl_orders w1;
                 last_profit := last_profit w1 |} = (Ok tt, w3)
              /\ env w3 = env w1).
  { unfold diagnose_order_failure.
    repeat match goal with
           | |- context [if ?c then _ else _] => destruct c
           end; run; eauto. }
  destruct T as [w3 [T Ev]]. rewrite T in *. cbn in E.
  exists w3, (Err 1005 :: n). split; [reflexivity |]. split.
  - rewrite E, <- app_assoc. reflexivity.
  - cbn. split; [now apply quiet_no_request | exact Ev].
Qed.

(** C8.  [_place_order] turns the quantity into contracts by dividing by
    0.1; when that is below 0.01 it returns [False] and sends nothing.  In
    every case it returns a boolean (it never raises), it sends at most one
    request, that request goes to the order endpoint, and [True] means that
    exactly one was sent.  For an open action and a quantity that is not
    too small it submits exactly one request, the market order whose [sz]
    is the text of the quantity divided by 0.1, and it answers [True] when
    the exchange takes the order and [False] when the exchange refuses it;
    for any other action it answers [False] and sends nothing.  The text
    of an error only chooses a log line. *)
Theorem place_order_single_attempt (action : string) (eth_size : float) (w : world Env) :
  exists b w' new,
    _place_order action eth_size w = (Ok b, w')
    /\ trace w' = trace w ++ new
    /\ List.length (requests_of new) <= 1
    /\ forallb (to ORDER_ENDPOINT) (requests_of new) = true
    /\ ((eth_size / CONTRACT_VALUE <? MIN_CONTRACT_SIZE)%float = true ->
        b = false /\ requests_of new = [])
    /\ (b = true -> List.length (requests_of new) = 1)
    /\ (String.eqb action "open_long" || String.eqb action "open_short" = false ->
        b = false /\ requests_of new = [])
    /\ (String.eqb action "open_long" || String.eqb action "open_short" = true ->
        (eth_size / CONTRACT_VALUE <? MIN_CONTRACT_SIZE)%float = false ->
        exists answer,
          requests_of new
          = [order_request action (format_f L 2 (eth_size / CONTRACT_VALUE))]
          /\ exchange (order_request action (format_f L 2 (eth_size / CONTRACT_VALUE)))
               (env w) = (answer, env w')
          /\ b = match answer with
                 | Ok _ => true
                 | Raise _ => false
                 end).
Proof.
  assert (Sent : forall r t, requests_of (Request r :: t) = r :: requests_of t)
    by reflexivity.
  assert (Logged : forall n t, requests_of (Echo n :: t) = requests_of t)
    by reflexivity.
  unfold _place_order, try_except.
  unfold bind, ret, raise, lift, write_echo, emit, _make_request,
    _convert_eth_to_contracts, order_request.
  cbn [env trace current_tp_sl_orders last_profit].
  destruct (String.eqb action "open_long") eqn:Along;
    [| destruct (String.eqb action "open_short") eqn:Ashort].
  all: cbn [orb fst snd].
  all: destruct (eth_size / CONTRACT_VALUE <? MIN_CONTRACT_SIZE)%float eqn:Small.
  all: try match goal with
           | |- context [exchange ?r ?s] =>
               destruct (exchange r s) as [[data | e] s'] eqn:X
           end.
  all: cbn [env trace current_tp_sl_orders last_profit].
  all: try match goal with
           | |- context [order_failed ?e ?w1] =>
               destruct (order_failed_spec e w1) as [w2 [extra [E [T [R Ev]]]]];
               rewrite E; cbn in T, Ev;
               eexists false, w2, _; split; [reflexivity |];
               rewrite T, <- ?app_assoc; split; [reflexivity |];
               cbn [app]; repeat (rewrite Sent || rewrite Logged); rewrite R;
               cbn [List.length forallb to endpoint String.eqb Ascii.eqb Bool.eqb andb];
               repeat split; auto; try congruence;
               intros _ _; exists (Raise e); rewrite Ev; auto
           end.
  all: eexists true, _, _; split; [reflexivity |];
    cbn [trace]; rewrite <- ?app_assoc; split; [reflexivity |];
    cbn [app]; repeat (rewrite Sent || rewrite Logged);
    cbn; repeat split; auto; try congruence;
    intros _ _; exists (Ok data); auto.
Qed.

(** ** The field-by-field tier *)

Lemma find_action_valid (patterns : list regex) (response a : string) :
  find_action L patterns response = Ok (Some a) ->
  existsb (String.eqb a) valid_actions = true.
Proof.
  induction patterns as [| p ps IH]; cbn [find_action]; [discriminate |].
  destruct (re_search L p response) as [[g |] | e]; cbn [rbind];
    try discriminate; auto.
  destruct (existsb (String.eqb (lower g)) valid_actions) eqn:V; auto.
  intros H. injection H as <-. exact V.
Qed.

Lemma build_standard_shape (response : string) (d : json) :
  _build_standard_decision_from_response L response = Ok d ->
  exists action reason,
    d = make_decision action "medium" reason 0 0 0
    /\ existsb (String.eqb action) valid_actions = true.
Proof.
  unfold _build_standard_decision_from_response.
  destruct (find_action L action_patterns response) as [fa | e] eqn:A;
    cbn [rbind]; [| discriminate].
  destruct (find_reason L reason_patterns response) as [fr | e] eqn:R;
    cbn [rbind]; [| discriminate].
  intros H. injection H as <-.
  destruct fa as [a |].
  - eexists a, _. split; [reflexivity |]. now apply find_action_valid in A.
  - eexists "hold", _. split; reflexivity.
Qed.

Lemma clamp_zero : clamp_size 0 = 0%float.
Proof. reflexivity. Qed.

Lemma zero_not_positive : (0 <? 0)%float = false.
Proof. reflexivity. Qed.

(** A decision whose size is 0 sends nothing, whatever its other fields. *)
Lemma zero_size_sends_nothing (action confidence reason : string) (sl tp : float)
  (current_price : float) (is_test : bool) (w : world Env) :
  exists b w' new,
    execute_trade (make_decision action confidence reason 0 sl tp) current_price is_test w
      = (Ok b, w')
    /\ trace w' = trace w ++ new /\ requests_of new = [].
Proof.
  unfold execute_trade, try_except, make_decision.
  unfold bind, ret, raise, lift, write_echo, write_error, emit.
  cbn [py_getitem assoc String.eqb Ascii.eqb Bool.eqb rbind py_num
       env trace current_tp_sl_orders last_profit].
  rewrite clamp_zero, zero_not_positive.
  destruct (String.eqb action "hold");
    [| destruct (String.eqb action "open_long" || String.eqb action "open_short")];
    cbn [env trace current_tp_sl_orders last_profit];
    eexists _, _, _; (split; [reflexivity |]); cbn [trace];
    rewrite <- ?app_assoc; (split; [reflexivity |]); reflexivity.
Qed.

(** C9.  A decision built by [_build_standard_decision_from_response] has
    the confidence level [medium] and the three numbers 0: only its action
    and its reason come from the text.  Passed to [execute_trade], with any
    price and in either mode, it sends no request at all, so no market
    order. *)
Theorem heuristic_decision_never_orders (response : string) (d : json) :
  _build_standard_decision_from_response L response = Ok d ->
  (exists action reason, d = make_decision action "medium" reason 0 0 0)
  /\ forall current_price is_test w, exists b w' new,
       execute_trade d current_price is_test w = (Ok b, w')
       /\ trace w' = trace w ++ new /\ requests_of new = [].
Proof.
  intros H. apply build_standard_shape in H.
  destruct H as [action [reason [-> _]]]. split.
  - now exists action, reason.
  - intros. apply zero_size_sends_nothing.
Qed.

(** ** The exposure check *)

Lemma positive_is_nonzero (x : float) : (0 <? x)%float = true -> (x =? 0)%float = false.
Proof.
  rewrite ltb_spec, eqb_spec. change (Prim2SF 0) with (S754_zero false).
  destruct (Prim2SF x) as [s | s | | s m e]; cbn; try discriminate;
    destruct s; cbn; congruence.
Qed.

Lemma abs_of_negative (x : float) : (x <? 0)%float = true -> (0 <? abs x)%float = true.
Proof.
  rewrite !ltb_spec, abs_spec. change (Prim2SF 0) with (S754_zero false).
  destruct (Prim2SF x) as [s | s | | s m e]; cbn; try discriminate;
    destruct s; cbn; congruence.
Qed.

(** The size that [get_position_info] reports is positive exactly when it
    is not zero: the size is 0, or a positive [pos], or the absolute value
    of a negative one. *)
Lemma read_position_sign (data : list json) (pos : position) :
  read_position data = Ok pos ->
  (0 <? position_size pos)%float = negb (position_size pos =? 0)%float.
Proof.
  unfold read_position. destruct data as [| p rest].
  - intros H. injection H as <-. reflexivity.
  - destruct (py_get p "pos" (JStr "0")) as [raw | e]; cbn [rbind]; [| discriminate].
    destruct (py_float L raw) as [x | e]; cbn [rbind]; [| discriminate].
    destruct (0 <? x)%float eqn:Pos; [| destruct (x <? 0)%float eqn:Neg].
    + destruct (py_get p "avgPx" (JStr "0")) as [avg | e]; cbn [rbind]; [| discriminate].
      destruct (py_float L avg) as [px | e]; cbn [rbind]; [| discriminate].
      intros H. injection H as <-. cbn [position_size].
      now rewrite Pos, (positive_is_nonzero x Pos).
    + destruct (py_get p "avgPx" (JStr "0")) as [avg | e]; cbn [rbind]; [| discriminate].
      destruct (py_float L avg) as [px | e]; cbn [rbind]; [| discriminate].
      intros H. injection H as <-. cbn [position_size].
      pose proof (abs_of_negative x Neg) as A.
      now rewrite A, (positive_is_nonzero _ A).
    + intros H. injection H as <-. reflexivity.
Qed.

Lemma position_size_sign (w w' : world Env) (pos : position) :
  get_position_info w = (Ok pos, w') ->
  (0 <? position_size pos)%float = negb (position_size pos =? 0)%float.
Proof.
  unfold get_position_info, try_except, bind, lift, _make_request.
  destruct (exchange _ (env w)) as [[data | e] s'].
  - destruct (read_position data) as [p | e] eqn:R.
    + intros H. injection H as <- _. now apply read_position_sign in R.
    + run. intros H. injection H as <- _. reflexivity.
  - run. intros H. injection H as <- _. reflexivity.
Qed.

(** When the exchange answers nothing, each getter gives its empty value. *)
Lemma failing_exchange_reads_empty (w : world Env) :
  (forall r s, exists e s', exchange r s = (Raise e, s')) ->
  (exists w', get_pending_orders w = (Ok [], w'))
  /\ (exists w', get_algo_orders w = (Ok [], w'))
  /\ (exists w', get_position_info w = (Ok flat_position, w')).
Proof.
  intros F.
  unfold get_pending_orders, get_algo_orders, get_position_info,
    try_except, bind, lift, _make_request.
  repeat split;
    match goal with
    | |- context [exchange ?r ?s] => destruct (F r s) as [e [s' ->]]
    end; run; eauto.
Qed.

Lemma has_pending_total (w : world Env) :
  exists b w', has_pending_orders_or_tpsl w = (Ok b, w').
Proof. apply getter_total. intros e w1. run. eauto. Qed.

(** C3.  Ask the three sources in the order of the code: pending orders,
    pending conditional orders, position.  [has_pending_orders_or_tpsl]
    returns [True] exactly when one of the three is not empty (a list that
    is not empty, a position size that is not zero), hence [False] only
    when all three are empty.  It never raises; and when the exchange fails
    on every request the three sources read as empty, so the answer is
    [False]. *)
Theorem exposure_iff_some_source (w : world Env) :
  exists pending w1 algo w2 pos w3 w',
    get_pending_orders w = (Ok pending, w1)
    /\ get_algo_orders w1 = (Ok algo, w2)
    /\ get_position_info w2 = (Ok pos, w3)
    /\ has_pending_orders_or_tpsl w
       = (Ok (negb (is_nil pending) || negb (is_nil algo)
              || negb (position_size pos =? 0)%float), w')
    /\ ((forall r s, exists e s', exchange r s = (Raise e, s')) ->
        pending = [] /\ algo = [] /\ pos = flat_position
        /\ has_pending_orders_or_tpsl w = (Ok false, w')).
Proof.
  destruct (get_pending_orders_total w) as [pending [w1 P]].
  destruct (get_algo_orders_total w1) as [algo [w2 A]].
  destruct (get_position_info_total w2) as [pos [w3 I]].
  pose proof (position_size_sign _ _ _ I) as S.
  assert (R : exists w',
             has_pending_orders_or_tpsl w
             = (Ok (negb (is_nil pending) || negb (is_nil algo)
                    || negb (position_size pos =? 0)%float), w')).
  { unfold has_pending_orders_or_tpsl, try_except. unfold bind at 1. rewrite P.
    destruct pending as [| o os]; cbn [is_nil negb orb].
    - unfold bind at 1. rewrite A.
      destruct algo as [| o os]; cbn [is_nil negb orb].
      + unfold bind at 1. rewrite I. rewrite S.
        destruct (negb (position_size pos =? 0)%float); run; eauto.
      + run. eauto.
    - run. eauto. }
  destruct R as [w' R].
  exists pending, w1, algo, w2, pos, w3, w'.
  repeat (split; [assumption |]).
  intros F.
  destruct (failing_exchange_reads_empty w F) as [[x Px] _].
  destruct (failing_exchange_reads_empty w1 F) as [_ [[y Ay] _]].
  destruct (failing_exchange_reads_empty w2 F) as [_ [_ [z Iz]]].
  rewrite P in Px. rewrite A in Ay. rewrite I in Iz.
  injection Px as -> _. injection Ay as -> _. injection Iz as -> _.
  repeat (split; [reflexivity |]). exact R.
Qed.

(** ** One cycle *)

Lemma returns_only_ret {A : Type} (c : A) : returns_only c (ret c).
Proof. intros w r w' H. now injection H as <- _. Qed.

Lemma returns_only_bind {A B : Type} (c : B) (m : M Env A) (k : A -> M Env B) :
  (forall a, returns_only c (k a)) -> returns_only c (bind m k).
Proof.
  intros Hk w r w'. unfold bind.
  destruct (m w) as [[a | e] w1]; [apply Hk | discriminate].
Qed.

(** C2.  [run_dynamic_cycle] always returns an interval and never raises:
    30 seconds when [has_pending_orders_or_tpsl] (called first, after the
    opening log line) answers [True], and 300 seconds in every other case,
    whatever fails on the way. *)
Theorem cycle_always_returns_interval (w : world Env) :
  exists exposed w1 w',
    has_pending_orders_or_tpsl (snd (write_echo 1314 w)) = (Ok exposed, w1)
    /\ run_dynamic_cycle w
       = (Ok (if exposed then CHECK_PENDING_ORDERS_INTERVAL else AI_FREQUENCY), w').
Proof.
  destruct (has_pending_total (snd (write_echo 1314 w))) as [exposed [w1 H]].
  exists exposed, w1.
  unfold run_dynamic_cycle, try_except. unfold bind at 1.
  change (write_echo 1314 w) with (Ok tt, snd (write_echo 1314 w)).
  cbv iota. unfold bind at 1. rewrite H.
  destruct exposed.
  - run. eauto.
  - match goal with
    | |- context [bind ?m ?k ?x] =>
        assert (R : returns_only AI_FREQUENCY (bind m k));
        [| destruct (bind m k x) as [[n | e] w2] eqn:Rest]
    end.
    + repeat first [ apply returns_only_ret
                   | apply returns_only_bind; intros; cbv zeta ].
    + apply R in Rest. subst n. eauto.
    + run. eauto.
Qed.

(** ** The bracket routine *)

Ltac appends_auto :=
  repeat first
    [ apply appends_ret | apply appends_raise | apply appends_lift
    | apply appends_record
    | apply appends_emit; reflexivity
    | apply appends_request; intros; reflexivity
    | apply appends_try; [| intros]
    | apply appends_bind; [| intros]
    | match goal with
      | |- appends _ (if ?c then _ else _) => destruct c
      end ].

Lemma get_algo_orders_no_mark : appends not_attempt_mark get_algo_orders.
Proof. unfold get_algo_orders. appends_auto. Qed.






Section Attempts.

Variables (pos_side : string) (eth_size tp_price sl_price : float).




End Attempts.


(** ** The tiers of the parser *)

Lemma parse_whole_valid (validate : json -> bool) (text : string) (d : json) :
  parse_whole L validate text = Some d -> validate d = true.
Proof.
  unfold parse_whole.
  destruct (json_loads L text) as [x | e]; [| discriminate].
  destruct (validate x) eqn:V; [| discriminate].
  intros H. now injection H as <-.
Qed.

Lemma first_valid_match_valid (matches : list string) (d : json) :
  first_valid_match L matches = Some d -> _validate_decision_format d = true.
Proof.
  induction matches as [| m rest IH]; cbn [first_valid_match]; [discriminate |].
  destruct (json_loads L _) as [x | e]; auto.
  destruct (_validate_decision_format x) eqn:V; auto.
  intros H. now injection H as <-.
Qed.

Lemma built_decision_valid (action reason : string) :
  existsb (String.eqb action) valid_actions = true ->
  _validate_decision_format (make_decision action "medium" reason 0 0 0) = true.
Proof.
  intros H. unfold _validate_decision_format, validate_with, validate_checks, make_decision.
  cbn [py_contains py_getitem py_all_in has_key assoc String.eqb Ascii.eqb Bool.eqb
       rbind negb td_fields pm_fields].
  change (py_in_strs (JStr action) valid_actions)
    with (existsb (String.eqb action) valid_actions).
  rewrite H. reflexivity.
Qed.

(** X1. The parser never raises, and what it returns passes the program's own
    check [_validate_decision_format]. *)
Lemma parse_returns_validated (response : string) :
  exists d, _parse_ai_response L response = Ok d /\ _validate_decision_format d = true.
Proof.
  unfold _parse_ai_response.
  destruct (parse_whole L _validate_decision_format response) as [d |] eqn:W.
  { exists d. split; [reflexivity | now apply parse_whole_valid in W]. }
  destruct (re_findall L template_pattern response) as [matches | e]; cbn [rbind].
  2: { now exists parse_failure_decision. }
  destruct (first_valid_match L matches) as [d |] eqn:F.
  { exists d. split; [reflexivity | now apply first_valid_match_valid in F]. }
  destruct (_build_standard_decision_from_response L response) as [d | e] eqn:B.
  - exists d. split; [reflexivity |].
    apply build_standard_shape in B. destruct B as [a [r [-> V]]].
    now apply built_decision_valid.
  - now exists parse_failure_decision.
Qed.

(** C7, amended.  In OKX_AI_ETHv5.py, when the whole response does not
    parse to a valid decision and no template-shaped candidate does either,
    the result is what field-by-field extraction builds (the safe default
    when the extraction or the search for candidates raises): no tier reads
    the text between the first opening brace and the last closing brace.
    That tier exists in OKX_AI_ETHv1.py only, as the third and last one:
    there, when the first two tiers of v1 fail, the result is the
    brace-to-brace text when it parses to a valid decision, and the safe
    default otherwise.  Each half holds under the failure of the first two
    tiers of its own version, whatever the other version does. *)
Theorem brace_tier_only_in_v1 (response : string) :
  (parse_whole L _validate_decision_format response = None ->
   (forall matches, re_findall L template_pattern response = Ok matches ->
                    first_valid_match L matches = None) ->
   _parse_ai_response L response
   = Ok (match re_findall L template_pattern response,
              _build_standard_decision_from_response L response with
         | Ok _, Ok d => d
         | _, _ => parse_failure_decision
         end))
  /\ (parse_whole L V1._validate_decision_format response = None ->
      (forall matches, re_findall L nested_pattern response = Ok matches ->
                       V1.first_valid_match L matches = None) ->
      V1._parse_ai_response L response
      = Ok (match re_findall L nested_pattern response,
                 V1.boundary_match L response with
            | Ok _, Some d => d
            | _, _ => parse_failure_decision
            end)).
Proof.
  split.
  - intros W5 C5. unfold _parse_ai_response. rewrite W5.
    destruct (re_findall L template_pattern response) as [matches | e]; cbn [rbind];
      [| reflexivity].
    rewrite (C5 matches eq_refl).
    now destruct (_build_standard_decision_from_response L response).
  - intros W1 C1. unfold V1._parse_ai_response. rewrite W1.
    destruct (re_findall L nested_pattern response) as [matches | e]; cbn [rbind];
      [| reflexivity].
    rewrite (C1 matches eq_refl).
    now destruct (V1.boundary_match L response).
Qed.

(** X2. When the whole response, every candidate and every action pattern
    fail, the decision returned is [hold] with the size 0. *)
Lemma parse_failure_holds (response : string) :
  parse_whole L _validate_decision_format response = None ->
  (forall matches, re_findall L template_pattern response = Ok matches ->
                   first_valid_match L matches = None) ->
  (forall a, find_action L action_patterns response <> Ok (Some a)) ->
  exists d td pm,
    _parse_ai_response L response = Ok d
    /\ py_getitem d "trading_decision" = Ok td
    /\ py_getitem td "action" = Ok (JStr "hold")
    /\ py_getitem d "position_management" = Ok pm
    /\ py_getitem pm "position_size" = Ok (JNum 0).
Proof.
  intros W C A. unfold _parse_ai_response. rewrite W.
  destruct (re_findall L template_pattern response) as [matches | e]; cbn [rbind].
  2: { eexists _, _, _. repeat (split; [reflexivity |]). reflexivity. }
  rewrite (C matches eq_refl). unfold _build_standard_decision_from_response.
  destruct (find_action L action_patterns response) as [[a |] | e]; cbn [rbind].
  - now destruct (A a).
  - destruct (find_reason L reason_patterns response) as [fr | e]; cbn [rbind];
      eexists _, _, _; repeat (split; [reflexivity |]); reflexivity.
  - eexists _, _, _. repeat (split; [reflexivity |]). reflexivity.
Qed.

(** ** Sizes and prices that are numbers *)

Lemma SFcompare_antisym (x y : spec_float) :
  SFcompare y x = option_map CompOpp (SFcompare x y).
Proof.
  destruct x as [sx | sx | | sx mx ex], y as [sy | sy | | sy my ey]; cbn;
    try reflexivity; try (destruct sx; reflexivity); try (destruct sy; reflexivity);
    try (destruct sx, sy; reflexivity).
  change (PosDef.Pos.compare_cont Eq my mx) with (Pos.compare my mx).
  change (PosDef.Pos.compare_cont Eq mx my) with (Pos.compare mx my).
  destruct sx, sy; cbn; try reflexivity;
    rewrite (Z.compare_antisym ex ey); destruct (ex ?= ey)%Z; cbn; try reflexivity;
    rewrite (Pos.compare_antisym mx my); rewrite ?CompOpp_involutive; reflexivity.
Qed.

(** A float that equals itself is a number: not NaN. *)
Lemma not_lt_is_ge (x y : float) :
  (x =? x)%float = true -> (y =? y)%float = true ->
  (x <? y)%float = false -> (y <=? x)%float = true.
Proof.
  rewrite !eqb_spec, ltb_spec, leb_spec. unfold SFeqb, SFltb, SFleb.
  rewrite (SFcompare_antisym (Prim2SF x) (Prim2SF y)).
  destruct (SFcompare (Prim2SF x) (Prim2SF x)) as [c1 |] eqn:X; [| discriminate].
  destruct (SFcompare (Prim2SF y) (Prim2SF y)) as [c2 |] eqn:Y; [| discriminate].
  intros _ _.
  destruct (SFcompare (Prim2SF x) (Prim2SF y)) as [[| |] |] eqn:C; cbn; try congruence.
  exfalso. destruct (Prim2SF x), (Prim2SF y); cbn in *; discriminate.
Qed.

Lemma not_le_is_gt (x y : float) :
  (x =? x)%float = true -> (y =? y)%float = true ->
  (x <=? y)%float = false -> (y <? x)%float = true.
Proof.
  rewrite !eqb_spec, ltb_spec, leb_spec. unfold SFeqb, SFltb, SFleb.
  rewrite (SFcompare_antisym (Prim2SF x) (Prim2SF y)).
  destruct (SFcompare (Prim2SF x) (Prim2SF x)) as [c1 |] eqn:X; [| discriminate].
  destruct (SFcompare (Prim2SF y) (Prim2SF y)) as [c2 |] eqn:Y; [| discriminate].
  intros _ _.
  destruct (SFcompare (Prim2SF x) (Prim2SF y)) as [[| |] |] eqn:C; cbn; try congruence.
  exfalso. destruct (Prim2SF x), (Prim2SF y); cbn in *; discriminate.
Qed.

Lemma gt_is_not_le (x y : float) : (y <? x)%float = true -> (x <=? y)%float = false.
Proof.
  rewrite ltb_spec, leb_spec. unfold SFltb, SFleb.
  rewrite (SFcompare_antisym (Prim2SF x) (Prim2SF y)).
  destruct (SFcompare (Prim2SF x) (Prim2SF y)) as [[| |] |]; cbn; congruence.
Qed.

(** X3. For a size that is a number, the clamp of lines 732-735 gives 0
    below the minimum and the maximum above the maximum, and its result is 0
    or lies between the two bounds. *)
Lemma clamp_of_number (x : float) :
  (x =? x)%float = true ->
  ((x <? MIN_ORDER_SIZE)%float = true -> clamp_size x = 0%float)
  /\ ((MAX_ORDER_SIZE <? x)%float = true -> (x <? MIN_ORDER_SIZE)%float = false ->
      clamp_size x = MAX_ORDER_SIZE)
  /\ (clamp_size x = 0%float
      \/ ((MIN_ORDER_SIZE <=? clamp_size x) && (clamp_size x <=? MAX_ORDER_SIZE))%float = true).
Proof.
  intros N. unfold clamp_size.
  destruct (x <? MIN_ORDER_SIZE)%float eqn:Lo; [| destruct (MAX_ORDER_SIZE <? x)%float eqn:Hi].
  - repeat split; auto; discriminate.
  - repeat split; auto; try discriminate; try (right; reflexivity).
  - repeat split; try discriminate. right.
    rewrite (not_lt_is_ge x MIN_ORDER_SIZE N eq_refl Lo).
    rewrite (not_lt_is_ge MAX_ORDER_SIZE x eq_refl N Hi). reflexivity.
Qed.

(** X4. For prices that are numbers, the check of lines 776-784 lets a long
    position through exactly when the take-profit price is above the entry
    price and the stop-loss price below it, and a short one exactly when it
    is the other way round. *)
Lemma price_check_of_numbers (tp_price sl_price entry_price : float) :
  (tp_price =? tp_price)%float = true ->
  (sl_price =? sl_price)%float = true ->
  (entry_price =? entry_price)%float = true ->
  (prices_rejected "open_long" tp_price sl_price entry_price = false
   <-> (entry_price <? tp_price)%float = true /\ (sl_price <? entry_price)%float = true)
  /\ (prices_rejected "open_short" tp_price sl_price entry_price = false
      <-> (tp_price <? entry_price)%float = true /\ (entry_price <? sl_price)%float = true).
Proof.
  intros T S E. unfold prices_rejected. cbn [String.eqb Ascii.eqb Bool.eqb].
  split; split.
  - intros H. apply orb_false_elim in H. destruct H as [H1 H2].
    split; now apply not_le_is_gt.
  - intros [H1 H2]. now rewrite (gt_is_not_le _ _ H1), (gt_is_not_le _ _ H2).
  - intros H. apply orb_false_elim in H. destruct H as [H1 H2].
    split; now apply not_le_is_gt.
  - intros [H1 H2]. now rewrite (gt_is_not_le _ _ H1), (gt_is_not_le _ _ H2).
Qed.

(** * The rest of the program *)

(** ** The validator and the schema *)

Ltac split_ifs :=
  repeat match goal with
         | |- context [if ?c then _ else _] => destruct c
         end.

Ltac split_strs :=
  repeat match goal with
         | |- context [py_in_strs ?a ?l] => destruct (py_in_strs a l)
         end.

Ltac split_lookups :=
  repeat match goal with
         | |- context [assoc ?k ?m] => destruct (assoc k m)
         end.

Lemma validated_is_schema_valid (d : json) :
  _validate_decision_format d = true -> loose_member d = false -> schema_valid d = true.
Proof.
  unfold _validate_decision_format, validate_with, validate_checks, loose_member,
    schema_valid.
  destruct d as [| b | x | s | l | m]; cbn [py_contains py_getitem rbind];
    try discriminate.
  - destruct (contains_sub "trading_decision" s); cbn;
      [destruct (contains_sub "position_management" s) |]; cbn; discriminate.
  - destruct (existsb (is_str "trading_decision") l); cbn;
      [destruct (existsb (is_str "position_management") l) |]; cbn; discriminate.
  - unfold has_key.
    destruct (assoc "trading_decision" m) as [td |]; cbn [negb rbind]; [| discriminate].
    destruct (assoc "position_management" m) as [pm |]; cbn [negb rbind]; [| discriminate].
    destruct pm as [| b | x | s | l | pmm]; try discriminate.
    all: destruct td as [| b' | x' | s' | l' | tdm];
      cbn [py_all_in py_contains py_getitem rbind td_fields pm_fields forallb].
    all: try discriminate.
    all: try (split_ifs; cbn; discriminate).
    unfold has_key. split_lookups; cbn -[py_in_strs]; try discriminate.
    split_strs; cbn; auto.
Qed.

Lemma schema_valid_is_validated (d : json) :
  schema_valid d = true -> _validate_decision_format d = true.
Proof.
  unfold _validate_decision_format, validate_with, validate_checks, schema_valid.
  destruct d as [| b | x | s | l | m]; try discriminate.
  cbn [py_contains py_getitem rbind]. unfold has_key.
  destruct (assoc "trading_decision" m) as [td |]; [| discriminate].
  destruct td as [| b' | x' | s' | l' | tdm]; try discriminate.
  destruct (assoc "position_management" m) as [pm |]; [| discriminate].
  destruct pm as [| b | x | s | l | pmm]; try discriminate.
  cbn [py_all_in py_contains py_getitem rbind td_fields pm_fields forallb negb].
  unfold has_key. split_lookups; cbn -[py_in_strs]; try discriminate.
  split_strs; cbn; auto.
Qed.

Lemma getitem_is_object (v x : json) (k : string) :
  py_getitem v k = Ok x -> exists m, v = JObj m.
Proof. destruct v; try discriminate. eauto. Qed.

(** A validated decision whose three numbers can be read is well formed. *)
Lemma readable_is_well_formed (d pm vs vl vt : json) (xs xl xt : float) :
  _validate_decision_format d = true ->
  py_getitem d "position_management" = Ok pm ->
  py_getitem pm "position_size" = Ok vs -> py_num vs = Ok xs ->
  py_getitem pm "stop_loss_price" = Ok vl -> py_num vl = Ok xl ->
  py_getitem pm "take_profit_price" = Ok vt -> py_num vt = Ok xt ->
  well_formed d = true.
Proof.
  intros V Hpm Hs Ns Hl Nl Ht Nt. unfold well_formed.
  destruct (getitem_is_object _ _ _ Hs) as [pmm ->].
  rewrite (validated_is_schema_valid d V).
  - rewrite Hpm. cbn [forallb pm_fields]. unfold numeric_member.
    rewrite Hs, Ns, Hl, Nl, Ht, Nt. reflexivity.
  - unfold loose_member. now rewrite Hpm.
Qed.

(** What [execute_trade] reads from a well-formed decision. *)
Lemma well_formed_inv (d : json) :
  well_formed d = true ->
  exists td a pm vs xs vl xl vt xt,
    py_getitem d "trading_decision" = Ok td
    /\ py_getitem td "action" = Ok (JStr a)
    /\ existsb (String.eqb a) valid_actions = true
    /\ py_getitem d "position_management" = Ok pm
    /\ py_getitem pm "position_size" = Ok vs /\ py_num vs = Ok xs
    /\ py_getitem pm "stop_loss_price" = Ok vl /\ py_num vl = Ok xl
    /\ py_getitem pm "take_profit_price" = Ok vt /\ py_num vt = Ok xt.
Proof.
  unfold well_formed, schema_valid. intros H. apply andb_prop in H. destruct H as [S N].
  destruct d as [| b | x | s | l | m]; try discriminate.
  cbn [py_getitem] in *.
  destruct (assoc "trading_decision" m) as [[| | | | | tdm] |]; try discriminate.
  destruct (assoc "position_management" m) as [[| | | | | pmm] |]; try discriminate.
  cbn [forallb pm_fields] in N. unfold numeric_member in N. cbn [py_getitem] in N.
  destruct (assoc "position_size" pmm) as [vs |] eqn:Hs; [| discriminate].
  destruct (py_num vs) as [xs |] eqn:Ns; [| discriminate].
  destruct (assoc "stop_loss_price" pmm) as [vl |] eqn:Hl; [| discriminate].
  destruct (py_num vl) as [xl |] eqn:Nl; [| discriminate].
  destruct (assoc "take_profit_price" pmm) as [vt |] eqn:Ht; [| discriminate].
  destruct (py_num vt) as [xt |] eqn:Nt; [| discriminate].
  apply andb_prop in S. destruct S as [S _].
  apply andb_prop in S. destruct S as [_ A].
  destruct (assoc "action" tdm) as [act |] eqn:Ha; [| discriminate].
  destruct act as [| | | a | |]; try discriminate.
  exists (JObj tdm), a, (JObj pmm), vs, xs, vl, xl, vt, xt.
  cbn [py_getitem]. rewrite Ha, Hs, Hl, Ht.
  split; [reflexivity |]. split; [reflexivity |]. split; [exact A |].
  repeat split; first [reflexivity | assumption].
Qed.

Lemma failure_decision_well_formed (e : exn) : well_formed (ai_failure_decision e) = true.
Proof. reflexivity. Qed.

(** What the parser returns passes the validator. *)
Lemma parsed_is_validated (response : string) (d : json) :
  _parse_ai_response L response = Ok d -> _validate_decision_format d = true.
Proof.
  unfold _parse_ai_response.
  destruct (parse_whole L _validate_decision_format response) as [d0 |] eqn:W.
  { intros H. injection H as <-. now apply parse_whole_valid in W. }
  destruct (re_findall L template_pattern response) as [matches | e]; cbn [rbind].
  2: { intros H. now injection H as <-. }
  destruct (first_valid_match L matches) as [d0 |] eqn:F.
  { intros H. injection H as <-. now apply first_valid_match_valid in F. }
  destruct (_build_standard_decision_from_response L response) as [d0 | e] eqn:B;
    intros H; injection H as <-; [| reflexivity].
  apply build_standard_shape in B. destruct B as [a [r [-> V]]].
  now apply built_decision_valid.
Qed.

(** ** What a computation returns when it returns *)

(** For a sequence to return only results that satisfy [Q], it is enough
    that what follows its first step does; when the first step is a plain
    value or an exception, what follows may assume the value. *)
Lemma results_bind {A B : Type} (Q : B -> Prop) (m : M Env A) (k : A -> M Env B) :
  (forall a w r w', k a w = (Ok r, w') -> Q r) ->
  forall w r w', bind m k w = (Ok r, w') -> Q r.
Proof.
  intros Hk w r w'. unfold bind.
  destruct (m w) as [[a | e] w1]; [apply Hk | discriminate].
Qed.

Lemma results_bind_lift {A B : Type} (Q : B -> Prop) (x : res A) (k : A -> M Env B) :
  (forall a, x = Ok a -> forall w r w', k a w = (Ok r, w') -> Q r) ->
  forall w r w', bind (lift x) k w = (Ok r, w') -> Q r.
Proof.
  intros Hk w r w'. unfold bind, lift.
  destruct x as [a | e]; [now apply Hk | discriminate].
Qed.

(** ** Computations that always return *)

Lemma ensures_ret {A : Type} (P : event -> bool) (Q : A -> Prop) (a : A) :
  Q a -> ensures P Q (ret a).
Proof. intros H w. exists a, w, []. cbn. rewrite app_nil_r. auto. Qed.

Lemma ensures_emit (P : event -> bool) (Q : unit -> Prop) (e : event) :
  P e = true -> Q tt -> ensures P Q (emit e).
Proof.
  intros H HQ w. unfold emit. eexists tt, _, [e].
  split; [reflexivity |]. split; [reflexivity |]. cbn. rewrite H. auto.
Qed.

Lemma ensures_bind {A B : Type} (P : event -> bool) (Q : A -> Prop) (R : B -> Prop)
  (m : M Env A) (k : A -> M Env B) :
  ensures P Q m -> (forall a, Q a -> ensures P R (k a)) -> ensures P R (bind m k).
Proof.
  intros Hm Hk w. unfold bind.
  destruct (Hm w) as [a [w1 [n1 [E [T [F HQ]]]]]]. rewrite E.
  destruct (Hk a HQ w1) as [b [w2 [n2 [E2 [T2 [F2 HR]]]]]].
  exists b, w2, (n1 ++ n2).
  rewrite E2, T2, T, app_assoc, forallb_app, F, F2. auto.
Qed.

(** A handler around a computation that always returns is never used. *)
Lemma ensures_try_body {A : Type} (P : event -> bool) (Q : A -> Prop)
  (m : M Env A) (h : exn -> M Env A) :
  ensures P Q m -> ensures P Q (try_except m h).
Proof.
  intros Hm w. unfold try_except.
  destruct (Hm w) as [a [w1 [n1 [E R]]]]. rewrite E. eauto.
Qed.

Lemma ensures_try {A : Type} (P : event -> bool) (Q : A -> Prop)
  (m : M Env A) (h : exn -> M Env A) :
  appends P m ->
  (forall w a w', m w = (Ok a, w') -> Q a) ->
  (forall e, ensures P Q (h e)) ->
  ensures P Q (try_except m h).
Proof.
  intros Hm HQ Hh w. unfold try_except.
  destruct (Hm w) as [n1 [T1 F1]].
  destruct (m w) as [[a | e] w1] eqn:E; cbn in T1.
  - exists a, w1, n1. repeat split; auto. exact (HQ w a w1 E).
  - destruct (Hh e w1) as [b [w2 [n2 [E2 [T2 [F2 HR]]]]]].
    exists b, w2, (n1 ++ n2).
    rewrite E2, T2, T1, app_assoc, forallb_app, F1, F2. auto.
Qed.

Lemma ensures_try_total {A : Type} (P : event -> bool) (m : M Env A) (h : exn -> M Env A) :
  appends P m ->
  (forall e, ensures P (fun _ => True) (h e)) ->
  ensures P (fun _ => True) (try_except m h).
Proof. intros Hm Hh. apply ensures_try; auto. Qed.

Lemma ensures_bind_ok {A B : Type} (P : event -> bool) (R : B -> Prop)
  (a : A) (k : A -> M Env B) :
  ensures P R (k a) -> ensures P R (bind (lift (Ok a)) k).
Proof. intros H. exact H. Qed.

(** A [try] around a sequence: the handler stays in place while the
    sequence advances. *)
Lemma try_bind {A B : Type} (m : M Env A) (k : A -> M Env B) (h : exn -> M Env B)
  (w : world Env) :
  try_except (bind m k) h w
  = match m w with
    | (Ok a, w1) => try_except (k a) h w1
    | (Raise e, w1) => h e w1
    end.
Proof. unfold try_except, bind. now destruct (m w) as [[a | e] w1]. Qed.

Lemma ensures_appends {A : Type} (P : event -> bool) (Q : A -> Prop) (m : M Env A) :
  ensures P Q m -> appends P m.
Proof.
  intros H w. destruct (H w) as [a [w1 [n [E [T [F _]]]]]].
  exists n. rewrite E. auto.
Qed.

Lemma appends_request_to (P : event -> bool) (method path : string)
  (ps : list (string * string)) :
  P (Request {| meth := method; endpoint := path; params := ps |}) = true ->
  appends P (_make_request method path ps).
Proof.
  intros H w. unfold _make_request.
  destruct (exchange _ (env w)) as [answer e'].
  eexists [_]. cbn. now rewrite H.
Qed.

Lemma appends_ask_ai (P : event -> bool) (current_price : float) (klines : list kline)
  (account_status : balance) (position_info : position) :
  P AiCall = true ->
  appends P (ask_ai current_price klines account_status position_info).
Proof.
  intros H w. unfold ask_ai.
  destruct (deepseek _ (env w)) as [answer e'].
  exists [AiCall]. cbn. now rewrite H.
Qed.

Lemma appends_forget (P : event -> bool) : appends P forget_orders.
Proof. intro w. exists []. cbn. now rewrite app_nil_r. Qed.

Lemma appends_update (P : event -> bool) (profit : float) : appends P (update_profit profit).
Proof. intro w. exists []. cbn. now rewrite app_nil_r. Qed.

(** ** Counting events *)

Lemma count_events_app (Q : event -> bool) (a b : list event) :
  count_events Q (a ++ b) = count_events Q a + count_events Q b.
Proof. unfold count_events. now rewrite filter_app, length_app. Qed.

Lemma count_events_none (P Q : event -> bool) (new : list event) :
  (forall e, P e = true -> Q e = false) ->
  forallb P new = true -> count_events Q new = 0.
Proof.
  intros PQ. unfold count_events.
  induction new as [| e new IH]; cbn; [easy |].
  intros H. apply andb_prop in H. destruct H as [H1 H2].
  rewrite (PQ e H1). auto.
Qed.

Lemma forallb_weaken (P Q : event -> bool) (l : list event) :
  (forall e, P e = true -> Q e = true) -> forallb P l = true -> forallb Q l = true.
Proof.
  intros PQ. rewrite !forallb_forall. auto.
Qed.

Lemma at_most_none {A : Type} (P Q : event -> bool) (n : nat) (m : M Env A) :
  (forall e, P e = true -> Q e = false) -> appends P m -> at_most n Q m.
Proof.
  intros PQ H w. destruct (H w) as [new [T F]]. exists new. split; [exact T |].
  rewrite (count_events_none P Q new PQ F). lia.
Qed.

Lemma at_most_bind {A B : Type} (Q : event -> bool) (a b : nat)
  (m : M Env A) (k : A -> M Env B) :
  at_most a Q m -> (forall x, at_most b Q (k x)) -> at_most (a + b) Q (bind m k).
Proof.
  intros Hm Hk w. unfold bind. destruct (Hm w) as [n1 [T1 C1]].
  destruct (m w) as [[x | e] w1]; cbn [snd] in T1.
  - destruct (Hk x w1) as [n2 [T2 C2]]. exists (n1 ++ n2).
    rewrite T2, T1, app_assoc, count_events_app. split; [reflexivity | lia].
  - exists n1. cbn [snd]. split; [exact T1 | lia].
Qed.

Lemma at_most_try {A : Type} (Q : event -> bool) (a b : nat)
  (m : M Env A) (h : exn -> M Env A) :
  at_most a Q m -> (forall e, at_most b Q (h e)) -> at_most (a + b) Q (try_except m h).
Proof.
  intros Hm Hh w. unfold try_except. destruct (Hm w) as [n1 [T1 C1]].
  destruct (m w) as [[x | e] w1]; cbn [snd] in T1.
  - exists n1. cbn [snd]. split; [exact T1 | lia].
  - destruct (Hh e w1) as [n2 [T2 C2]]. exists (n1 ++ n2).
    rewrite T2, T1, app_assoc, count_events_app. split; [reflexivity | lia].
Qed.

Lemma at_most_le {A : Type} (Q : event -> bool) (a b : nat) (m : M Env A) :
  at_most a Q m -> a <= b -> at_most b Q m.
Proof.
  intros H L0 w. destruct (H w) as [new [T C]]. exists new. split; [exact T | lia].
Qed.

Lemma at_most_request (Q : event -> bool) (method path : string)
  (ps : list (string * string)) :
  at_most 1 Q (_make_request method path ps).
Proof.
  intros w. unfold _make_request.
  destruct (exchange _ (env w)) as [answer e'].
  eexists [_]. split; [reflexivity |].
  unfold count_events. cbn. destruct (Q _); cbn; lia.
Qed.

Lemma at_most_ask_ai (Q : event -> bool) (current_price : float) (klines : list kline)
  (account_status : balance) (position_info : position) :
  at_most 1 Q (ask_ai current_price klines account_status position_info).
Proof.
  intros w. unfold ask_ai.
  destruct (deepseek _ (env w)) as [answer e'].
  exists [AiCall]. split; [reflexivity |].
  unfold count_events. cbn. destruct (Q _); cbn; lia.
Qed.

(** ** What each function can add to the trace *)

Create HintDb emits_db.

Section Emits.

(** A set [P] of events that holds every log line and pause, the reserved
    lines apart (they have their own hypotheses, [P778] to [P1359]), and
    every [GET] request; [Porder], [Palgo], [Pcancel] and [Pai] say that it
    holds the market orders, the conditional orders, the cancellations and
    the call of the AI. *)
Variable P : event -> bool.
Hypothesis Plog : forall e, quiet e = true -> reserved e = false -> P e = true.
Hypothesis P778 : P (Err 778) = true.
Hypothesis P782 : P (Err 782) = true.
Hypothesis P794 : P (Err 794) = true.
Hypothesis P1314 : P (Echo 1314) = true.
Hypothesis P1371 : P (Echo 1371) = true.
Hypothesis P1378 : P (Err 1378) = true.
Hypothesis Pget : forall path ps,
  P (Request {| meth := "GET"; endpoint := path; params := ps |}) = true.
Hypothesis Porder : forall ps,
  P (Request {| meth := "POST"; endpoint := ORDER_ENDPOINT; params := ps |}) = true.
Hypothesis Palgo : forall ps,
  P (Request {| meth := "POST"; endpoint := ALGO_ENDPOINT; params := ps |}) = true.
Hypothesis Pcancel : forall ps,
  P (Request {| meth := "POST"; endpoint := CANCEL_ENDPOINT; params := ps |}) = true.
Hypothesis Pai : P AiCall = true.
Hypothesis P805 : P (Err 805) = true.
Hypothesis P1359 : P (Err 1359) = true.

Ltac accepted :=
  first [ apply Plog; reflexivity | apply Pget | apply Porder | apply Palgo
        | apply Pcancel | exact Pai | exact P805 | exact P1359 | exact P1314
        | exact P794 | exact P1371 | exact P1378 | exact P778 | exact P782 ].

(** [emits] proves [appends P m] and [returns] proves that [m] always
    returns with events of [P], both along the text of [m]; the functions
    already dealt with are in the hint database. *)
Ltac emits :=
  repeat first
    [ apply appends_ret | apply appends_raise | apply appends_lift
    | apply appends_record | apply appends_forget | apply appends_update
    | apply appends_emit; accepted
    | apply appends_request_to; accepted
    | apply appends_ask_ai; accepted
    | solve [auto with emits_db]
    | apply ensures_appends with (Q := fun _ => True); solve [auto with emits_db]
    | apply appends_try; [| intros]
    | apply appends_bind; [| intros]
    | progress cbv zeta
    | match goal with
      | |- appends _ (match ?x with _ => _ end) => destruct x
      end ].

Ltac returns :=
  repeat first
    [ apply ensures_ret; exact I
    | apply ensures_emit; [accepted | exact I]
    | solve [auto with emits_db]
    | apply ensures_try_total; [emits | intros]
    | progress cbv zeta
    | match goal with
      | |- ensures _ _ (match ?x with _ => _ end) => destruct x
      end
    | apply ensures_bind with (Q := fun _ => True); [| intros ? _] ].

(** *** The data collector *)

Lemma get_pending_orders_emits : ensures P (fun _ => True) get_pending_orders.
Proof. unfold get_pending_orders. returns. Qed.

Lemma get_algo_orders_emits : ensures P (fun _ => True) get_algo_orders.
Proof. unfold get_algo_orders. returns. Qed.

Lemma get_position_info_emits : ensures P (fun _ => True) get_position_info.
Proof. unfold get_position_info. returns. Qed.

Lemma get_kline_data_emits : ensures P (fun _ => True) get_kline_data.
Proof. unfold get_kline_data. returns. Qed.

Lemma get_account_balance_emits : ensures P (fun _ => True) get_account_balance.
Proof. unfold get_account_balance. returns. Qed.

Lemma get_current_price_emits : ensures P (fun _ => True) get_current_price.
Proof. unfold get_current_price. returns. Qed.

#[local] Hint Resolve get_pending_orders_emits get_algo_orders_emits
  get_position_info_emits get_kline_data_emits get_account_balance_emits
  get_current_price_emits : emits_db.

Lemma has_pending_emits : ensures P (fun _ => True) has_pending_orders_or_tpsl.
Proof. unfold has_pending_orders_or_tpsl. returns. Qed.

Lemma cancel_algo_order_emits (algo_id : json) (inst_id : string) :
  ensures P (fun _ => True) (cancel_algo_order algo_id inst_id).
Proof. unfold cancel_algo_order. returns. Qed.

#[local] Hint Resolve has_pending_emits cancel_algo_order_emits : emits_db.

(** *** The executor *)

Lemma place_order_emits (action : string) (eth_size : float) :
  ensures P (fun _ => True) (_place_order action eth_size).
Proof.
  unfold _place_order. apply ensures_try_total; [emits | intros e].
  unfold order_failed, diagnose_order_failure. returns.
Qed.

Lemma entry_price_attempts_emits (wait_seconds remaining : nat) :
  ensures P (fun _ => True) (entry_price_attempts wait_seconds remaining).
Proof.
  induction remaining as [| rest IH]; cbn [entry_price_attempts]; returns.
Qed.

Lemma entry_price_emits : ensures P (fun _ => True) _get_entry_price_with_retry.
Proof. apply entry_price_attempts_emits. Qed.

Lemma place_tp_sl_order_emits (pos_side : string) (eth_size tp_price sl_price : float) :
  appends P (_place_tp_sl_order pos_side eth_size tp_price sl_price).
Proof. unfold _place_tp_sl_order, algo_params. emits. Qed.

Lemma verify_emits (algo_ids : json * json) :
  ensures P (fun _ => True) (_verify_tp_sl_orders_exist algo_ids).
Proof. unfold _verify_tp_sl_orders_exist. returns. Qed.

#[local] Hint Resolve place_order_emits entry_price_emits place_tp_sl_order_emits
  verify_emits : emits_db.

Lemma tp_sl_attempt_emits (pos_side : string) (eth_size tp_price sl_price : float) :
  ensures P (fun _ => True) (tp_sl_attempt pos_side eth_size tp_price sl_price).
Proof. unfold tp_sl_attempt. returns. Qed.

#[local] Hint Resolve tp_sl_attempt_emits : emits_db.

Lemma tp_sl_attempts_emits (pos_side : string) (eth_size tp_price sl_price : float)
  (remaining : nat) :
  ensures P (fun _ => True) (tp_sl_attempts pos_side eth_size tp_price sl_price remaining).
Proof.
  induction remaining as [| rest IH]; cbn [tp_sl_attempts]; returns.
Qed.

#[local] Hint Resolve tp_sl_attempts_emits : emits_db.

Lemma bracket_retry_emits (pos_side : string) (eth_size tp_price sl_price : float)
  (max_retries : nat) :
  ensures P (fun _ => True)
    (_place_tp_sl_orders_with_retry pos_side eth_size tp_price sl_price max_retries).
Proof. unfold _place_tp_sl_orders_with_retry. returns. Qed.

#[local] Hint Resolve bracket_retry_emits : emits_db.

Lemma checked_bracket_emits (action : string)
  (position_size tp_price sl_price entry_price : float) :
  ensures P (fun _ => True)
    (checked_bracket action position_size tp_price sl_price entry_price).
Proof.
  unfold checked_bracket. destruct (String.eqb action "open_long"); returns.
Qed.

#[local] Hint Resolve checked_bracket_emits : emits_db.

Lemma after_open_emits (action : string) (pm : json) (position_size current_price : float)
  (is_test : bool) :
  appends P (after_open action pm position_size current_price is_test).
Proof. unfold after_open, bracket_prices. emits. Qed.

#[local] Hint Resolve after_open_emits : emits_db.

Lemma execute_trade_emits (decision : json) (current_price : float) (is_test : bool) :
  ensures P (fun _ => True) (execute_trade decision current_price is_test).
Proof. unfold execute_trade. returns. Qed.

Lemma cancel_current_emits : ensures P (fun _ => True) _cancel_current_tp_sl_orders.
Proof. unfold _cancel_current_tp_sl_orders, recorded_orders. returns. Qed.

Lemma close_position_emits (action : string) :
  ensures P (fun _ => True) (_close_position action).
Proof. unfold _close_position. returns. Qed.

#[local] Hint Resolve execute_trade_emits cancel_current_emits close_position_emits
  : emits_db.

Lemma test_trading_module_emits : ensures P (fun _ => True) test_trading_module.
Proof. unfold test_trading_module, test_entry_price. returns. Qed.

(** *** The AI, the cycle and the test run *)

Lemma get_trading_decision_emits (current_price : float) (klines : list kline)
  (account_status : balance) (position_info : position) :
  ensures P (fun _ => True)
    (get_trading_decision current_price klines account_status position_info).
Proof. unfold get_trading_decision. returns. Qed.

#[local] Hint Resolve test_trading_module_emits get_trading_decision_emits : emits_db.

Lemma run_dynamic_cycle_emits : ensures P (fun _ => True) run_dynamic_cycle.
Proof. unfold run_dynamic_cycle. returns. Qed.

Lemma test_data_collection_emits : ensures P (fun _ => True) test_data_collection.
Proof. unfold test_data_collection. returns. Qed.

Lemma test_ai_module_emits : ensures P (fun _ => True) test_ai_module.
Proof. unfold test_ai_module. returns. Qed.

#[local] Hint Resolve run_dynamic_cycle_emits test_data_collection_emits
  test_ai_module_emits : emits_db.

Lemma run_full_test_emits : ensures P (fun _ => True) run_full_test.
Proof. unfold run_full_test, jymkcs. returns. Qed.

Lemma main_loop_emits (iterations : nat) : ensures P (fun _ => True) (main_loop iterations).
Proof.
  induction iterations as [| rest IH]; cbn [main_loop]; returns.
Qed.

#[local] Hint Resolve run_full_test_emits main_loop_emits : emits_db.

(** *** The decision handed to the executor *)

(** [get_trading_decision] always returns; it writes its four opening
    lines and calls the AI once, at that point; and what it returns is well
    formed: a decision whose numbers cannot be written to the log (lines
    523-525) is replaced by the fallback of lines 538-549. *)
Lemma decision_trace (current_price : float) (klines : list kline)
  (account_status : balance) (position_info : position) (w : world Env) :
  exists d w' rest,
    get_trading_decision current_price klines account_status position_info w = (Ok d, w')
    /\ trace w' = trace w ++ [Echo 423; Echo 424; Echo 425; Echo 426; AiCall] ++ rest
    /\ forallb P rest = true
    /\ well_formed d = true.
Proof.
  unfold get_trading_decision.
  repeat (rewrite try_bind; cbn [write_echo emit env trace current_tp_sl_orders last_profit]).
  unfold ask_ai. cbn [env trace current_tp_sl_orders last_profit].
  destruct (deepseek _ (env w)) as [[ai_response | e] env'].
  - match goal with
    | |- context [try_except ?m ?h ?w5] =>
        assert (R : ensures P (fun d => well_formed d = true) (try_except m h))
    end.
    { apply ensures_try.
      - emits.
      - repeat (first [apply results_bind_lift; intros ? ? | apply results_bind; intros ?];
                cbv beta).
        intros w0 r w1 E. unfold ret in E. injection E as <- _.
        eapply readable_is_well_formed;
          [eapply parsed_is_validated; eassumption | eassumption ..].
      - intros e. apply ensures_bind with (Q := fun _ => True).
        + apply ensures_emit; [accepted | exact I].
        + intros _ _. apply ensures_ret. apply failure_decision_well_formed. }
    match goal with
    | |- context [try_except ?m ?h ?w5] =>
        destruct (R w5) as [d [w' [rest [E [T [F WF]]]]]]
    end.
    exists d, w', rest. split; [exact E |]. split; [| now split].
    rewrite T. cbn [trace]. now rewrite <- !app_assoc.
  - eexists _, _, [Err 536]. cbn [bind write_error emit ret].
    split; [reflexivity |]. cbn [trace]. split; [now rewrite <- !app_assoc |].
    split; [| apply failure_decision_well_formed].
    cbn [forallb]. rewrite andb_true_r. accepted.
Qed.

Lemma decision_ensures (current_price : float) (klines : list kline)
  (account_status : balance) (position_info : position) :
  ensures P (fun d => well_formed d = true)
    (get_trading_decision current_price klines account_status position_info).
Proof.
  intros w.
  destruct (decision_trace current_price klines account_status position_info w)
    as [d [w' [rest [E [T [F WF]]]]]].
  exists d, w', ([Echo 423; Echo 424; Echo 425; Echo 426; AiCall] ++ rest).
  split; [exact E |]. split; [exact T |]. split; [| exact WF].
  rewrite forallb_app, F, andb_true_r. cbn [forallb].
  rewrite Pai, andb_true_r.
  repeat (rewrite Plog; [| reflexivity ..]). reflexivity.
Qed.

(** *** The executor on a well-formed decision *)

Lemma after_open_returns (action : string) (pm vl vt : json) (xl xt : float)
  (position_size current_price : float) (is_test : bool) :
  py_getitem pm "stop_loss_price" = Ok vl -> py_num vl = Ok xl ->
  py_getitem pm "take_profit_price" = Ok vt -> py_num vt = Ok xt ->
  ensures P (fun _ => True) (after_open action pm position_size current_price is_test).
Proof.
  intros Hl Nl Ht Nt. unfold after_open, bracket_prices.
  rewrite Hl, Ht.
  do 3 (apply ensures_bind with (Q := fun _ => True); [returns | intros ? _]).
  apply ensures_bind with (Q := fun _ => True); [returns | intros entry_price _].
  apply ensures_bind with (Q := fun _ => True); [returns | intros ? _].
  apply ensures_bind with (Q := fun _ => True); [| intros prices _; returns].
  destruct is_test; [returns |].
  do 2 (apply ensures_bind_ok; cbv beta).
  rewrite Nt. apply ensures_bind_ok. cbv beta.
  rewrite Nl. apply ensures_bind_ok. cbv beta.
  returns.
Qed.

(** With a well-formed decision nothing raises inside [execute_trade]: its
    handler (line 804) is not used. *)
Lemma execute_well_formed (decision : json) (current_price : float) (is_test : bool) :
  well_formed decision = true ->
  ensures P (fun _ => True) (execute_trade decision current_price is_test).
Proof.
  intros WF.
  destruct (well_formed_inv _ WF)
    as (td & a & pm & vs & xs & vl & xl & vt & xt
        & Htd & Ha & Va & Hpm & Hs & Ns & Hl & Nl & Ht & Nt).
  unfold execute_trade. apply ensures_try_body.
  rewrite Htd. apply ensures_bind_ok. cbv beta.
  rewrite Ha. apply ensures_bind_ok. cbv beta.
  rewrite Hpm. apply ensures_bind_ok. cbv beta.
  rewrite Hs. apply ensures_bind_ok. cbv beta.
  rewrite Ns. apply ensures_bind_ok. cbv beta zeta.
  apply ensures_bind with (Q := fun _ => True); [returns | intros ? _].
  cbv iota.
  destruct (String.eqb a "hold"); [returns |].
  destruct (String.eqb a "open_long" || String.eqb a "open_short"); [| returns].
  destruct (0 <? clamp_size xs)%float; [| returns].
  apply ensures_bind with (Q := fun _ => True); [returns | intros success _].
  destruct success; [| returns].
  now apply after_open_returns with (vl := vl) (xl := xl) (vt := vt) (xt := xt).
Qed.

(** Nothing raises inside [run_dynamic_cycle] either: neither its handler
    (line 1358) nor the one of [execute_trade] is used. *)
Lemma cycle_without_handlers : ensures P (fun _ => True) run_dynamic_cycle.
Proof.
  unfold run_dynamic_cycle. apply ensures_try_body.
  apply ensures_bind with (Q := fun _ => True); [returns | intros ? _].
  apply ensures_bind with (Q := fun _ => True); [returns | intros has_pending _].
  destruct has_pending; [returns |].
  apply ensures_bind with (Q := fun _ => True); [returns | intros ? _].
  apply ensures_bind with (Q := fun _ => True); [returns | intros klines _].
  cbv zeta.
  apply ensures_bind with (Q := fun _ => True); [returns | intros ? _].
  apply ensures_bind with (Q := fun _ => True); [returns | intros account_status _].
  apply ensures_bind with (Q := fun _ => True); [returns | intros position_info _].
  apply ensures_bind with (Q := fun d => well_formed d = true);
    [apply decision_ensures | intros d WF].
  apply ensures_bind with (Q := fun _ => True); [| intros ? _; returns].
  destruct (py_truthy d); [| returns].
  apply ensures_bind with (Q := fun _ => True);
    [now apply execute_well_formed | intros success _].
  destruct success; returns.
Qed.

(** One cycle, step by step: the exposure check; then, when it finds
    nothing, the three readings, the decision, and what follows the
    decision, whose events are in [P]. *)
Lemma cycle_split (w : world Env) :
  exists exposed w1,
    has_pending_orders_or_tpsl (snd (write_echo 1314 w)) = (Ok exposed, w1)
    /\ if exposed
       then run_dynamic_cycle w
            = (Ok CHECK_PENDING_ORDERS_INTERVAL, snd (write_echo 1320 w1))
       else exists klines w2 account_status w3 position_info w4 d w5 w' after,
           get_kline_data (snd (write_echo 1323 w1)) = (Ok klines, w2)
           /\ get_account_balance (snd (write_echo 1334 w2)) = (Ok account_status, w3)
           /\ get_position_info w3 = (Ok position_info, w4)
           /\ get_trading_decision
                (match klines with
                 | k :: _ => k_close k
                 | [] => 0%float
                 end) klines account_status position_info w4 = (Ok d, w5)
           /\ well_formed d = true
           /\ run_dynamic_cycle w = (Ok AI_FREQUENCY, w')
           /\ trace w' = trace w5 ++ after
           /\ forallb P after = true.
Proof.
  destruct (has_pending_total (snd (write_echo 1314 w))) as [exposed [w1 H]].
  exists exposed, w1. split; [exact H |].
  unfold run_dynamic_cycle. rewrite try_bind.
  change (write_echo 1314 w) with (Ok tt, snd (write_echo 1314 w)). cbv iota.
  rewrite try_bind, H. destruct exposed; [reflexivity |].
  rewrite try_bind.
  change (write_echo 1323 w1) with (Ok tt, snd (write_echo 1323 w1)). cbv iota.
  destruct (get_kline_data_total (snd (write_echo 1323 w1))) as [klines [w2 K]].
  rewrite try_bind, K. cbv beta zeta. rewrite try_bind.
  change (write_echo 1334 w2) with (Ok tt, snd (write_echo 1334 w2)). cbv iota.
  destruct (get_account_balance_total (snd (write_echo 1334 w2)))
    as [account_status [w3 B]].
  rewrite try_bind, B.
  destruct (get_position_info_total w3) as [position_info [w4 I]].
  rewrite try_bind, I. rewrite try_bind.
  match goal with
  | |- context [get_trading_decision ?p ?k ?a ?i w4] =>
      destruct (decision_trace p k a i w4) as [d [w5 [rest [E [_ [_ WF]]]]]]
  end.
  rewrite E.
  match goal with
  | |- context [try_except ?m ?h w5] =>
      assert (R : ensures P (fun r => r = AI_FREQUENCY) (try_except m h))
  end.
  { apply ensures_try_body.
    apply ensures_bind with (Q := fun _ => True).
    - destruct (py_truthy d); [| returns].
      apply ensures_bind with (Q := fun _ => True);
        [now apply execute_well_formed | intros success _].
      destruct success; returns.
    - intros _ _. apply ensures_bind with (Q := fun _ => True); [returns |].
      intros _ _. now apply ensures_ret. }
  destruct (R w5) as [r [w' [after [C [T [F ->]]]]]].
  exists klines, w2, account_status, w3, position_info, w4, d, w5, w', after.
  repeat (split; [assumption |]). assumption.
Qed.

(** One cycle, from outside: it returns one of the two intervals, its
    first event is the opening line, and the others are in [P]. *)
Lemma cycle_shape (w : world Env) :
  exists r w' rest,
    run_dynamic_cycle w = (Ok r, w')
    /\ (r = CHECK_PENDING_ORDERS_INTERVAL \/ r = AI_FREQUENCY)
    /\ trace w' = trace w ++ [Echo 1314] ++ rest
    /\ forallb P rest = true.
Proof.
  unfold run_dynamic_cycle. rewrite try_bind. cbn [write_echo emit].
  match goal with
  | |- context [try_except ?m ?h ?x] =>
      assert (R : ensures P (fun r => r = CHECK_PENDING_ORDERS_INTERVAL \/ r = AI_FREQUENCY)
                    (try_except m h));
      [| destruct (R x) as [r [w' [rest [E [T [F I]]]]]] ]
  end.
  - apply ensures_try_body.
    apply ensures_bind with (Q := fun _ => True); [returns | intros has_pending _].
    destruct has_pending.
    { apply ensures_bind with (Q := fun _ => True); [returns | intros ? _].
      apply ensures_ret. now left. }
    apply ensures_bind with (Q := fun _ => True); [returns | intros ? _].
    apply ensures_bind with (Q := fun _ => True); [returns | intros klines _].
    cbv zeta.
    apply ensures_bind with (Q := fun _ => True); [returns | intros ? _].
    apply ensures_bind with (Q := fun _ => True); [returns | intros account_status _].
    apply ensures_bind with (Q := fun _ => True); [returns | intros position_info _].
    apply ensures_bind with (Q := fun d => well_formed d = true);
      [apply decision_ensures | intros d WF].
    apply ensures_bind with (Q := fun _ => True).
    + destruct (py_truthy d); [| returns].
      apply ensures_bind with (Q := fun _ => True);
        [now apply execute_well_formed | intros success _].
      destruct success; returns.
    + intros _ _. apply ensures_bind with (Q := fun _ => True); [returns |].
      intros _ _. apply ensures_ret. now right.
  - exists r, w', rest. split; [exact E |]. split; [exact I |]. split; [| exact F].
    rewrite T. cbn [trace]. now rewrite <- app_assoc.
Qed.

(** [test_ai_module] always answers [True], and calls the AI once. *)
Lemma ai_test_trace (w : world Env) :
  exists w' pre rest,
    test_ai_module w = (Ok true, w')
    /\ trace w' = trace w ++ pre ++ [AiCall] ++ rest
    /\ forallb P pre = true
    /\ forallb P rest = true.
Proof.
  unfold test_ai_module.
  destruct (get_kline_data_emits w) as [klines [w1 [n1 [E1 [T1 [F1 _]]]]]].
  rewrite try_bind, E1. cbv zeta.
  destruct (get_account_balance_emits w1) as [account_status [w2 [n2 [E2 [T2 [F2 _]]]]]].
  rewrite try_bind, E2.
  destruct (get_position_info_emits w2) as [position_info [w3 [n3 [E3 [T3 [F3 _]]]]]].
  rewrite try_bind, E3.
  do 2 (rewrite try_bind; cbn [write_echo emit]).
  rewrite try_bind.
  match goal with
  | |- context [get_trading_decision ?p ?k ?a ?i ?x] =>
      destruct (decision_trace p k a i x) as [d [w4 [rest [E4 [T4 [F4 _]]]]]]
  end.
  rewrite E4. run.
  eexists _,
    (n1 ++ n2 ++ n3 ++ [Echo 1273; Echo 1279; Echo 423; Echo 424; Echo 425; Echo 426]),
    (rest ++ [Echo 1285; Echo 1286; Echo 1288]).
  split; [reflexivity |]. cbn [trace]. split; [| split].
  - rewrite T4. cbn [trace]. rewrite T3, T2, T1, <- !app_assoc. reflexivity.
  - rewrite !forallb_app, F1, F2, F3. cbn [forallb].
    repeat (rewrite Plog; [| reflexivity ..]). reflexivity.
  - rewrite forallb_app, F4. cbn [forallb].
    repeat (rewrite Plog; [| reflexivity ..]). reflexivity.
Qed.

(** *** What a reported failure leaves in the trace *)

Lemma flagged_appends (m : M Env bool) : appends P m -> flagged P m.
Proof.
  intros H w. destruct (H w) as [new [T F]]. exists new. auto.
Qed.

Lemma flagged_bind {A : Type} (m : M Env A) (k : A -> M Env bool) :
  appends P m -> (forall a, flagged P (k a)) -> flagged P (bind m k).
Proof.
  intros Hm Hk w. unfold bind. destruct (Hm w) as [n1 [T1 F1]].
  destruct (m w) as [[a | e] w1]; cbn [snd] in T1.
  - destruct (Hk a w1) as [n2 [T2 R]]. exists (n1 ++ n2).
    rewrite T2, T1, app_assoc. split; [reflexivity |].
    destruct R as [F2 | R]; [left | now right].
    now rewrite forallb_app, F1, F2.
  - exists n1. cbn [snd]. auto.
Qed.

Lemma flagged_try (m : M Env bool) (h : exn -> M Env bool) :
  flagged P m -> (forall e, appends P (h e)) -> flagged P (try_except m h).
Proof.
  intros Hm Hh w. unfold try_except. destruct (Hm w) as [n1 [T1 R1]].
  destruct (m w) as [[a | e] w1]; cbn [fst snd] in T1, R1.
  - exists n1. cbn [fst snd]. auto.
  - destruct R1 as [F1 | R1]; [| discriminate].
    destruct (Hh e w1) as [n2 [T2 F2]]. exists (n1 ++ n2).
    rewrite T2, T1, app_assoc. split; [reflexivity |]. left.
    now rewrite forallb_app, F1, F2.
Qed.

(** A bracket that could not be set (line 794) does not change the answer:
    it is [True], as for a bracket that was set. *)
Lemma checked_bracket_flagged (action : string)
  (position_size tp_price sl_price entry_price : float) :
  flagged P (checked_bracket action position_size tp_price sl_price entry_price).
Proof.
  clear P794.
  unfold checked_bracket. destruct (prices_rejected _ _ _ _).
  - apply flagged_appends. destruct (String.eqb action "open_long"); emits.
  - intros w.
    destruct (bracket_retry_emits (replace "open_" "" action) position_size
                tp_price sl_price 5 w) as [s [w1 [n [E [T [F _]]]]]].
    unfold bind. rewrite E.
    destruct s; run;
      [exists (n ++ [Echo 792]) | exists (n ++ [Err 794])];
      rewrite T, app_assoc; (split; [reflexivity | right; reflexivity]).
Qed.

Lemma after_open_flagged (action : string) (pm : json)
  (position_size current_price : float) (is_test : bool) :
  flagged P (after_open action pm position_size current_price is_test).
Proof.
  clear P794.
  unfold after_open, bracket_prices.
  do 6 (apply flagged_bind; [solve [emits] | intros ?]).
  apply checked_bracket_flagged.
Qed.

Lemma execute_trade_flagged (decision : json) (current_price : float) (is_test : bool) :
  flagged P (execute_trade decision current_price is_test).
Proof.
  clear P794.
  unfold execute_trade. apply flagged_try; [| intros e; emits].
  do 5 (apply flagged_bind; [solve [emits] | intros ?]). cbv zeta.
  apply flagged_bind; [solve [emits] | intros _].
  match goal with
  | |- flagged _ (match ?x with _ => _ end) =>
      destruct x as [| | | act | |]; try (apply flagged_appends; solve [emits])
  end.
  destruct (String.eqb act "hold"); [apply flagged_appends; solve [emits] |].
  destruct (String.eqb act "open_long" || String.eqb act "open_short");
    [| apply flagged_appends; solve [emits]].
  match goal with
  | |- flagged _ (if ?c then _ else _) =>
      destruct c; [| apply flagged_appends; solve [emits]]
  end.
  apply flagged_bind; [solve [emits] | intros success].
  destruct success; [apply after_open_flagged | apply flagged_appends; solve [emits]].
Qed.

(** *** What rejected prices leave in the trace *)

Section Marked.

(** A set [A] that holds the events of [P], those of the bracket routine,
    and the lines 792, 794 and 805. *)
Variable A : event -> bool.
Hypothesis PA : forall e, P e = true -> A e = true.
Hypothesis Aretry : forall pos_side eth_size tp_price sl_price max_retries,
  appends A (_place_tp_sl_orders_with_retry pos_side eth_size tp_price sl_price
               max_retries).
Hypothesis A792 : A (Echo 792) = true.
Hypothesis A794 : A (Err 794) = true.
Hypothesis A805 : A (Err 805) = true.







End Marked.

(** *** How many times *)

(** [Q] marks the events to count; the events of [P] are not among them. *)
Variable Q : event -> bool.
Hypothesis PQ : forall e, P e = true -> Q e = false.

Ltac none := solve [apply (at_most_none P Q _ _ PQ); emits].

Ltac skip := apply (at_most_bind Q 0); [none | intros ?].

Ltac then_none n :=
  apply at_most_le with (a := n + 0);
  [apply at_most_bind; [| intros ?; none] | lia].

Ltac handled n :=
  apply at_most_le with (a := n + 0);
  [apply at_most_try; [| intros ?; none] | lia].

Lemma decision_calls_once (current_price : float) (klines : list kline)
  (account_status : balance) (position_info : position) :
  at_most 1 Q (get_trading_decision current_price klines account_status position_info).
Proof.
  unfold get_trading_decision. handled 1.
  do 4 skip. then_none 1. apply at_most_ask_ai.
Qed.

Lemma place_order_posts_once (action : string) (eth_size : float) :
  at_most 1 Q (_place_order action eth_size).
Proof.
  unfold _place_order.
  apply at_most_le with (a := 1 + 0); [apply at_most_try | lia].
  - do 3 skip. then_none 1. apply at_most_request.
  - intros e. unfold order_failed, diagnose_order_failure. none.
Qed.

Lemma bracket_order_posts_twice (pos_side : string) (eth_size tp_price sl_price : float) :
  at_most 2 Q (_place_tp_sl_order pos_side eth_size tp_price sl_price).
Proof.
  unfold _place_tp_sl_order. handled 2.
  do 3 skip. apply (at_most_bind Q 1 1); [apply at_most_request | intros ?].
  do 2 skip. then_none 1. apply at_most_request.
Qed.

Lemma attempt_posts_twice (pos_side : string) (eth_size tp_price sl_price : float) :
  at_most 2 Q (tp_sl_attempt pos_side eth_size tp_price sl_price).
Proof.
  unfold tp_sl_attempt. handled 2.
  do 2 skip. then_none 2. apply bracket_order_posts_twice.
Qed.

Lemma attempts_post_bound (pos_side : string) (eth_size tp_price sl_price : float)
  (remaining : nat) :
  at_most (2 * remaining) Q (tp_sl_attempts pos_side eth_size tp_price sl_price remaining).
Proof.
  induction remaining as [| rest IH]; cbn [tp_sl_attempts]; [none |].
  apply at_most_le with (a := 2 + 2 * rest); [| lia].
  apply at_most_bind; [apply attempt_posts_twice | intros verified].
  destruct verified; [none |]. skip. exact IH.
Qed.

Lemma retry_posts_bound (pos_side : string) (eth_size tp_price sl_price : float)
  (max_retries : nat) :
  at_most (2 * max_retries) Q
    (_place_tp_sl_orders_with_retry pos_side eth_size tp_price sl_price max_retries).
Proof.
  unfold _place_tp_sl_orders_with_retry.
  destruct (_ || _); [none | apply attempts_post_bound].
Qed.

Lemma after_open_posts_bound (action : string) (pm : json)
  (position_size current_price : float) (is_test : bool) :
  at_most 10 Q (after_open action pm position_size current_price is_test).
Proof.
  unfold after_open, bracket_prices, checked_bracket.
  do 6 skip.
  destruct (prices_rejected _ _ _ _).
  - destruct (String.eqb action "open_long"); none.
  - then_none 10. apply (retry_posts_bound _ _ _ _ 5).
Qed.

Ltac on_action :=
  cbv zeta;
  match goal with
  | |- at_most _ _ (match ?x with _ => _ end) =>
      destruct x; [none | none | none | | none | none]
  end;
  match goal with
  | |- context [String.eqb ?a "hold"] => destruct (String.eqb a "hold"); [none |]
  end;
  match goal with
  | |- at_most _ _ (if ?c then _ else _) => destruct c; [| none]
  end;
  match goal with
  | |- at_most _ _ (if ?c then _ else _) => destruct c; [| none]
  end.

Lemma execute_orders_once (decision : json) (current_price : float) (is_test : bool) :
  at_most 1 Q (execute_trade decision current_price is_test).
Proof.
  unfold execute_trade. handled 1.
  do 5 skip. cbv zeta. skip. on_action.
  then_none 1. apply place_order_posts_once.
Qed.

Lemma execute_brackets_bound (decision : json) (current_price : float) (is_test : bool) :
  at_most 10 Q (execute_trade decision current_price is_test).
Proof.
  unfold execute_trade. handled 10.
  do 5 skip. cbv zeta. skip. on_action.
  skip. match goal with |- at_most _ _ (if ?c then _ else _) => destruct c end;
    [apply after_open_posts_bound | none].
Qed.

Ltac to_decision :=
  unfold run_dynamic_cycle;
  match goal with
  | |- at_most ?n _ _ =>
      apply at_most_le with (a := n + 0); [apply at_most_try; [| intros ?; none] | lia]
  end;
  do 2 skip;
  match goal with
  | |- at_most _ _ (if ?c then _ else _) => destruct c; [none |]
  end;
  do 2 skip; cbv zeta; do 3 skip.

Lemma cycle_calls_once : at_most 1 Q run_dynamic_cycle.
Proof. to_decision. then_none 1. apply decision_calls_once. Qed.

Lemma cycle_orders_once : at_most 1 Q run_dynamic_cycle.
Proof.
  to_decision. skip. then_none 1.
  match goal with |- at_most _ _ (if ?c then _ else _) => destruct c; [| none] end.
  then_none 1. apply execute_orders_once.
Qed.

Lemma cycle_brackets_bound : at_most 10 Q run_dynamic_cycle.
Proof.
  to_decision. skip. then_none 10.
  match goal with |- at_most _ _ (if ?c then _ else _) => destruct c; [| none] end.
  then_none 10. apply execute_brackets_bound.
Qed.

(** The rounds of the main loop add up. *)
Lemma main_loop_bound (k iterations : nat) :
  at_most k Q run_dynamic_cycle -> at_most (iterations * k) Q (main_loop iterations).
Proof.
  intros C. induction iterations as [| rest IH]; cbn [main_loop Nat.mul]; [none |].
  apply at_most_bind; [| intros _; exact IH].
  handled k. then_none k. exact C.
Qed.

(** *** How many times, in the test run *)

Lemma cancel_posts_once (algo_id : json) (inst_id : string) :
  at_most 1 Q (cancel_algo_order algo_id inst_id).
Proof. unfold cancel_algo_order. handled 1. then_none 1. apply at_most_request. Qed.

Lemma cancel_current_posts_twice : at_most 2 Q _cancel_current_tp_sl_orders.
Proof.
  unfold _cancel_current_tp_sl_orders. handled 2.
  apply (at_most_bind Q 0); [| intros recorded].
  - apply (at_most_none P Q _ _ PQ). intros w. exists []. cbn. now rewrite app_nil_r.
  - destruct recorded as [[tp_algo_id sl_algo_id] |]; [| none].
    skip. apply (at_most_bind Q 1 1); [apply cancel_posts_once | intros ?].
    then_none 1. apply cancel_posts_once.
Qed.

Lemma close_position_posts_once (action : string) : at_most 1 Q (_close_position action).
Proof.
  unfold _close_position. handled 1. skip.
  match goal with
  | |- at_most _ _ (if ?c then _ else _) => destruct c; [none |]
  end.
  do 3 skip. then_none 1. apply at_most_request.
Qed.

Ltac on_flag :=
  match goal with
  | |- at_most _ _ (if negb ?c then _ else _) => destruct c; cbn [negb]; [| none]
  end.

Ltac quiet_steps := repeat first [skip | on_flag].

Ltac counted a b lemma := apply (at_most_bind Q a b); [apply lemma | intros ?].

Lemma trading_test_orders : at_most 4 Q test_trading_module.
Proof.
  clear Porder.
  unfold test_trading_module, test_entry_price. handled 4.
  quiet_steps. counted 1 3 place_order_posts_once.
  quiet_steps. counted 1 2 close_position_posts_once.
  quiet_steps. counted 1 1 place_order_posts_once.
  quiet_steps. counted 1 0 close_position_posts_once.
  quiet_steps. none.
Qed.

Lemma trading_test_brackets : at_most 20 Q test_trading_module.
Proof.
  clear Palgo.
  unfold test_trading_module, test_entry_price. handled 20.
  quiet_steps. counted 10 10 (retry_posts_bound "long" MIN_ORDER_SIZE).
  quiet_steps. counted 10 0 (retry_posts_bound "short" MIN_ORDER_SIZE).
  quiet_steps. none.
Qed.

Lemma trading_test_cancels : at_most 4 Q test_trading_module.
Proof.
  clear Pcancel.
  unfold test_trading_module, test_entry_price. handled 4.
  quiet_steps. counted 2 2 cancel_current_posts_twice.
  quiet_steps. counted 2 0 cancel_current_posts_twice.
  quiet_steps. none.
Qed.

Lemma ai_test_calls_once : at_most 1 Q test_ai_module.
Proof.
  clear Pai.
  unfold test_ai_module. handled 1. quiet_steps. cbv zeta. quiet_steps.
  then_none 1. apply decision_calls_once.
Qed.

(** The test run does what its three tests do. *)
Lemma test_run_bound (a t : nat) :
  at_most a Q test_ai_module -> at_most t Q test_trading_module ->
  at_most (a + t) Q run_full_test.
Proof.
  clear Pai Porder Palgo Pcancel.
  intros A T. unfold run_full_test, jymkcs.
  apply at_most_le with (a := a + t + 0); [apply at_most_try; [| intros ?; none] | lia].
  quiet_steps. apply at_most_bind; [exact A | intros ?].
  quiet_steps. apply at_most_le with (a := t + 0); [| lia].
  apply at_most_bind; [exact T | intros ?]. quiet_steps; none.
Qed.

End Emits.

(** ** Sets of events *)

Ltac log_ok :=
  let Hq := fresh "Hq" in
  let Hr := fresh "Hr" in
  intros [r | | s | n | n] Hq Hr; cbn in Hq, Hr |- *;
  try reflexivity; try discriminate;
  repeat match type of Hr with
         | (_ || _) = false =>
             let H := fresh "H" in
             apply orb_false_elim in Hr; destruct Hr as [Hr H]
         end;
  repeat match goal with
         | H : Nat.eqb _ _ = false |- _ => rewrite H
         end;
  reflexivity.

Ltac in_set :=
  first [ reflexivity
        | log_ok
        | intros; reflexivity
        | let e := fresh "e" in let H := fresh "H" in
          intros e H; apply negb_true_iff in H; exact H ].

(** [inst H] discharges the hypotheses of a statement about a set of
    events, once the set is given. *)
Ltac inst H :=
  repeat match type of H with
         | ?A -> _ =>
             let X := fresh in
             assert (X : A) by in_set; specialize (H X); clear X
         end.

(** ** The decision and the cycle *)

(** X6.  [get_trading_decision] never raises, and the decision it returns is
    valid under the schema with numbers for the size and the two prices:
    when the parsed decision has anything else there, writing it to the log
    (lines 523-525) raises and the fallback [hold] of lines 538-549 is
    returned. *)
Theorem decision_is_well_formed (current_price : float) (klines : list kline)
  (account_status : balance) (position_info : position) (w : world Env) :
  exists d w',
    get_trading_decision current_price klines account_status position_info w = (Ok d, w')
    /\ schema_valid d = true
    /\ well_formed d = true.
Proof.
  pose proof (decision_trace (fun _ => true)) as D. inst D.
  destruct (D current_price klines account_status position_info w)
    as [d [w' [rest [E [_ [_ WF]]]]]].
  exists d, w'. split; [exact E |]. split; [| exact WF].
  unfold well_formed in WF. apply andb_prop in WF. tauto.
Qed.

(** X7.  In one cycle the program calls the AI at most once, sends at most one
    market order and at most ten conditional orders, and cancels nothing. *)
Theorem cycle_bounds (w : world Env) :
  exists new,
    trace (snd (run_dynamic_cycle w)) = trace w ++ new
    /\ count_events is_ai_call new <= 1
    /\ count_events (posts_to ORDER_ENDPOINT) new <= 1
    /\ count_events (posts_to ALGO_ENDPOINT) new <= 10
    /\ count_events (posts_to CANCEL_ENDPOINT) new = 0.
Proof.
  assert (A : at_most 1 is_ai_call run_dynamic_cycle).
  { apply cycle_calls_once with (P := fun e => negb (is_ai_call e)); in_set. }
  assert (B : at_most 1 (posts_to ORDER_ENDPOINT) run_dynamic_cycle).
  { apply cycle_orders_once with (P := fun e => negb (posts_to ORDER_ENDPOINT e)); in_set. }
  assert (C : at_most 10 (posts_to ALGO_ENDPOINT) run_dynamic_cycle).
  { apply cycle_brackets_bound with (P := fun e => negb (posts_to ALGO_ENDPOINT e)); in_set. }
  assert (D : at_most 0 (posts_to CANCEL_ENDPOINT) run_dynamic_cycle).
  { apply at_most_none with (P := fun e => negb (posts_to CANCEL_ENDPOINT e)); [in_set |].
    apply ensures_appends with (Q := fun _ => True).
    apply run_dynamic_cycle_emits; in_set. }
  destruct (A w) as [new [T Ca]]. destruct (B w) as [nb [Tb Cb]].
  destruct (C w) as [nc [Tc Cc]]. destruct (D w) as [nd [Td Cd]].
  rewrite T in Tb, Tc, Td.
  apply app_inv_head in Tb, Tc, Td. subst nb nc nd.
  exists new. repeat split; auto. lia.
Qed.

(** X8.  Nothing raises inside a cycle once the decision is there: the handler
    of [execute_trade] (line 804) and the handler of [run_dynamic_cycle]
    (line 1358) are never used, whatever the exchange and the AI do. *)
Theorem cycle_handlers_unreachable (w : world Env) :
  exists interval w' new,
    run_dynamic_cycle w = (Ok interval, w')
    /\ trace w' = trace w ++ new
    /\ count_events (is_error 805) new = 0
    /\ count_events (is_error 1359) new = 0.
Proof.
  pose proof (cycle_without_handlers
                (fun e => negb (is_error 805 e || is_error 1359 e))) as C.
  inst C. destruct (C w) as [r [w' [new [E [T [F _]]]]]].
  exists r, w', new. split; [exact E |]. split; [exact T |].
  split.
  - apply (count_events_none _ (is_error 805) new) in F; [exact F |].
    intros e H. apply negb_true_iff, orb_false_elim in H. tauto.
  - apply (count_events_none _ (is_error 1359) new) in F; [exact F |].
    intros e H. apply negb_true_iff, orb_false_elim in H. tauto.
Qed.

(** X9.  While something is pending the cycle only looks: when it returns the
    short interval, all it did was write log lines and send [GET]
    requests.  It called no AI and sent no order. *)
Theorem exposed_cycle_only_reads (w w' : world Env) :
  run_dynamic_cycle w = (Ok CHECK_PENDING_ORDERS_INTERVAL, w') ->
  exists new, trace w' = trace w ++ new /\ forallb reads_only new = true.
Proof.
  intros R.
  pose proof (cycle_split (fun _ => true)) as S. inst S.
  destruct (S w) as [exposed [w1 [H C]]].
  destruct exposed.
  - rewrite C in R. injection R as <-.
    pose proof (has_pending_emits reads_only) as Hp. inst Hp.
    destruct (Hp (snd (write_echo 1314 w))) as [b [w2 [n [E [T [F _]]]]]].
    rewrite H in E. injection E as _ <-.
    exists ([Echo 1314] ++ n ++ [Echo 1320]). split.
    + cbn [write_echo emit snd trace]. rewrite T.
      cbn [write_echo emit snd trace]. now rewrite <- !app_assoc.
    + rewrite !forallb_app, F. reflexivity.
  - destruct C as (? & ? & ? & ? & ? & ? & ? & ? & w'' & ? & _ & _ & _ & _ & _ & C & _).
    rewrite C in R. discriminate.
Qed.

Lemma post_after_prefix (pre after before post : list event) (e : event) :
  forallb (fun e => negb (is_post e)) pre = true ->
  (after = [] \/ In AiCall pre) ->
  pre ++ after = before ++ e :: post ->
  is_post e = true ->
  In AiCall before.
Proof.
  intros F A Eq Pe. apply app_eq_app in Eq.
  destruct Eq as [l [[E1 E2] | [E1 E2]]].
  - destruct l as [| x l].
    + rewrite app_nil_r in E1. subst before. cbn in E2. subst after.
      destruct A as [A | A]; [discriminate | exact A].
    + cbn in E2. injection E2 as <- _. subst pre.
      rewrite forallb_app in F. cbn in F. rewrite Pe in F. cbn in F.
      now rewrite andb_false_r in F.
  - subst before. destruct A as [-> | A].
    + now destruct l.
    + apply in_or_app. now left.
Qed.

(** X10.  No order without the AI: in the trace of a cycle, every [POST] request
    comes after a call of the AI made in that same cycle. *)
Theorem orders_only_after_ai (w : world Env) :
  exists new,
    trace (snd (run_dynamic_cycle w)) = trace w ++ new
    /\ forall before e after,
         new = before ++ e :: after -> is_post e = true -> In AiCall before.
Proof.
  pose (NP := fun e => negb (is_post e)).
  pose proof (cycle_split (fun _ => true)) as S. inst S.
  pose proof (has_pending_emits NP) as Hp. inst Hp.
  pose proof (get_kline_data_emits NP) as Hk. inst Hk.
  pose proof (get_account_balance_emits NP) as Hb. inst Hb.
  pose proof (get_position_info_emits NP) as Hi. inst Hi.
  pose proof (decision_trace NP) as Hd. inst Hd.
  destruct (S w) as [exposed [w1 [H C]]].
  destruct (Hp (snd (write_echo 1314 w))) as [b [w1' [n1 [E1 [T1 [F1 _]]]]]].
  rewrite H in E1. injection E1 as _ <-.
  destruct exposed.
  - rewrite C. exists (([Echo 1314] ++ n1 ++ [Echo 1320]) ++ []). split.
    + cbn [write_echo emit snd trace] in *. rewrite T1, app_nil_r.
      now rewrite <- !app_assoc.
    + intros before e after. apply post_after_prefix; [| now left].
      fold NP. rewrite !forallb_app, F1. reflexivity.
  - destruct C as (klines & w2 & account_status & w3 & position_info & w4 & d & w5
                   & w' & after & K & B & I & G & _ & C & T & _).
    destruct (Hk (snd (write_echo 1323 w1))) as [k' [w2' [n2 [E2 [T2 [F2 _]]]]]].
    rewrite K in E2. injection E2 as _ <-.
    destruct (Hb (snd (write_echo 1334 w2))) as [a' [w3' [n3 [E3 [T3 [F3 _]]]]]].
    rewrite B in E3. injection E3 as _ <-.
    destruct (Hi w3) as [p' [w4' [n4 [E4 [T4 [F4 _]]]]]].
    rewrite I in E4. injection E4 as _ <-.
    match type of G with
    | get_trading_decision ?p _ _ _ _ = _ =>
        destruct (Hd p klines account_status position_info w4)
          as [d' [w5' [rest [E5 [T5 [F5 _]]]]]]
    end.
    rewrite G in E5. injection E5 as _ <-.
    rewrite C. cbn [snd].
    exists (([Echo 1314] ++ n1 ++ [Echo 1323] ++ n2 ++ [Echo 1334] ++ n3 ++ n4
             ++ [Echo 423; Echo 424; Echo 425; Echo 426; AiCall] ++ rest) ++ after).
    split.
    + rewrite T, T5, T4, T3. cbn [write_echo emit snd trace] in *.
      rewrite T2. cbn [trace]. rewrite T1. cbn [trace].
      now rewrite <- !app_assoc.
    + intros before e post. apply post_after_prefix.
      * fold NP. rewrite !forallb_app, F1, F2, F3, F4, F5. reflexivity.
      * right. do 7 (apply in_or_app; right).
        apply in_or_app. left. cbn. auto 10.
Qed.

(** ** The validator and the heuristic tier *)

(** X11.  [_validate_decision_format] decides the schema exactly, except on a
    decision whose [position_management] is a string or a list: there it
    can accept what the schema rejects. *)
Theorem validator_exact_on_objects (d : json) :
  loose_member d = false ->
  _validate_decision_format d = schema_valid d.
Proof.
  intros Loose.
  destruct (_validate_decision_format d) eqn:V, (schema_valid d) eqn:S; auto.
  - now rewrite (validated_is_schema_valid d V Loose) in S.
  - now rewrite (schema_valid_is_validated d S) in V.
Qed.

Lemma validate_more_actions (few many : list string) (d : json) :
  (forall a, py_in_strs a few = true -> py_in_strs a many = true) ->
  validate_with few d = true -> validate_with many d = true.
Proof.
  intros Sub. unfold validate_with, validate_checks.
  repeat match goal with
         | |- context [rbind ?r _] =>
             destruct r as [? | ?]; cbn [rbind]; [| discriminate]
         | |- context [if negb ?b then _ else _] =>
             match b with
             | py_in_strs _ _ => fail 1
             | _ => destruct b; cbn [negb]; [| discriminate]
             end
         end.
  match goal with
  | |- context [py_in_strs ?a few] =>
      destruct (py_in_strs a few) eqn:A; cbn [negb]; [| discriminate];
      rewrite (Sub a A); cbn [negb]
  end.
  repeat match goal with
         | |- context [rbind ?r _] =>
             destruct r as [? | ?]; cbn [rbind]; [| discriminate]
         end.
  auto.
Qed.

(** X12.  Version 5 narrowed the validator of version 1: every decision that v5
    accepts, v1 accepts (v1 also takes the closing actions). *)
Theorem v1_accepts_what_v5_accepts (d : json) :
  _validate_decision_format d = true -> V1._validate_decision_format d = true.
Proof.
  apply validate_more_actions. intros a.
  unfold py_in_strs, valid_actions, V1.valid_actions. cbn [existsb].
  destruct (is_str "hold" a), (is_str "open_long" a), (is_str "open_short" a);
    cbn; auto; discriminate.
Qed.

Lemma find_reason_nonempty (patterns : list regex) (response reason : string) :
  find_reason L patterns response = Ok (Some reason) -> nonempty reason = true.
Proof.
  induction patterns as [| p ps IH]; cbn [find_reason]; [discriminate |].
  destruct (re_search L p response) as [[g |] | e]; cbn [rbind];
    try discriminate; auto.
  destruct (nonempty (strip g)) eqn:N; auto.
  intros H. injection H as <-. exact N.
Qed.

(** X13.  The decision of the field-by-field tier always has a reason: the text
    found, stripped and not empty, or the default sentence of line 673. *)
Theorem built_reason_never_empty (response : string) (d : json) :
  _build_standard_decision_from_response L response = Ok d ->
  exists td reason,
    py_getitem d "trading_decision" = Ok td
    /\ py_getitem td "reason" = Ok (JStr reason)
    /\ nonempty reason = true.
Proof.
  unfold _build_standard_decision_from_response.
  destruct (find_action L action_patterns response) as [fa | e]; cbn [rbind];
    [| discriminate].
  destruct (find_reason L reason_patterns response) as [[r |] | e] eqn:R;
    cbn [rbind]; try discriminate; intros H; injection H as <-.
  - eexists _, r. split; [reflexivity |]. split; [reflexivity |].
    now apply find_reason_nonempty in R.
  - eexists _, DEFAULT_REASON. repeat split; reflexivity.
Qed.

(** ** The entry price *)

Lemma seconds_slept_app (a b : list event) :
  seconds_slept (a ++ b) = seconds_slept a + seconds_slept b.
Proof. unfold seconds_slept. now rewrite map_app, list_sum_app. Qed.

(** [get_position_info] sends its one request and at most logs line 289. *)
Lemma position_read_once (w : world Env) :
  exists pos w1 tail,
    get_position_info w = (Ok pos, w1)
    /\ trace w1 = trace w ++ Request positions_request :: tail
    /\ (tail = [] \/ tail = [Err 289]).
Proof.
  unfold get_position_info, try_except, bind, lift, _make_request.
  fold positions_request.
  destruct (exchange positions_request (env w)) as [[data | e] s'];
    [destruct (read_position data) as [pos | e] |];
    run; eexists _, _, _; (split; [reflexivity |]); cbn [trace];
    rewrite <- ?app_assoc; (split; [reflexivity |]); auto.
Qed.

(** X14.  [_get_entry_price_with_retry(max_retries, wait_seconds)], whose loop
    is [entry_price_attempts wait_seconds max_retries], never raises, and
    all it sends is the request for the position, at most [max_retries]
    times.  A price it returns is positive.  It gives up ([None]) only
    after [max_retries] readings, having slept [wait_seconds] between two
    readings: with the default values, after five readings and eight
    seconds. *)
Theorem entry_price_retry_spec (wait_seconds remaining : nat) : forall w : world Env,
  exists found w' new k,
    entry_price_attempts wait_seconds remaining w = (Ok found, w')
    /\ trace w' = trace w ++ new
    /\ forallb reads_only new = true
    /\ requests_of new = repeat positions_request k
    /\ k <= remaining
    /\ match found with
       | Some price => (0 <? price)%float = true
       | None => k = remaining /\ seconds_slept new = wait_seconds * (remaining - 1)
       end.
Proof.
  induction remaining as [| rest IH]; intros w; cbn [entry_price_attempts].
  - exists None, w, [], 0. cbn. rewrite app_nil_r. repeat split; auto.
  - unfold bind at 1. unfold try_except. unfold bind at 1.
    destruct (position_read_once w) as [pos [w1 [tail [E [T Tail]]]]]. rewrite E.
    assert (Ft : forallb reads_only tail = true /\ requests_of tail = []
                 /\ seconds_slept tail = 0).
    { destruct Tail as [-> | ->]; repeat split; reflexivity. }
    destruct Ft as [Ft [Rt St]].
    destruct ((0 <? position_size pos) && (0 <? entry_price pos))%float eqn:C.
    + run. exists (Some (entry_price pos)), w1, ([Request positions_request] ++ tail), 1.
      split; [reflexivity |]. split; [exact T |].
      split; [rewrite forallb_app, Ft; reflexivity |].
      split; [rewrite requests_of_app, Rt; reflexivity |].
      split; [lia |]. apply andb_prop in C. tauto.
    + run. destruct rest as [| r].
      * cbn [Nat.ltb Nat.leb entry_price_attempts]. run.
        eexists None, _, ([Request positions_request] ++ tail ++ [Echo 816]), 1.
        split; [reflexivity |]. cbn [trace]. split.
        { rewrite T, <- !app_assoc. reflexivity. }
        split; [rewrite !forallb_app, Ft; reflexivity |].
        split; [rewrite !requests_of_app, Rt; reflexivity |].
        split; [lia |]. split; [reflexivity |].
        rewrite !seconds_slept_app, St. cbn. lia.
      * change (Nat.ltb 0 (S r)) with true. cbv beta iota.
        match goal with
        | |- context [entry_price_attempts wait_seconds (S r) ?x] =>
            destruct (IH x) as [found [w' [new [k [E' [T' [F' [R' [K' O']]]]]]]]]
        end.
        rewrite E'.
        exists found, w',
          (([Request positions_request] ++ tail ++ [Echo 816; Sleep wait_seconds]) ++ new),
          (S k).
        split; [reflexivity |]. split.
        { rewrite T'. cbn [trace]. rewrite T, <- !app_assoc. reflexivity. }
        split; [rewrite !forallb_app, Ft, F'; reflexivity |].
        split; [rewrite !requests_of_app, Rt, R'; reflexivity |].
        split; [lia |].
        destruct found as [price |]; [exact O' |].
        destruct O' as [-> S']. split; [reflexivity |].
        rewrite !seconds_slept_app, St, S'. cbn. lia.
Qed.

(** ** The conditional orders *)

(** X15.  One attempt in which the exchange takes the take-profit order and
    refuses the stop-loss order: the attempt answers [false], the
    identifier of the order that was taken is recorded nowhere, and the
    attempt sent nothing but the two submissions: the order that was taken
    is left on the exchange, and the next attempt submits another one. *)
Theorem refused_stop_loss_leaves_orphan
  (pos_side : string) (eth_size tp_price sl_price : float) (w : world Env)
  (sz : string) (order : json) (others : list json) (tp_algo_id : json)
  (e1 e2 : Env) (x : exn) :
  pos_side = "long" \/ pos_side = "short" ->
  _convert_eth_to_contracts eth_size = Ok sz ->
  exchange (algo_request pos_side sz "tp" tp_price) (env w) = (Ok (order :: others), e1) ->
  py_getitem order "algoId" = Ok tp_algo_id ->
  exchange (algo_request pos_side sz "sl" sl_price) e1 = (Raise x, e2) ->
  exists w' new,
    tp_sl_attempt pos_side eth_size tp_price sl_price w = (Ok false, w')
    /\ trace w' = trace w ++ new
    /\ requests_of new
       = [algo_request pos_side sz "tp" tp_price; algo_request pos_side sz "sl" sl_price]
    /\ env w' = e2
    /\ current_tp_sl_orders w' = current_tp_sl_orders w.
Proof.
  intros Side Size Tp Id Sl.
  unfold tp_sl_attempt.
  do 2 (rewrite try_bind; cbn [write_echo emit]). rewrite try_bind.
  unfold _place_tp_sl_order. rewrite try_bind.
  replace (String.eqb pos_side "long" || String.eqb pos_side "short") with true
    by (destruct Side as [-> | ->]; reflexivity).
  unfold lift at 1. rewrite Size.
  do 2 (rewrite try_bind; cbn [write_echo emit]). rewrite try_bind.
  unfold _make_request at 1. cbn [env trace current_tp_sl_orders last_profit].
  fold (algo_request pos_side sz "tp" tp_price). rewrite Tp.
  rewrite try_bind. unfold lift at 1. cbn [first_algo_id]. rewrite Id.
  rewrite try_bind. cbn [write_echo emit]. rewrite try_bind.
  unfold _make_request at 1. cbn [env trace current_tp_sl_orders last_profit].
  fold (algo_request pos_side sz "sl" sl_price). rewrite Sl.
  unfold bind, raise, ret, write_error, emit.
  cbn [env trace current_tp_sl_orders last_profit].
  eexists _, _. split; [reflexivity |]. cbn [trace env current_tp_sl_orders].
  rewrite <- !app_assoc. split; [reflexivity |]. repeat split; reflexivity.
Qed.

(** X16.  The bracket routine only looks and submits: apart from log lines and
    pauses its events are [GET] requests and submissions of conditional
    orders, so it never cancels an order, and it submits at most two
    orders for each attempt it is allowed. *)
Theorem bracket_retry_traffic
  (pos_side : string) (eth_size tp_price sl_price : float) (max_retries : nat)
  (w : world Env) :
  exists b w' new,
    _place_tp_sl_orders_with_retry pos_side eth_size tp_price sl_price max_retries w
      = (Ok b, w')
    /\ trace w' = trace w ++ new
    /\ forallb (fun e => reads_only e || posts_to ALGO_ENDPOINT e) new = true
    /\ count_events (posts_to ALGO_ENDPOINT) new <= 2 * max_retries.
Proof.
  pose proof (bracket_retry_emits (fun e => reads_only e || posts_to ALGO_ENDPOINT e))
    as R. inst R.
  destruct (R pos_side eth_size tp_price sl_price max_retries w)
    as [b [w' [new [E [T [F _]]]]]].
  exists b, w', new. split; [exact E |]. split; [exact T |]. split; [exact F |].
  pose proof (retry_posts_bound (fun e => negb (posts_to ALGO_ENDPOINT e))) as B.
  inst B. specialize (B (posts_to ALGO_ENDPOINT)). inst B.
  destruct (B pos_side eth_size tp_price sl_price max_retries w) as [new' [T' C]].
  rewrite E in T'. cbn [snd] in T'. rewrite T in T'.
  apply app_inv_head in T'. now subst new'.
Qed.

(** ** Cancelling *)

Lemma cancel_algo_order_once (algo_id : json) (inst_id : string) (w : world Env) :
  exists b w' tail,
    cancel_algo_order algo_id inst_id w = (Ok b, w')
    /\ trace w' = trace w ++ [Request (cancel_request algo_id inst_id); tail]
    /\ (tail = Echo 368 \/ tail = Err 372)
    /\ current_tp_sl_orders w' = current_tp_sl_orders w.
Proof.
  unfold cancel_algo_order, try_except, bind, _make_request.
  fold (cancel_request algo_id inst_id).
  destruct (exchange (cancel_request algo_id inst_id) (env w)) as [[data | e] s'];
    run; eexists _, _, _; (split; [reflexivity |]); cbn [trace current_tp_sl_orders];
    rewrite <- ?app_assoc; (split; [reflexivity |]); auto.
Qed.

(** X17.  [_cancel_current_tp_sl_orders] never raises and always ends with no
    identifier recorded.  With two identifiers recorded it sends their two
    cancellations, take-profit first, and writes its line of success (889)
    whatever the exchange answered; with none recorded it does nothing. *)
Theorem cancel_current_always_forgets (w : world Env) :
  exists w' new,
    _cancel_current_tp_sl_orders w = (Ok tt, w')
    /\ trace w' = trace w ++ new
    /\ current_tp_sl_orders w' = None
    /\ match current_tp_sl_orders w with
       | None => new = []
       | Some (tp_algo_id, sl_algo_id) =>
           requests_of new
           = [cancel_request tp_algo_id SYMBOL; cancel_request sl_algo_id SYMBOL]
           /\ count_events (is_echo 889) new = 1
       end.
Proof.
  unfold _cancel_current_tp_sl_orders. rewrite try_bind.
  unfold recorded_orders at 1.
  destruct (current_tp_sl_orders w) as [[tp_algo_id sl_algo_id] |] eqn:R.
  - rewrite try_bind. cbn [write_echo emit]. rewrite try_bind.
    match goal with
    | |- context [cancel_algo_order tp_algo_id SYMBOL ?x] =>
        destruct (cancel_algo_order_once tp_algo_id SYMBOL x)
          as [b1 [w1 [t1 [E1 [T1 [L1 _]]]]]]
    end.
    rewrite E1, try_bind.
    destruct (cancel_algo_order_once sl_algo_id SYMBOL w1)
      as [b2 [w2 [t2 [E2 [T2 [L2 _]]]]]].
    rewrite E2. unfold try_except, bind, forget_orders, write_echo, emit.
    cbn [env trace current_tp_sl_orders last_profit].
    eexists _, _. split; [reflexivity |]. cbn [trace current_tp_sl_orders].
    rewrite T2, T1. cbn [trace]. rewrite <- !app_assoc.
    split; [reflexivity |]. split; [reflexivity |].
    destruct L1 as [-> | ->], L2 as [-> | ->]; split; reflexivity.
  - exists w, []. unfold try_except, ret. rewrite app_nil_r.
    repeat split; assumption.
Qed.

Lemma orders_of_length (inst_id : string) (algo_orders target_orders : list json) :
  orders_of inst_id algo_orders = Ok target_orders ->
  List.length target_orders <= List.length algo_orders.
Proof.
  revert target_orders.
  induction algo_orders as [| order rest IH]; intros t; cbn [orders_of].
  - intros H. injection H as <-. reflexivity.
  - destruct (py_getitem order "instId") as [inst | e]; cbn [rbind]; [| discriminate].
    destruct (orders_of inst_id rest) as [others | e]; cbn [rbind]; [| discriminate].
    intros H. injection H as <-. specialize (IH others eq_refl).
    destruct (py_eq inst (JStr inst_id)); cbn [List.length]; lia.
Qed.

Lemma cancel_each_spec (inst_id : string) (target_orders : list json) :
  forall (success_count : nat) (w : world Env),
  exists r w' new,
    cancel_each inst_id target_orders success_count w = (r, w')
    /\ trace w' = trace w ++ new
    /\ count_events (posts_to CANCEL_ENDPOINT) new <= List.length target_orders
    /\ count_events (is_error 401) new = 0.
Proof.
  induction target_orders as [| order rest IH]; intros n w; cbn [cancel_each].
  - exists (Ok n), w, []. rewrite app_nil_r. repeat split; auto.
  - unfold bind at 1. unfold try_except.
    destruct (py_getitem order "algoId") as [algo_id | e] eqn:G.
    + unfold bind at 1. unfold lift at 1. cbv iota. unfold bind at 1.
      destruct (cancel_algo_order_once algo_id inst_id w)
        as [b [w1 [tail [E [T [Lt _]]]]]].
      rewrite E. unfold ret at 1.
      match goal with
      | |- context [cancel_each inst_id rest ?c w1] =>
          destruct (IH c w1) as [r [w' [new [E' [T' [C1 C2]]]]]]
      end.
      rewrite E'.
      exists r, w', ([Request (cancel_request algo_id inst_id); tail] ++ new).
      split; [reflexivity |]. split; [rewrite T', T, <- app_assoc; reflexivity |].
      rewrite !count_events_app, C2.
      destruct Lt as [-> | ->]; cbn; split; lia.
    + unfold bind, lift.
      exists (Raise e), w, []. rewrite app_nil_r. repeat split; cbn; auto; lia.
Qed.

(** X18.  [cancel_all_algo_orders] never raises.  It sends at most one
    cancellation for each conditional order listed, and never writes the
    error line of its inner handler (401).  When the list is empty it
    answers [True], and it takes the list for empty when the request for
    it fails: a listing that could not be read is reported as nothing left
    to cancel. *)
Theorem cancel_all_spec (inst_id : string) (w : world Env) :
  exists listed w1 b w' new,
    get_algo_orders w = (Ok listed, w1)
    /\ cancel_all_algo_orders inst_id w = (Ok b, w')
    /\ trace w' = trace w1 ++ new
    /\ count_events (posts_to CANCEL_ENDPOINT) new <= List.length listed
    /\ count_events (is_error 401) new = 0
    /\ (listed = [] -> b = true /\ new = [Echo 381])
    /\ ((exists e s, exchange listing_request (env w) = (Raise e, s)) -> b = true).
Proof.
  destruct (get_algo_orders_total w) as [listed [w1 G]].
  exists listed, w1.
  assert (Failing : (exists e s, exchange listing_request (env w) = (Raise e, s)) ->
                    listed = []).
  { intros [e [s F]]. revert G.
    unfold get_algo_orders, try_except, _make_request. fold listing_request.
    rewrite F. run. intros H. now injection H as <- _. }
  unfold cancel_all_algo_orders. rewrite try_bind, G.
  destruct listed as [| order rest].
  - cbn [is_nil]. run. eexists true, _, [Echo 381].
    split; [reflexivity |]. split; [reflexivity |]. split; [reflexivity |].
    split; [cbn; lia |]. split; [reflexivity |]. split; auto.
  - cbn [is_nil]. rewrite try_bind. unfold lift at 1.
    destruct (orders_of inst_id (order :: rest)) as [targets | e] eqn:O.
    + apply orders_of_length in O.
      destruct targets as [| t ts].
      * cbn [is_nil]. run. eexists true, _, [Echo 388].
        split; [reflexivity |]. split; [reflexivity |]. split; [reflexivity |].
        split; [cbn; lia |]. split; [reflexivity |].
        split; [discriminate |]. intros F. now apply Failing in F.
      * cbn [is_nil]. rewrite try_bind. cbn [write_echo emit]. rewrite try_bind.
        match goal with
        | |- context [cancel_each inst_id (t :: ts) 0 ?x] =>
            destruct (cancel_each_spec inst_id (t :: ts) 0 x)
              as [r [w' [new [E [T [C1 C2]]]]]]
        end.
        rewrite E. destruct r as [count | e]; run;
          eexists _, _, _; (split; [reflexivity |]); (split; [reflexivity |]);
          cbn [trace];
          rewrite T; cbn [trace]; rewrite <- !app_assoc;
          (split; [reflexivity |]); cbn [app];
          match goal with
          | |- context [Echo 391 :: new ++ ?l] =>
              change (Echo 391 :: new ++ l) with ([Echo 391] ++ new ++ l)
          end;
          rewrite !count_events_app, C2;
          (split; [cbn in *; lia |]); (split; [reflexivity |]);
          (split; [discriminate |]); intros F; now apply Failing in F.
    + run. eexists false, _, [Err 407].
      split; [reflexivity |]. split; [reflexivity |]. split; [reflexivity |].
      split; [cbn; lia |]. split; [reflexivity |].
      split; [discriminate |]. intros F. now apply Failing in F.
Qed.

(** ** A bracket that could not be set *)

(** X19.  When [execute_trade] writes that the bracket could not be set
    (line 794), it still answers [True]: the cycle then logs the trade as
    done (line 1351) although the position has no stop-loss and no
    take-profit order. *)
Theorem failed_bracket_reported_as_success
  (decision : json) (current_price : float) (is_test : bool)
  (w w' : world Env) (b : bool) (new : list event) :
  execute_trade decision current_price is_test w = (Ok b, w') ->
  trace w' = trace w ++ new ->
  In (Err 794) new ->
  b = true.
Proof.
  intros E T I.
  pose proof (execute_trade_flagged (fun e => negb (is_error 794 e))) as F. inst F.
  destruct (F decision current_price is_test w) as [n [Tn [Fn | R]]].
  - rewrite E in Tn. cbn [snd] in Tn. rewrite T in Tn.
    apply app_inv_head in Tn. subst n.
    rewrite forallb_forall in Fn. apply Fn in I. discriminate.
  - rewrite E in R. cbn [fst] in R. now injection R.
Qed.

(** ** Prices that are rejected *)


(** ** The test run and the main loop *)

(** X20.  [test_ai_module] cannot fail: it answers [True] whatever the
    exchange and the AI do (an AI that cannot be reached gives the fallback
    decision, which is logged like any other).  It calls the AI exactly
    once and sends no [POST] request. *)
Theorem ai_test_cannot_fail (w : world Env) :
  exists w' new,
    test_ai_module w = (Ok true, w')
    /\ trace w' = trace w ++ new
    /\ forallb (fun e => negb (is_post e)) new = true
    /\ count_events is_ai_call new = 1.
Proof.
  pose (NP := fun e => negb (is_post e) && negb (is_ai_call e)).
  pose proof (ai_test_trace NP) as H. inst H.
  destruct (H w) as [w' [pre [rest [E [T [Fp Fr]]]]]].
  exists w', (pre ++ [AiCall] ++ rest).
  split; [exact E |]. split; [exact T |]. split.
  - rewrite !forallb_app.
    rewrite (forallb_weaken NP _ pre), (forallb_weaken NP _ rest); auto;
      intros e He; apply andb_prop in He; tauto.
  - rewrite !count_events_app.
    rewrite (count_events_none NP is_ai_call pre), (count_events_none NP is_ai_call rest);
      auto; intros e He; apply andb_prop in He; destruct He as [_ He];
      now apply negb_true_iff in He.
Qed.

(** X21.  The test run, which line 33 ([jymkcs]) extends to the trading
    test, never raises and starts no cycle.  It calls the AI at most once,
    and on the account it sends at most 4 market orders, 20 conditional
    orders and 4 cancellations. *)
Theorem test_run_bounds (w : world Env) :
  exists passed w' new,
    run_tests w = (Ok passed, w')
    /\ trace w' = trace w ++ new
    /\ count_events is_ai_call new <= 1
    /\ count_events (posts_to ORDER_ENDPOINT) new <= 4
    /\ count_events (posts_to ALGO_ENDPOINT) new <= 20
    /\ count_events (posts_to CANCEL_ENDPOINT) new <= 4
    /\ count_events (is_echo 1314) new = 0.
Proof.
  unfold run_tests.
  assert (A : at_most (1 + 0) is_ai_call run_full_test).
  { apply test_run_bound with (P := fun e => negb (is_ai_call e)); try in_set.
    - apply ai_test_calls_once with (P := fun e => negb (is_ai_call e)); in_set.
    - apply at_most_none with (P := fun e => negb (is_ai_call e)); [in_set |].
      apply ensures_appends with (Q := fun _ => True).
      apply test_trading_module_emits; in_set. }
  assert (B : at_most (0 + 4) (posts_to ORDER_ENDPOINT) run_full_test).
  { apply test_run_bound with (P := fun e => negb (posts_to ORDER_ENDPOINT e)); try in_set.
    - apply at_most_none with (P := fun e => negb (posts_to ORDER_ENDPOINT e)); [in_set |].
      apply ensures_appends with (Q := fun _ => True).
      apply test_ai_module_emits; in_set.
    - apply trading_test_orders with (P := fun e => negb (posts_to ORDER_ENDPOINT e));
        in_set. }
  assert (C : at_most (0 + 20) (posts_to ALGO_ENDPOINT) run_full_test).
  { apply test_run_bound with (P := fun e => negb (posts_to ALGO_ENDPOINT e)); try in_set.
    - apply at_most_none with (P := fun e => negb (posts_to ALGO_ENDPOINT e)); [in_set |].
      apply ensures_appends with (Q := fun _ => True).
      apply test_ai_module_emits; in_set.
    - apply trading_test_brackets with (P := fun e => negb (posts_to ALGO_ENDPOINT e));
        in_set. }
  assert (D : at_most (0 + 4) (posts_to CANCEL_ENDPOINT) run_full_test).
  { apply test_run_bound with (P := fun e => negb (posts_to CANCEL_ENDPOINT e)); try in_set.
    - apply at_most_none with (P := fun e => negb (posts_to CANCEL_ENDPOINT e)); [in_set |].
      apply ensures_appends with (Q := fun _ => True).
      apply test_ai_module_emits; in_set.
    - apply trading_test_cancels with (P := fun e => negb (posts_to CANCEL_ENDPOINT e));
        in_set. }
  pose proof (run_full_test_emits (fun e => negb (is_echo 1314 e))) as R. inst R.
  destruct (R w) as [passed [w' [new [E [T [F _]]]]]].
  destruct (A w) as [na [Ta Ca]]. destruct (B w) as [nb [Tb Cb]].
  destruct (C w) as [nc [Tc Cc]]. destruct (D w) as [nd [Td Cd]].
  rewrite E in Ta, Tb, Tc, Td. cbn [snd] in Ta, Tb, Tc, Td.
  rewrite T in Ta, Tb, Tc, Td.
  apply app_inv_head in Ta, Tb, Tc, Td. subst na nb nc nd.
  exists passed, w', new. repeat (split; [assumption |]).
  apply (count_events_none _ (is_echo 1314) new) in F; [exact F |].
  intros e H. now apply negb_true_iff in H.
Qed.

(** The first rounds of the main loop: one cycle each, and a pause of
    at least thirty seconds after it. *)
Lemma main_loop_trace (iterations : nat) : forall w : world Env,
  exists w' new,
    main_loop iterations w = (Ok tt, w')
    /\ trace w' = trace w ++ new
    /\ count_events (is_echo 1314) new = iterations
    /\ count_events (is_error 1378) new = 0
    /\ 30 * iterations <= seconds_slept new.
Proof.
  pose proof (cycle_shape (fun e => negb (is_echo 1314 e || is_error 1378 e))) as C.
  inst C. set (NP := fun e => negb (is_echo 1314 e || is_error 1378 e)) in *.
  assert (N1 : forall e, NP e = true -> is_echo 1314 e = false).
  { intros e H. apply negb_true_iff, orb_false_elim in H. tauto. }
  assert (N2 : forall e, NP e = true -> is_error 1378 e = false).
  { intros e H. apply negb_true_iff, orb_false_elim in H. tauto. }
  induction iterations as [| n IH]; intros w; cbn [main_loop].
  - exists w, []. rewrite app_nil_r. repeat split; auto.
  - destruct (C w) as [r [w1 [rest [E [I [T F]]]]]].
    unfold bind at 1. rewrite try_bind, E.
    unfold try_except, bind, write_echo, sleep, emit.
    cbn [env trace current_tp_sl_orders last_profit].
    match goal with
    | |- context [main_loop n ?x] =>
        destruct (IH x) as [w' [new [E' [T' [C1 [C2 S]]]]]]
    end.
    rewrite E'. exists w', ([Echo 1314] ++ rest ++ [Echo 1371; Sleep r] ++ new).
    split; [reflexivity |]. split.
    + rewrite T'. cbn [trace]. rewrite T, <- !app_assoc. reflexivity.
    + rewrite !count_events_app, !seconds_slept_app, C1, C2.
      rewrite (count_events_none NP (is_echo 1314) rest N1 F).
      rewrite (count_events_none NP (is_error 1378) rest N2 F).
      unfold CHECK_PENDING_ORDERS_INTERVAL, AI_FREQUENCY in I.
      change (count_events (is_echo 1314) [Echo 1314]) with 1.
      change (count_events (is_echo 1314) [Echo 1371; Sleep r]) with 0.
      change (count_events (is_error 1378) [Echo 1314]) with 0.
      change (count_events (is_error 1378) [Echo 1371; Sleep r]) with 0.
      change (seconds_slept [Echo 1314]) with 0.
      change (seconds_slept [Echo 1371; Sleep r]) with (r + 0).
      repeat split; lia.
Qed.

(** X22.  The main loop cannot be stopped by an exception: in its first
    [iterations] rounds the handler of line 1377 is never used, each round
    runs one cycle and then pauses, so that the program sleeps at least
    thirty seconds per round; and over these rounds it calls the AI and
    sends a market order at most once per round. *)
Theorem main_loop_rounds (iterations : nat) (w : world Env) :
  exists w' new,
    run_continuously iterations w = (Ok tt, w')
    /\ trace w' = trace w ++ new
    /\ count_events (is_echo 1314) new = iterations
    /\ count_events (is_error 1378) new = 0
    /\ 30 * iterations <= seconds_slept new
    /\ count_events is_ai_call new <= iterations
    /\ count_events (posts_to ORDER_ENDPOINT) new <= iterations.
Proof.
  unfold run_continuously. unfold bind, write_echo, emit.
  cbn [env trace current_tp_sl_orders last_profit].
  match goal with
  | |- context [main_loop iterations ?x] =>
      destruct (main_loop_trace iterations x) as [w' [new [E [T [C1 [C2 S]]]]]];
      set (w0 := x) in *
  end.
  assert (A : at_most (iterations * 1) is_ai_call (main_loop iterations)).
  { apply main_loop_bound with (P := fun e => negb (is_ai_call e)); try in_set.
    apply cycle_calls_once with (P := fun e => negb (is_ai_call e)); in_set. }
  assert (B : at_most (iterations * 1) (posts_to ORDER_ENDPOINT) (main_loop iterations)).
  { apply main_loop_bound with (P := fun e => negb (posts_to ORDER_ENDPOINT e));
      try in_set.
    apply cycle_orders_once with (P := fun e => negb (posts_to ORDER_ENDPOINT e));
      in_set. }
  destruct (A w0) as [na [Ta Ca]]. destruct (B w0) as [nb [Tb Cb]].
  rewrite E in Ta, Tb. cbn [snd] in Ta, Tb. rewrite T in Ta, Tb.
  apply app_inv_head in Ta, Tb. subst na nb.
  rewrite E. exists w', ([Echo 1364] ++ new).
  split; [reflexivity |]. split.
  { rewrite T. subst w0. cbn [trace]. now rewrite <- app_assoc. }
  rewrite !count_events_app, seconds_slept_app, C1, C2.
  change (count_events (is_echo 1314) [Echo 1364]) with 0.
  change (count_events (is_error 1378) [Echo 1364]) with 0.
  change (count_events is_ai_call [Echo 1364]) with 0.
  change (count_events (posts_to ORDER_ENDPOINT) [Echo 1364]) with 0.
  change (seconds_slept [Echo 1364]) with 0.
  repeat split; lia.
Qed.

(** X23.  [main] never raises, and it trades only after a test run that
    passed: when the tests fail it writes line 1396 and stops, without a
    single cycle; when they pass it goes on to the loop, which runs its
    cycles. *)
Theorem main_trades_only_after_tests (iterations : nat) (w : world Env) :
  exists passed w1 w' after,
    run_tests (after_banner w) = (Ok passed, w1)
    /\ main iterations w = (Ok tt, w')
    /\ trace w' = trace w1 ++ after
    /\ if passed
       then count_events (is_echo 1314) after = iterations
       else after = [Err 1396].
Proof.
  pose proof (run_full_test_emits (fun _ => true)) as R. inst R.
  destruct (R (after_banner w)) as [passed [w1 [n [E _]]]].
  exists passed, w1. unfold run_tests.
  assert (M : main iterations w
              = (if passed then write_echo 1393 ;; run_continuously iterations
                 else write_error 1396) w1).
  { unfold main, run_tests.
    unfold bind at 1 2 3 4 5 6.
    change (write_echo 1385 w) with (Ok tt, snd (write_echo 1385 w)). cbv iota.
    unfold after_banner, bind, write_echo, emit in E |- *.
    cbn [snd env trace current_tp_sl_orders last_profit] in E |- *.
    rewrite E. reflexivity. }
  rewrite M. destruct passed.
  - unfold run_continuously, bind, write_echo, emit.
    cbn [env trace current_tp_sl_orders last_profit].
    match goal with
    | |- context [main_loop iterations ?x] =>
        destruct (main_loop_trace iterations x) as [w' [new [E' [T [C1 _]]]]]
    end.
    rewrite E'. exists w', ([Echo 1393; Echo 1364] ++ new).
    split; [exact E |]. split; [reflexivity |]. split.
    + rewrite T. cbn [trace]. now rewrite <- !app_assoc.
    + rewrite count_events_app, C1. reflexivity.
  - eexists _, [Err 1396]. split; [exact E |]. split; [reflexivity |].
    split; reflexivity.
Qed.

(** ** Closing a position *)

(** The facts about [_close_position] that hold on every path, [Open]
    saying that the position was read. *)
Ltac close_start Open :=
  eexists _, _, _; (split; [reflexivity |]); (split; [reflexivity |]);
  cbn [trace env]; rewrite <- ?app_assoc;
  (split; [reflexivity |]); (split; [reflexivity |]); (split; [cbn; lia |]);
  (split; [discriminate |]); (split; [intros X; now apply Open in X |]).

(** A path on which nothing was submitted. *)
Ltac close_unsent Open :=
  close_start Open;
  (split; [intros _ B; discriminate B |]); (split; [intros _ B; discriminate B |]);
  intros _ _; left; reflexivity.

(** The path of [_close_position] from the conversion of the size on. *)
Ltac close_order Open :=
  rewrite try_bind; unfold lift at 1;
  destruct (_convert_eth_to_contracts _) as [sz | e];
  [ rewrite try_bind; cbn [write_echo emit]; rewrite try_bind;
    unfold _make_request at 1; cbn [env trace current_tp_sl_orders last_profit];
    match goal with
    | |- context [exchange (Build_request "POST" ?ep ?ps) ?x] =>
        let S := fresh "Sent" in
        destruct (exchange (Build_request "POST" ep ps) x) as [[data | e] s'] eqn:S;
        run;
        [ close_start Open;
          (split; [intros _ _; reflexivity |]);
          (split; [| intros _ B; discriminate B]);
          intros _ _; (split; [reflexivity |]); eexists _, _;
          (split; [reflexivity |]); (split; [reflexivity | exact S])
        | close_start Open;
          (split; [intros _ B; discriminate B |]);
          (split; [intros _ B; discriminate B |]);
          intros _ _; right; eexists _, _; (split; [reflexivity | exact S]) ]
    end
  | run; close_unsent Open ].

(** X24.  [_close_position] never raises, and sends at most one request
    after reading the position: a market order.  With a position of size
    zero it answers [True] and sends nothing; and a position that could
    not be read counts as one of size zero, so that a failed reading is
    reported as a position closed.  When there is a position, [True]
    means that the action was a closing one, that the order for the size
    read was sent and that the exchange took it; [False] means that
    nothing was sent, or that the exchange refused the order. *)
Theorem close_position_spec (action : string) (w : world Env) :
  exists pos w1 b w' new,
    get_position_info w = (Ok pos, w1)
    /\ _close_position action w = (Ok b, w')
    /\ trace w' = trace w1 ++ new
    /\ forallb (fun e => quiet e || posts_to ORDER_ENDPOINT e) new = true
    /\ count_events (posts_to ORDER_ENDPOINT) new <= 1
    /\ ((position_size pos =? 0)%float = true -> b = true /\ new = [Echo 1021])
    /\ ((exists e s, exchange positions_request (env w) = (Raise e, s)) ->
        b = true /\ new = [Echo 1021])
    /\ ((position_size pos =? 0)%float = false -> b = true ->
        count_events (posts_to ORDER_ENDPOINT) new = 1)
    /\ ((position_size pos =? 0)%float = false -> b = true ->
        String.eqb action "close_long" || String.eqb action "close_short" = true
        /\ exists sz data,
             _convert_eth_to_contracts (position_size pos) = Ok sz
             /\ new = [Echo 1048; Request (close_request action sz); Echo 1050]
             /\ exchange (close_request action sz) (env w1) = (Ok data, env w'))
    /\ ((position_size pos =? 0)%float = false -> b = false ->
        requests_of new = []
        \/ exists sz e,
             requests_of new = [close_request action sz]
             /\ exchange (close_request action sz) (env w1) = (Raise e, env w')).
Proof.
  destruct (get_position_info_total w) as [pos [w1 G]]. exists pos, w1.
  assert (Failing : (exists e s, exchange positions_request (env w) = (Raise e, s)) ->
                    (position_size pos =? 0)%float = true).
  { intros [e [s F]]. revert G.
    unfold get_position_info, try_except, bind, _make_request. fold positions_request.
    rewrite F. run. intros H. now injection H as <- _. }
  unfold _close_position, close_request. rewrite try_bind, G.
  destruct (position_size pos =? 0)%float eqn:Z.
  - run. eexists true, _, [Echo 1021].
    split; [reflexivity |]. split; [reflexivity |]. split; [reflexivity |].
    split; [reflexivity |]. split; [cbn; lia |]. repeat split; auto; discriminate.
  - assert (Open : (exists e s, exchange positions_request (env w) = (Raise e, s)) ->
                   False).
    { intros X. apply Failing in X. discriminate. }
    clear Failing. rewrite try_bind.
    destruct (String.eqb action "close_long");
      [| destruct (String.eqb action "close_short")].
    + unfold ret at 1. cbv iota. close_order Open.
    + unfold ret at 1. cbv iota. close_order Open.
    + unfold raise at 1. cbv iota. run. close_unsent Open.
Qed.

(** ** When the exchange cannot be reached *)

Lemma unreachable_reads (w : world Env) :
  unreachable ->
  (exists w', get_kline_data w = (Ok fallback_klines, w')
              /\ trace w' = trace w ++ [Request candles_request; Err 183])
  /\ (exists w', get_account_balance w = (Ok fallback_balance, w')
                 /\ trace w' = trace w ++ [Request balance_request; Err 253])
  /\ (exists w', get_position_info w = (Ok flat_position, w')
                 /\ trace w' = trace w ++ [Request positions_request; Err 289]).
Proof.
  intros F.
  unfold get_kline_data, get_account_balance, get_position_info,
    try_except, bind, lift, _make_request.
  repeat split;
    match goal with
    | |- context [exchange ?r ?s] => destruct (F r s) as [e [s' ->]]
    end; run; eexists; (split; [reflexivity |]); cbn [trace];
    now rewrite <- app_assoc.
Qed.

(** X25.  With an exchange that cannot be reached, the data test passes:
    its three requests fail, each failure is logged, the candles read as
    the four simulated ones and the balance as 4.51 and 4.52, and the test
    answers [True]. *)
Theorem data_test_passes_offline (w : world Env) :
  unreachable ->
  exists w',
    test_data_collection w = (Ok true, w')
    /\ trace w' = trace w ++ [ Request candles_request; Err 183;
                               Request balance_request; Err 253;
                               Request positions_request; Err 289; Echo 1250 ].
Proof.
  intros F. unfold test_data_collection.
  destruct (unreachable_reads w F) as [[w1 [K T1]] _]. rewrite try_bind, K.
  cbn [is_nil fallback_klines].
  destruct (unreachable_reads w1 F) as [_ [[w2 [B T2]] _]]. rewrite try_bind, B.
  assert (Z : ((available_OKX fallback_balance =? 0)
               && (total_equity fallback_balance =? 0))%float = false)
    by (vm_compute; reflexivity).
  rewrite Z.
  destruct (unreachable_reads w2 F) as [_ [_ [w3 [I T3]]]]. rewrite try_bind, I.
  run. eexists. split; [reflexivity |]. cbn [trace].
  rewrite T3, T2, T1, <- !app_assoc. reflexivity.
Qed.

Lemma failed_candles_read (w : world Env) (e : exn) (s : Env) :
  exchange candles_request (env w) = (Raise e, s) ->
  exists w', get_kline_data w = (Ok fallback_klines, w').
Proof.
  intros F. unfold get_kline_data, try_except, bind, _make_request.
  fold candles_request. rewrite F. run. eauto.
Qed.

Lemma well_formed_truthy (d : json) : well_formed d = true -> py_truthy d = true.
Proof.
  intros WF.
  destruct (well_formed_inv _ WF) as (td & a & pm & vs & xs & vl & xl & vt & xt & Htd & _).
  destruct d as [| b | x | s | l | m]; try discriminate.
  destruct m as [| kv m]; [discriminate | reflexivity].
Qed.

(** X26.  A cycle does not stop when the candles cannot be read: with
    nothing pending and a failing request for the candles, the AI is asked
    to decide on the four simulated candles of lines 185-220, at the price
    3505, and its decision is executed with that price as the current
    price. *)
Theorem failed_candles_are_simulated (w w1 : world Env) (e : exn) (s : Env) :
  has_pending_orders_or_tpsl (snd (write_echo 1314 w)) = (Ok false, w1) ->
  exchange candles_request (env w1) = (Raise e, s) ->
  exists w2 account_status w3 position_info w4 d w5 b w6 w',
    get_kline_data (snd (write_echo 1323 w1)) = (Ok fallback_klines, w2)
    /\ get_account_balance (snd (write_echo 1334 w2)) = (Ok account_status, w3)
    /\ get_position_info w3 = (Ok position_info, w4)
    /\ get_trading_decision 3505%float fallback_klines account_status position_info w4
       = (Ok d, w5)
    /\ execute_trade d 3505%float false w5 = (Ok b, w6)
    /\ run_dynamic_cycle w = (Ok AI_FREQUENCY, w')
    /\ trace w' = trace w6 ++ [Echo (if b then 1351 else 1353); Echo 1355].
Proof.
  intros H F.
  destruct (failed_candles_read (snd (write_echo 1323 w1)) e s F) as [w2 K].
  destruct (get_account_balance_total (snd (write_echo 1334 w2)))
    as [account_status [w3 B]].
  destruct (get_position_info_total w3) as [position_info [w4 I]].
  pose proof (decision_trace (fun _ => true)) as D. inst D.
  destruct (D 3505%float fallback_klines account_status position_info w4)
    as [d [w5 [rest [G [_ [_ WF]]]]]].
  pose proof (execute_trade_emits (fun _ => true)) as X. inst X.
  destruct (X d 3505%float false w5) as [b [w6 [n [E _]]]].
  assert (C : run_dynamic_cycle w
              = ((if b then write_echo 1351 else write_echo 1353) ;;
                 write_echo 1355 ;; ret AI_FREQUENCY) w6).
  { unfold run_dynamic_cycle. rewrite try_bind.
    change (write_echo 1314 w) with (Ok tt, snd (write_echo 1314 w)). cbv iota.
    rewrite try_bind, H. cbv iota. rewrite try_bind.
    change (write_echo 1323 w1) with (Ok tt, snd (write_echo 1323 w1)). cbv iota.
    rewrite try_bind, K. cbv beta zeta iota.
    change (match fallback_klines with
            | k :: _ => k_close k
            | [] => 0%float
            end) with 3505%float.
    rewrite try_bind.
    change (write_echo 1334 w2) with (Ok tt, snd (write_echo 1334 w2)). cbv iota.
    rewrite try_bind, B. rewrite try_bind, I. rewrite try_bind, G.
    rewrite (well_formed_truthy d WF).
    unfold try_except, bind. rewrite E. now destruct b. }
  exists w2, account_status, w3, position_info, w4, d, w5, b, w6.
  exists (snd (((if b then write_echo 1351 else write_echo 1353) ;;
                write_echo 1355 ;; ret AI_FREQUENCY) w6)).
  repeat (split; [assumption |]). rewrite C.
  destruct b; run; (split; [reflexivity |]); now rewrite <- app_assoc.
Qed.

(** ** The profit of the last strategy *)

Lemma keeps_ret {A : Type} (a : A) : keeps_profit (ret a).
Proof. intro w. reflexivity. Qed.

Lemma keeps_raise {A : Type} (e : exn) : keeps_profit (raise e : M Env A).
Proof. intro w. reflexivity. Qed.

Lemma keeps_lift {A : Type} (r : res A) : keeps_profit (lift r).
Proof. intro w. reflexivity. Qed.

Lemma keeps_emit (e : event) : keeps_profit (emit e).
Proof. intro w. reflexivity. Qed.

Lemma keeps_bind {A B : Type} (m : M Env A) (k : A -> M Env B) :
  keeps_profit m -> (forall a, keeps_profit (k a)) -> keeps_profit (bind m k).
Proof.
  intros Hm Hk w. unfold bind. specialize (Hm w).
  destruct (m w) as [[a | e] w1]; cbn [snd] in *; [| exact Hm].
  now rewrite Hk.
Qed.

Lemma keeps_try {A : Type} (m : M Env A) (h : exn -> M Env A) :
  keeps_profit m -> (forall e, keeps_profit (h e)) -> keeps_profit (try_except m h).
Proof.
  intros Hm Hh w. unfold try_except. specialize (Hm w).
  destruct (m w) as [[a | e] w1]; cbn [snd] in *; [exact Hm |].
  now rewrite Hh.
Qed.

Lemma keeps_request (method path : string) (ps : list (string * string)) :
  keeps_profit (_make_request method path ps).
Proof. intro w. unfold _make_request. now destruct (exchange _ (env w)). Qed.

Lemma keeps_ask_ai (current_price : float) (klines : list kline)
  (account_status : balance) (position_info : position) :
  keeps_profit (ask_ai current_price klines account_status position_info).
Proof. intro w. unfold ask_ai. now destruct (deepseek _ (env w)). Qed.

Lemma keeps_record (ids : json * json) : keeps_profit (record_orders ids).
Proof. intro w. reflexivity. Qed.

Lemma keeps_forget : keeps_profit forget_orders.
Proof. intro w. reflexivity. Qed.

Lemma keeps_recorded : keeps_profit recorded_orders.
Proof. intro w. reflexivity. Qed.

Create HintDb keeps_db.

(** [keeps] follows the text of a function; the functions already dealt
    with are in the hint database. *)
Ltac keeps :=
  repeat lazymatch goal with
         | |- keeps_profit (bind _ _) => apply keeps_bind; [| intros ?]
         | |- keeps_profit (try_except _ _) => apply keeps_try; [| intros ?]
         | |- keeps_profit (ret _) => apply keeps_ret
         | |- keeps_profit (raise _) => apply keeps_raise
         | |- keeps_profit (lift _) => apply keeps_lift
         | |- keeps_profit (emit _) => apply keeps_emit
         | |- keeps_profit (write_echo _) => apply keeps_emit
         | |- keeps_profit (write_error _) => apply keeps_emit
         | |- keeps_profit (sleep _) => apply keeps_emit
         | |- keeps_profit (_make_request _ _ _) => apply keeps_request
         | |- keeps_profit (ask_ai _ _ _ _) => apply keeps_ask_ai
         | |- keeps_profit (record_orders _) => apply keeps_record
         | |- keeps_profit forget_orders => apply keeps_forget
         | |- keeps_profit recorded_orders => apply keeps_recorded
         | |- keeps_profit (match ?x with _ => _ end) => destruct x
         | |- keeps_profit (let _ := _ in _) => cbv zeta
         | |- _ => solve [auto with keeps_db]
         end.

Lemma get_pending_orders_keeps : keeps_profit get_pending_orders.
Proof. unfold get_pending_orders. keeps. Qed.

Lemma get_algo_orders_keeps_profit : keeps_profit get_algo_orders.
Proof. unfold get_algo_orders. keeps. Qed.

Lemma get_position_info_keeps : keeps_profit get_position_info.
Proof. unfold get_position_info. keeps. Qed.

Lemma get_kline_data_keeps : keeps_profit get_kline_data.
Proof. unfold get_kline_data. keeps. Qed.

Lemma get_account_balance_keeps : keeps_profit get_account_balance.
Proof. unfold get_account_balance. keeps. Qed.

Lemma get_current_price_keeps : keeps_profit get_current_price.
Proof. unfold get_current_price. keeps. Qed.

#[local] Hint Resolve get_pending_orders_keeps get_algo_orders_keeps_profit
  get_position_info_keeps get_kline_data_keeps get_account_balance_keeps
  get_current_price_keeps : keeps_db.

Lemma has_pending_keeps : keeps_profit has_pending_orders_or_tpsl.
Proof. unfold has_pending_orders_or_tpsl. keeps. Qed.

Lemma cancel_algo_order_keeps (algo_id : json) (inst_id : string) :
  keeps_profit (cancel_algo_order algo_id inst_id).
Proof. unfold cancel_algo_order. keeps. Qed.

Lemma place_order_keeps (action : string) (eth_size : float) :
  keeps_profit (_place_order action eth_size).
Proof. unfold _place_order, order_failed, diagnose_order_failure. keeps. Qed.

Lemma entry_price_attempts_keeps (wait_seconds remaining : nat) :
  keeps_profit (entry_price_attempts wait_seconds remaining).
Proof.
  induction remaining as [| rest IH]; cbn [entry_price_attempts]; keeps; exact IH.
Qed.

Lemma entry_price_keeps : keeps_profit _get_entry_price_with_retry.
Proof. apply entry_price_attempts_keeps. Qed.

Lemma place_tp_sl_order_keeps (pos_side : string) (eth_size tp_price sl_price : float) :
  keeps_profit (_place_tp_sl_order pos_side eth_size tp_price sl_price).
Proof. unfold _place_tp_sl_order. keeps. Qed.

Lemma verify_keeps (algo_ids : json * json) :
  keeps_profit (_verify_tp_sl_orders_exist algo_ids).
Proof. unfold _verify_tp_sl_orders_exist. keeps. Qed.

#[local] Hint Resolve has_pending_keeps cancel_algo_order_keeps place_order_keeps
  entry_price_keeps place_tp_sl_order_keeps verify_keeps : keeps_db.

Lemma tp_sl_attempt_keeps (pos_side : string) (eth_size tp_price sl_price : float) :
  keeps_profit (tp_sl_attempt pos_side eth_size tp_price sl_price).
Proof. unfold tp_sl_attempt. keeps. Qed.

#[local] Hint Resolve tp_sl_attempt_keeps : keeps_db.

Lemma tp_sl_attempts_keeps (pos_side : string) (eth_size tp_price sl_price : float)
  (remaining : nat) :
  keeps_profit (tp_sl_attempts pos_side eth_size tp_price sl_price remaining).
Proof.
  induction remaining as [| rest IH]; cbn [tp_sl_attempts]; keeps; exact IH.
Qed.

#[local] Hint Resolve tp_sl_attempts_keeps : keeps_db.

Lemma bracket_retry_keeps (pos_side : string) (eth_size tp_price sl_price : float)
  (max_retries : nat) :
  keeps_profit
    (_place_tp_sl_orders_with_retry pos_side eth_size tp_price sl_price max_retries).
Proof. unfold _place_tp_sl_orders_with_retry. keeps. Qed.

#[local] Hint Resolve bracket_retry_keeps : keeps_db.

Lemma execute_trade_keeps (decision : json) (current_price : float) (is_test : bool) :
  keeps_profit (execute_trade decision current_price is_test).
Proof.
  unfold execute_trade, after_open, bracket_prices, checked_bracket. keeps.
Qed.

Lemma get_trading_decision_keeps (current_price : float) (klines : list kline)
  (account_status : balance) (position_info : position) :
  keeps_profit (get_trading_decision current_price klines account_status position_info).
Proof. unfold get_trading_decision. keeps. Qed.

Lemma cancel_current_keeps : keeps_profit _cancel_current_tp_sl_orders.
Proof. unfold _cancel_current_tp_sl_orders. keeps. Qed.

Lemma close_position_keeps (action : string) : keeps_profit (_close_position action).
Proof. unfold _close_position. keeps. Qed.

#[local] Hint Resolve execute_trade_keeps get_trading_decision_keeps
  cancel_current_keeps close_position_keeps : keeps_db.

Lemma cycle_keeps : keeps_profit run_dynamic_cycle.
Proof. unfold run_dynamic_cycle. keeps. Qed.

Lemma test_trading_module_keeps : keeps_profit test_trading_module.
Proof. unfold test_trading_module, test_entry_price. keeps. Qed.

Lemma test_data_collection_keeps : keeps_profit test_data_collection.
Proof. unfold test_data_collection. keeps. Qed.

Lemma test_ai_module_keeps : keeps_profit test_ai_module.
Proof. unfold test_ai_module. keeps. Qed.

#[local] Hint Resolve cycle_keeps test_trading_module_keeps
  test_data_collection_keeps test_ai_module_keeps : keeps_db.

Lemma run_full_test_keeps : keeps_profit run_full_test.
Proof. unfold run_full_test, jymkcs. keeps. Qed.

Lemma main_loop_keeps (iterations : nat) : keeps_profit (main_loop iterations).
Proof.
  induction iterations as [| rest IH]; cbn [main_loop]; keeps; exact IH.
Qed.

#[local] Hint Resolve run_full_test_keeps main_loop_keeps : keeps_db.

(** X27.  [update_profit] is the one function that changes [last_profit],
    and nothing calls it: a cycle and the whole main program, test run and
    loop, leave the figure as it was.  The profit of the last strategy
    that the prompt reports to the AI is therefore always the one the
    object was built with. *)
Theorem profit_never_updated (iterations : nat) (profit : float) (w : world Env) :
  last_profit (snd (update_profit profit w)) = profit
  /\ last_profit (snd (run_dynamic_cycle w)) = last_profit w
  /\ last_profit (snd (main iterations w)) = last_profit w.
Proof.
  split; [reflexivity |]. split; [apply cycle_keeps |].
  assert (K : keeps_profit (main iterations)).
  { unfold main, run_tests, run_continuously. keeps. }
  apply K.
Qed.

End Bot.

(** * The program on the examples *)

(** C1, at the response [loose_response].  The whole response parses, and
    [_validate_decision_format] accepts it because [in] on a string is a
    substring test; the parser returns it as the decision.  Its member
    [position_management] is a string, not an object: the decision is not
    valid under the schema, and reading a field of that member raises. *)
Theorem parser_returns_non_object_member :
  let pm := JStr "position_size stop_loss_price take_profit_price" in
  let d := JObj [ ("trading_decision",
                   JObj [ ("action", JStr "hold");
                          ("confidence_level", JStr "low");
                          ("reason", JStr "x") ]);
                  ("position_management", pm) ] in
  _parse_ai_response ascii_lib loose_response = Ok d
  /\ _validate_decision_format d = true
  /\ schema_valid d = false
  /\ py_getitem pm "position_size" = Raise TypeError.
Proof. vm_compute. repeat split; reflexivity. Qed.

(** C5, at an [open_long] decision whose take-profit price is NaN, the
    position entered at 3500.  The response [nan_target_response] parses to
    this decision.  NaN is not above 3500, yet the check of lines 776-779
    does not reject the prices ([NaN <= 3500] is false), and
    [execute_trade] goes on to submit the two conditional orders. *)
Theorem nan_target_passes_price_check :
  let decision := make_decision "open_long" "high" "breakout" 0.005 3400 nan in
  let run := execute_trade ascii_lib demo_state (demo_exchange true true)
               decision 3500 false (start idle) in
  _parse_ai_response ascii_lib nan_target_response = Ok decision
  /\ (3500 <? nan)%float = false
  /\ prices_rejected "open_long" nan 3400 3500 = false
  /\ fst run = Ok true
  /\ map endpoint (requests_of (trace (snd run)))
     = [ "/api/v5/trade/order"; "/api/v5/account/positions";
         "/api/v5/trade/order-algo"; "/api/v5/trade/order-algo";
         "/api/v5/trade/orders-algo-pending" ].
Proof. vm_compute. repeat split; reflexivity. Qed.

(** C6, at a decision whose size is NaN.  The response [nan_size_response]
    parses to it.  NaN is neither below the minimum nor above the maximum,
    so the clamp leaves it: the size after the clamp is not 0 and is not
    between the bounds.  ([execute_trade] then places no order, since NaN
    is not positive.) *)
Theorem nan_size_survives_clamp :
  let decision := make_decision "open_long" "high" "breakout" nan 3400 3600 in
  let run := execute_trade ascii_lib demo_state (demo_exchange true true)
               decision 3500 false (start idle) in
  _parse_ai_response ascii_lib nan_size_response = Ok decision
  /\ clamp_size nan = nan
  /\ (clamp_size nan =? 0)%float = false
  /\ (MIN_ORDER_SIZE <=? clamp_size nan)%float = false
  /\ (clamp_size nan <=? MAX_ORDER_SIZE)%float = false
  /\ fst run = Ok true
  /\ trace (snd run) = [Echo 737; Echo 797].
Proof. vm_compute. repeat split; reflexivity. Qed.

(** C7 as stated fails at [wrapped_response]: the whole text is not JSON
    and the template pattern finds no candidate, the text from the first
    opening brace to the last closing brace parses to a valid decision (size
    0.005, confidence high), and the v5 parser does not return it: it
    returns the decision of the field-by-field tier (size 0, confidence
    medium). *)
Lemma brace_tier_skipped_in_v5 :
  parse_whole ascii_lib _validate_decision_format wrapped_response = None
  /\ re_findall ascii_lib template_pattern wrapped_response = Ok []
  /\ (exists d,
        spec_brace_tier ascii_lib wrapped_response = Some d
        /\ _validate_decision_format d = true
        /\ _parse_ai_response ascii_lib wrapped_response <> Ok d)
  /\ _parse_ai_response ascii_lib wrapped_response
     = Ok (make_decision "open_long" "medium" "breakout" 0 0 0).
Proof.
  split; [vm_compute; reflexivity |].
  split; [vm_compute; reflexivity |].
  split; [| vm_compute; reflexivity].
  eexists. split; [vm_compute; reflexivity |].
  split; [vm_compute; reflexivity |].
  vm_compute. discriminate.
Qed.

(** ** Instances of the theorems that have hypotheses *)

(** C7 amended.  At [wrapped_response] the first two tiers of both
    versions fail: v5 gives the field-by-field decision, v1 the
    brace-to-brace one.  At [closing_response] the first two tiers of v5
    fail (v1 accepts the whole response): v5 gives the field-by-field
    decision.  At [oversized_response] the first two tiers of v1 fail (the
    second tier of v5 succeeds): v1 gives the brace-to-brace decision. *)
Lemma brace_tier_only_in_v1_witness :
  (parse_whole ascii_lib _validate_decision_format wrapped_response = None
   /\ (forall matches, re_findall ascii_lib template_pattern wrapped_response = Ok matches ->
                       first_valid_match ascii_lib matches = None)
   /\ parse_whole ascii_lib V1._validate_decision_format wrapped_response = None
   /\ (forall matches, re_findall ascii_lib nested_pattern wrapped_response = Ok matches ->
                       V1.first_valid_match ascii_lib matches = None)
   /\ _parse_ai_response ascii_lib wrapped_response
      = Ok (match re_findall ascii_lib template_pattern wrapped_response,
                 _build_standard_decision_from_response ascii_lib wrapped_response with
            | Ok _, Ok d => d
            | _, _ => parse_failure_decision
            end)
   /\ V1._parse_ai_response ascii_lib wrapped_response
      = Ok (match re_findall ascii_lib nested_pattern wrapped_response,
                 V1.boundary_match ascii_lib wrapped_response with
            | Ok _, Some d => d
            | _, _ => parse_failure_decision
            end))
  /\ (parse_whole ascii_lib _validate_decision_format closing_response = None
      /\ (forall matches,
            re_findall ascii_lib template_pattern closing_response = Ok matches ->
            first_valid_match ascii_lib matches = None)
      /\ _parse_ai_response ascii_lib closing_response
         = Ok (match re_findall ascii_lib template_pattern closing_response,
                    _build_standard_decision_from_response ascii_lib closing_response with
               | Ok _, Ok d => d
               | _, _ => parse_failure_decision
               end))
  /\ (parse_whole ascii_lib V1._validate_decision_format oversized_response = None
      /\ (forall matches,
            re_findall ascii_lib nested_pattern oversized_response = Ok matches ->
            V1.first_valid_match ascii_lib matches = None)
      /\ V1._parse_ai_response ascii_lib oversized_response
         = Ok (match re_findall ascii_lib nested_pattern oversized_response,
                    V1.boundary_match ascii_lib oversized_response with
               | Ok _, Some d => d
               | _, _ => parse_failure_decision
               end)).
Proof.
  assert (H1 : parse_whole ascii_lib _validate_decision_format wrapped_response = None)
    by (vm_compute; reflexivity).
  assert (H2 : forall matches,
             re_findall ascii_lib template_pattern wrapped_response = Ok matches ->
             first_valid_match ascii_lib matches = None).
  { intros matches H. vm_compute in H. injection H as <-. reflexivity. }
  assert (H3 : parse_whole ascii_lib V1._validate_decision_format wrapped_response = None)
    by (vm_compute; reflexivity).
  assert (H4 : forall matches,
             re_findall ascii_lib nested_pattern wrapped_response = Ok matches ->
             V1.first_valid_match ascii_lib matches = None).
  { intros matches H. vm_compute in H. injection H as <-. reflexivity. }
  assert (H5 : parse_whole ascii_lib _validate_decision_format closing_response = None)
    by (vm_compute; reflexivity).
  assert (H6 : forall matches,
             re_findall ascii_lib template_pattern closing_response = Ok matches ->
             first_valid_match ascii_lib matches = None).
  { intros matches H. vm_compute in H. injection H as <-. vm_compute. reflexivity. }
  assert (H7 : parse_whole ascii_lib V1._validate_decision_format oversized_response = None)
    by (vm_compute; reflexivity).
  assert (H8 : forall matches,
             re_findall ascii_lib nested_pattern oversized_response = Ok matches ->
             V1.first_valid_match ascii_lib matches = None).
  { intros matches H. vm_compute in H. injection H as <-. reflexivity. }
  split; [| split].
  - split; [exact H1 |]. split; [exact H2 |]. split; [exact H3 |]. split; [exact H4 |].
    split.
    + exact (proj1 (brace_tier_only_in_v1 ascii_lib wrapped_response) H1 H2).
    + exact (proj2 (brace_tier_only_in_v1 ascii_lib wrapped_response) H3 H4).
  - split; [exact H5 |]. split; [exact H6 |].
    exact (proj1 (brace_tier_only_in_v1 ascii_lib closing_response) H5 H6).
  - split; [exact H7 |]. split; [exact H8 |].
    exact (proj2 (brace_tier_only_in_v1 ascii_lib oversized_response) H7 H8).
Defined.

(** C9, at [prose_response]: the tier builds the default decision, and
    executing it sends nothing. *)
Lemma heuristic_decision_witness :
  _build_standard_decision_from_response ascii_lib prose_response
  = Ok (make_decision "hold" "medium" DEFAULT_REASON 0 0 0)
  /\ (exists action reason,
        make_decision "hold" "medium" DEFAULT_REASON 0 0 0
        = make_decision action "medium" reason 0 0 0)
  /\ forall current_price is_test w, exists b w' new,
       execute_trade ascii_lib demo_state (demo_exchange true true)
         (make_decision "hold" "medium" DEFAULT_REASON 0 0 0) current_price is_test w
       = (Ok b, w')
       /\ trace w' = trace w ++ new /\ requests_of new = [].
Proof.
  assert (H : _build_standard_decision_from_response ascii_lib prose_response
              = Ok (make_decision "hold" "medium" DEFAULT_REASON 0 0 0))
    by (vm_compute; reflexivity).
  split; [exact H |].
  exact (heuristic_decision_never_orders ascii_lib demo_state (demo_exchange true true)
           prose_response _ H).
Defined.

(** C10, with a position held and nothing protecting it: the routine
    answers [True] for the side [flat], sends nothing, and the exchange
    still lists no conditional order. *)
Lemma flat_or_empty_witness :
  ("flat" = "flat" \/ (0.005 <=? 0)%float = true)
  /\ (exists w',
        _place_tp_sl_orders_with_retry ascii_lib demo_state (demo_exchange true true)
          "flat" 0.005 3600 3400 5 (start holding) = (Ok true, w')
        /\ trace w' = trace (start holding) ++ [Echo 828]
        /\ requests_of (trace w') = requests_of (trace (start holding))
        /\ env w' = env (start holding)
        /\ current_tp_sl_orders w' = current_tp_sl_orders (start holding))
  /\ fst (get_algo_orders demo_state (demo_exchange true true) (start holding)) = Ok [].
Proof.
  split; [left; reflexivity |]. split.
  - exact (flat_or_empty_returns_true_unverified ascii_lib demo_state
             (demo_exchange true true) "flat" 0.005 3600 3400 5 (start holding)
             (or_introl eq_refl)).
  - reflexivity.
Defined.


(** [parse_failure_holds] at [prose_response]. *)
Lemma parse_failure_holds_witness :
  exists d td pm,
    _parse_ai_response ascii_lib prose_response = Ok d
    /\ py_getitem d "trading_decision" = Ok td
    /\ py_getitem td "action" = Ok (JStr "hold")
    /\ py_getitem d "position_management" = Ok pm
    /\ py_getitem pm "position_size" = Ok (JNum 0).
Proof.
  apply (parse_failure_holds ascii_lib prose_response).
  - vm_compute. reflexivity.
  - intros matches H. vm_compute in H. injection H as <-. reflexivity.
  - intros a H. vm_compute in H. discriminate.
Defined.

(** [clamp_of_number] at the size 0.5 of the specification's first
    example, which the clamp brings down to the maximum. *)
Lemma clamp_of_number_witness :
  (0.5 =? 0.5)%float = true
  /\ clamp_size 0.5 = MAX_ORDER_SIZE
  /\ (clamp_size 0.5 = 0%float
      \/ ((MIN_ORDER_SIZE <=? clamp_size 0.5)
          && (clamp_size 0.5 <=? MAX_ORDER_SIZE))%float = true).
Proof.
  split; [reflexivity |]. split; [reflexivity |].
  exact (proj2 (proj2 (clamp_of_number 0.5 eq_refl))).
Defined.

(** [price_check_of_numbers] at the prices of the specification's second
    example: entry 3500, take-profit 3400, stop-loss 3600, rejected for a
    long position (and accepted for a short one). *)
Lemma price_check_of_numbers_witness :
  prices_rejected "open_long" 3400 3600 3500 = true
  /\ (prices_rejected "open_long" 3400 3600 3500 = false
      <-> (3500 <? 3400)%float = true /\ (3600 <? 3500)%float = true)
  /\ (prices_rejected "open_short" 3400 3600 3500 = false
      <-> (3400 <? 3500)%float = true /\ (3500 <? 3600)%float = true).
Proof.
  split; [reflexivity |].
  exact (price_check_of_numbers 3400 3600 3500 eq_refl eq_refl eq_refl).
Defined.

(** [exposed_cycle_only_reads], with a position held: the cycle returns
    the short interval. *)
Lemma exposed_cycle_witness :
  exists new,
    trace (snd (run_dynamic_cycle ascii_lib demo_state (demo_exchange true true)
                  (demo_ai prose_response) (start holding)))
    = trace (start holding) ++ new
    /\ forallb reads_only new = true.
Proof.
  apply (exposed_cycle_only_reads ascii_lib demo_state (demo_exchange true true)
           (demo_ai prose_response) (start holding)).
  vm_compute. reflexivity.
Defined.

(** [validator_exact_on_objects] at the default decision of the
    field-by-field tier. *)
Lemma validator_exact_witness :
  loose_member (make_decision "hold" "medium" DEFAULT_REASON 0 0 0) = false
  /\ _validate_decision_format (make_decision "hold" "medium" DEFAULT_REASON 0 0 0)
     = schema_valid (make_decision "hold" "medium" DEFAULT_REASON 0 0 0).
Proof.
  split; [reflexivity |].
  exact (validator_exact_on_objects (make_decision "hold" "medium" DEFAULT_REASON 0 0 0)
           eq_refl).
Defined.

(** [v1_accepts_what_v5_accepts] at a decision to open a long position. *)
Lemma v1_accepts_witness :
  _validate_decision_format (make_decision "open_long" "high" "breakout" 0.005 3400 3600)
  = true
  /\ V1._validate_decision_format
       (make_decision "open_long" "high" "breakout" 0.005 3400 3600) = true.
Proof.
  split; [reflexivity |].
  exact (v1_accepts_what_v5_accepts
           (make_decision "open_long" "high" "breakout" 0.005 3400 3600) eq_refl).
Defined.

(** [built_reason_never_empty] at [prose_response]: the reason is the
    default sentence. *)
Lemma built_reason_witness :
  exists td reason,
    py_getitem (make_decision "hold" "medium" DEFAULT_REASON 0 0 0) "trading_decision"
    = Ok td
    /\ py_getitem td "reason" = Ok (JStr reason)
    /\ nonempty reason = true.
Proof.
  apply (built_reason_never_empty ascii_lib prose_response).
  vm_compute. reflexivity.
Defined.

(** [refused_stop_loss_leaves_orphan] with an exchange that takes the first
    conditional order and refuses the second. *)
Lemma refused_stop_loss_witness :
  exists w' new,
    tp_sl_attempt ascii_lib demo_state one_order_exchange "long" 0.005 3600 3400
      (start holding) = (Ok false, w')
    /\ trace w' = trace (start holding) ++ new
    /\ requests_of new
       = [algo_request ascii_lib "long" "<float>" "tp" 3600;
          algo_request ascii_lib "long" "<float>" "sl" 3400]
    /\ env w' = {| filled := true; accepted := 1 |}
    /\ current_tp_sl_orders w' = current_tp_sl_orders (start holding).
Proof.
  apply (refused_stop_loss_leaves_orphan ascii_lib demo_state one_order_exchange
           "long" 0.005 3600 3400 (start holding) "<float>"
           (JObj [("algoId", JStr "I")]) [] (JStr "I")
           {| filled := true; accepted := 1 |} {| filled := true; accepted := 1 |}
           (ApiError "API错误: order rejected")).
  - left. reflexivity.
  - vm_compute. reflexivity.
  - vm_compute. reflexivity.
  - reflexivity.
  - vm_compute. reflexivity.
Defined.

(** [failed_bracket_reported_as_success] with an exchange that fills the
    market order and refuses every conditional order: the five attempts
    fail, line 794 is written, and the answer is [True]. *)
Lemma failed_bracket_witness :
  let run := execute_trade ascii_lib demo_state (demo_exchange false false)
               (make_decision "open_long" "high" "breakout" 0.005 3400 3600)
               3500 false (start idle) in
  In (Err 794) (trace (snd run))
  /\ match fst run with
     | Ok b => b
     | Raise _ => false
     end = true.
Proof.
  set (run := execute_trade ascii_lib demo_state (demo_exchange false false)
                (make_decision "open_long" "high" "breakout" 0.005 3400 3600)
                3500 false (start idle)).
  cbv zeta.
  assert (I : In (Err 794) (trace (snd run))).
  { vm_compute. repeat (first [left; reflexivity | right]). }
  split; [exact I |].
  apply (failed_bracket_reported_as_success ascii_lib demo_state
           (demo_exchange false false)
           (make_decision "open_long" "high" "breakout" 0.005 3400 3600)
           3500 false (start idle) (snd run)
           (match fst run with
            | Ok b => b
            | Raise _ => false
            end)
           (trace (snd run))).
  - vm_compute. reflexivity.
  - reflexivity.
  - exact I.
Defined.

(** [data_test_passes_offline] with [dead_exchange]. *)
Lemma data_test_offline_witness :
  exists w',
    test_data_collection ascii_lib unit dead_exchange (start tt) = (Ok true, w')
    /\ trace w'
       = trace (start tt)
         ++ [ Request candles_request; Err 183; Request balance_request; Err 253;
              Request positions_request; Err 289; Echo 1250 ].
Proof.
  apply (data_test_passes_offline ascii_lib unit dead_exchange (start tt)).
  intros r s. exists (ApiError "网络请求失败"), s. reflexivity.
Defined.

(** [failed_candles_are_simulated] with [demo_exchange], which has nothing
    pending at the start and does not answer the request for the candles. *)
Lemma failed_candles_witness :
  let w := start idle in
  let w1 := snd (has_pending_orders_or_tpsl ascii_lib demo_state (demo_exchange true true)
                   (snd (write_echo 1314 w))) in
  exists w2 account_status w3 position_info w4 d w5 b w6 w',
    get_kline_data ascii_lib demo_state (demo_exchange true true)
      (snd (write_echo 1323 w1)) = (Ok fallback_klines, w2)
    /\ get_account_balance ascii_lib demo_state (demo_exchange true true)
         (snd (write_echo 1334 w2)) = (Ok account_status, w3)
    /\ get_position_info ascii_lib demo_state (demo_exchange true true) w3
       = (Ok position_info, w4)
    /\ get_trading_decision ascii_lib demo_state (demo_ai prose_response)
         3505%float fallback_klines account_status position_info w4 = (Ok d, w5)
    /\ execute_trade ascii_lib demo_state (demo_exchange true true) d 3505%float false w5
       = (Ok b, w6)
    /\ run_dynamic_cycle ascii_lib demo_state (demo_exchange true true)
         (demo_ai prose_response) w = (Ok AI_FREQUENCY, w')
    /\ trace w' = trace w6 ++ [Echo (if b then 1351 else 1353); Echo 1355].
Proof.
  cbv zeta.
  apply (failed_candles_are_simulated ascii_lib demo_state (demo_exchange true true)
           (demo_ai prose_response) (start idle) _ (ApiError "网络请求失败") idle).
  - vm_compute. reflexivity.
  - vm_compute. reflexivity.
Defined.


(** ** The examples of the specification *)

(** Example 1: the second tier finds the object after the prose; the action
    is [open_long] and the size 0.5 is clamped to the maximum. *)
Example oversized_size_is_clamped :
  _parse_ai_response ascii_lib oversized_response
  = Ok (make_decision "open_long" "high" "breakout" 0.5 3400 3600)
  /\ clamp_size 0.5 = MAX_ORDER_SIZE.
Proof. vm_compute. split; reflexivity. Qed.

(** Example 3: nothing pending and no position; the check answers [False],
    the AI is asked, and the cycle ends with the long interval.  Here the
    answer is prose, so the decision is [hold] and no order is sent. *)
Example idle_cycle_asks_the_ai :
  let run := run_dynamic_cycle ascii_lib demo_state (demo_exchange true true)
               (demo_ai prose_response) (start idle) in
  fst (has_pending_orders_or_tpsl ascii_lib demo_state (demo_exchange true true)
         (start idle))
  = Ok false
  /\ fst run = Ok AI_FREQUENCY
  /\ existsb (fun e => match e with AiCall => true | _ => false end) (trace (snd run)) = true
  /\ filter (to ORDER_ENDPOINT) (requests_of (trace (snd run))) = [].
Proof. vm_compute. repeat split; reflexivity. Qed.

(** With a position held, the cycle ends at once with the short interval:
    the AI is not asked. *)
Example exposed_cycle_skips_the_ai :
  let run := run_dynamic_cycle ascii_lib demo_state (demo_exchange true true)
               (demo_ai prose_response) (start holding) in
  fst run = Ok CHECK_PENDING_ORDERS_INTERVAL
  /\ existsb (fun e => match e with AiCall => true | _ => false end) (trace (snd run)) = false.
Proof. vm_compute. split; reflexivity. Qed.

(** A whole cycle on the response whose take-profit price is NaN: the
    market order goes out and so do the two conditional orders. *)
Example nan_target_cycle :
  let run := run_dynamic_cycle ascii_lib demo_state (demo_exchange true true)
               (demo_ai nan_target_response) (start idle) in
  fst run = Ok AI_FREQUENCY
  /\ map endpoint (filter (fun r => String.eqb (meth r) "POST") (requests_of (trace (snd run))))
     = [ "/api/v5/trade/order"; "/api/v5/trade/order-algo"; "/api/v5/trade/order-algo" ].
Proof. vm_compute. split; reflexivity. Qed.
